(** * booksystem: the library database, its triggers and its repositories

    A shallow embedding of the PostgreSQL schema that the table managers
    under [database/tables] install (tables, CHECK constraints, the partial
    unique index on loans, trigger functions and stored functions) and of the
    repository methods under [database/repositories] that run statements
    against it.

    Conventions of the embedding.
    - A table is the list of its rows.  Only the columns that some trigger,
      constraint or statement below reads or writes are kept; the remaining
      descriptive columns (title, author, isbn, section, notes, ...) are never
      touched by that code.  Their own constraints (NOT NULL, UNIQUE and the
      CHECKs on title, author, isbn, publication_year, pages and
      acquisition_date of books) are therefore not part of an INSERT here:
      an INSERT INTO books that is refused here is refused by PostgreSQL,
      and one that completes here completes there, with the same effect on
      the columns kept, when those columns of the new row pass their
      constraints.
    - INTEGER, DATE (a day number) and TIMESTAMP columns are integers of [Z];
      the columns restricted by an [IN (...)] CHECK are enumerations.
    - [CURRENT_DATE] / [date.today()] is the parameter [today] and
      [CURRENT_TIMESTAMP] is the parameter [now].
    - A statement either completes or raises; a statement that raises leaves
      the database as it was, and the Python method that issued it catches
      the exception and returns its failure value.
    - The value a SERIAL column draws from its sequence is an argument of the
      INSERT; the primary key is checked against the rows already stored.
    - The foreign keys are not checked on their own: where an INSERT or
      UPDATE gets past its BEFORE triggers, these have looked up the row it
      refers to and raised if it is missing.  Their ON DELETE actions (CASCADE on
      loans, SET NULL on books.shelf_id) are part of the DELETE statements.
    - The range of INTEGER (32 bits) is not modelled: stored values are
      taken to lie in it, and a result that speaks of INTEGER arguments
      passed in from outside states the range as a hypothesis.
    - A Python str is the list of its code points. *)

From Stdlib Require Import ZArith NArith List Bool Lia String Ascii Permutation Sorted.
Import ListNotations.
Open Scope Z_scope.

(** ** Exceptions and the result of a statement *)

Inductive table_name := Shelves | Books | Loans.

Inductive pg_error :=
| ShelfNotFound (shelf : Z)       (* 'Shelf with ID % not found' *)
| NegativeCount (shelf : Z)       (* 'Cannot have negative book count on shelf %' *)
| CapacityExceeded (shelf : Z)    (* 'Shelf % capacity exceeded. ...' *)
| ShelfFull (shelf : Z)           (* 'Shelf % is at full capacity' *)
| BookNotFound (book : Z)         (* 'Book with ID % not found' *)
| BookUnavailable (book : Z)      (* 'Book % is not available for loan ...' *)
| StudentNotFound (student : Z)   (* 'Student with ID % not found' *)
| StudentInactive (student : Z)   (* 'Student % is not active ...' *)
| LoanLimitReached (student : Z)  (* 'Student % has reached maximum loan limit (%)' *)
| CheckViolation (t : table_name) (* a CHECK constraint of the table fails *)
| UniqueViolation (t : table_name) (* a primary key or unique index fails *)
| AmbiguousColumn (name : string). (* 'column reference "%" is ambiguous' *)

Inductive result (A : Type) : Type :=
| Ok (a : A)
| Raise (e : pg_error).
Arguments Ok {A} a.
Arguments Raise {A} e.

Definition bind {A B} (r : result A) (k : A -> result B) : result B :=
  match r with
  | Ok a => k a
  | Raise e => Raise e
  end.

Notation "x <- r ;; k" := (bind r (fun x => k))
  (at level 61, r at next level, right associativity).
Notation "' p <- r ;; k" := (bind r (fun x => match x with p => k end))
  (at level 61, p pattern, r at next level, right associativity).

Definition ensure (b : bool) (e : pg_error) : result unit :=
  if b then Ok tt else Raise e.

(** ** Rows *)

Module BookType.
Inductive t := physical | digital.
Definition eqb (a b : t) : bool :=
  match a, b with
  | physical, physical | digital, digital => true
  | _, _ => false
  end.
End BookType.

Module BookStatus.
Inductive t := available | loaned | maintenance | lost.
Definition eqb (a b : t) : bool :=
  match a, b with
  | available, available | loaned, loaned
  | maintenance, maintenance | lost, lost => true
  | _, _ => false
  end.
End BookStatus.

Module StudentStatus.
Inductive t := active | inactive | graduated.
Definition eqb (a b : t) : bool :=
  match a, b with
  | active, active | inactive, inactive | graduated, graduated => true
  | _, _ => false
  end.
End StudentStatus.

Module LoanStatus.
Inductive t := active | returned | overdue | lost.
Definition eqb (a b : t) : bool :=
  match a, b with
  | active, active | returned, returned
  | overdue, overdue | lost, lost => true
  | _, _ => false
  end.
End LoanStatus.

Record shelf := mkShelf {
  shelf_id : Z;
  location_code : string;
  total_capacity : Z;
  current_book_count : Z;
  shelf_updated_at : Z
}.

Record book := mkBook {
  book_id : Z;
  book_type : BookType.t;
  book_shelf_id : option Z;
  status : BookStatus.t;
  book_updated_at : Z
}.

Record student := mkStudent {
  student_id : Z;
  student_status : StudentStatus.t
}.

Record loan := mkLoan {
  loan_id : Z;
  loan_book_id : Z;
  loan_student_id : Z;
  loan_date : Z;
  estimated_return_date : Z;
  actual_return_date : option Z;
  loan_status : LoanStatus.t;
  renewal_count : Z;
  loan_updated_at : Z
}.

Record db := mkDb {
  shelves : list shelf;
  books : list book;
  students : list student;
  loans : list loan
}.

Definition empty_db : db := mkDb [] [] [] [].

Definition with_shelves (ss : list shelf) (d : db) : db :=
  mkDb ss (books d) (students d) (loans d).
Definition with_books (bs : list book) (d : db) : db :=
  mkDb (shelves d) bs (students d) (loans d).
Definition with_students (st : list student) (d : db) : db :=
  mkDb (shelves d) (books d) st (loans d).
Definition with_loans (ls : list loan) (d : db) : db :=
  mkDb (shelves d) (books d) (students d) ls.

(** The rows a trigger function receives: TG_OP with OLD and NEW. *)
Inductive tg_event (row : Type) : Type :=
| TG_INSERT (new : row)
| TG_UPDATE (old new : row)
| TG_DELETE (old : row).
Arguments TG_INSERT {row} new.
Arguments TG_UPDATE {row} old new.
Arguments TG_DELETE {row} old.

Definition opt_Z_eqb (a b : option Z) : bool :=
  match a, b with
  | Some x, Some y => x =? y
  | None, None => true
  | _, _ => false
  end.

(** ** shelves_table.py *)

(** chk_total_capacity_positive and chk_current_book_count_valid. *)
Definition shelves_check (s : shelf) : bool :=
  (0 <? total_capacity s)
  && ((0 <=? current_book_count s) && (current_book_count s <=? total_capacity s)).

(** update_shelves_updated_at, fired BEFORE UPDATE ON shelves. *)
Definition update_shelves_updated_at (now : Z) (new : shelf) : shelf :=
  mkShelf (shelf_id new) (location_code new) (total_capacity new)
          (current_book_count new) now.

Definition set_current_book_count (n : Z) (s : shelf) : shelf :=
  mkShelf (shelf_id s) (location_code s) (total_capacity s) n (shelf_updated_at s).

(** One row of [UPDATE shelves]: the BEFORE trigger, then the CHECKs. *)
Definition shelves_write_row (now : Z) (new : shelf) : result shelf :=
  let new := update_shelves_updated_at now new in
  _ <- ensure (shelves_check new) (CheckViolation Shelves) ;;
  Ok new.

(** [UPDATE shelves SET ... WHERE ...]: the new table and the row count. *)
Fixpoint shelves_update (wh : shelf -> bool) (set : shelf -> shelf) (now : Z)
    (ss : list shelf) : result (Z * list shelf) :=
  match ss with
  | [] => Ok (0, [])
  | s :: rest =>
      if wh s then
        new <- shelves_write_row now (set s) ;;
        ' (n, rest') <- shelves_update wh set now rest ;;
        Ok (1 + n, new :: rest')
      else
        ' (n, rest') <- shelves_update wh set now rest ;;
        Ok (n, s :: rest')
  end.

Definition find_shelf (id : Z) (ss : list shelf) : option shelf :=
  find (fun s => shelf_id s =? id) ss.

(** check_shelf_capacity(shelf_id_param). *)
Definition check_shelf_capacity (shelf_id_param : Z) (ss : list shelf) : result bool :=
  match find_shelf shelf_id_param ss with
  | None => Raise (ShelfNotFound shelf_id_param)
  | Some s =>
      let current_count := current_book_count s in
      let max_capacity := total_capacity s in
      Ok (current_count <? max_capacity)
  end.

(** update_shelf_book_count(shelf_id_param, count_change). *)
Definition update_shelf_book_count (now : Z) (shelf_id_param count_change : Z)
    (ss : list shelf) : result (list shelf) :=
  match find_shelf shelf_id_param ss with
  | None => Raise (ShelfNotFound shelf_id_param)
  | Some s =>
      let new_count := current_book_count s + count_change in
      let max_capacity := total_capacity s in
      if new_count <? 0 then Raise (NegativeCount shelf_id_param)
      else if new_count >? max_capacity then Raise (CapacityExceeded shelf_id_param)
      else
        ' (_, ss') <- shelves_update (fun r => shelf_id r =? shelf_id_param)
                                    (set_current_book_count new_count) now ss ;;
        Ok ss'
  end.

(** ShelvesTableManager.update_book_count. *)
Definition update_book_count (now : Z) (shelf_id count_change : Z) (d : db) : bool * db :=
  match update_shelf_book_count now shelf_id count_change (shelves d) with
  | Ok ss' => (true, with_shelves ss' d)
  | Raise _ => (false, d)
  end.

(** ShelvesTableManager.check_capacity: the stored function, False when it
    raises. *)
Definition check_capacity (shelf_id_arg : Z) (d : db) : bool :=
  match check_shelf_capacity shelf_id_arg (shelves d) with
  | Ok has_capacity => has_capacity
  | Raise _ => false
  end.

(** ** books_table.py *)

Definition is_physical (b : book) : bool := BookType.eqb (book_type b) BookType.physical.

(** chk_physical_book_has_shelf and chk_digital_book_no_shelf. *)
Definition books_check (b : book) : bool :=
  (BookType.eqb (book_type b) BookType.digital
   || match book_shelf_id b with Some _ => true | None => false end)
  && (BookType.eqb (book_type b) BookType.physical
      || match book_shelf_id b with Some _ => false | None => true end).

(** update_books_updated_at, fired BEFORE UPDATE ON books. *)
Definition update_books_updated_at (now : Z) (new : book) : book :=
  mkBook (book_id new) (book_type new) (book_shelf_id new) (status new) now.

(** validate_book_shelf_placement, fired BEFORE INSERT OR UPDATE ON books. *)
Definition validate_book_shelf_placement (new : book) (ss : list shelf) : result unit :=
  match book_type new, book_shelf_id new with
  | BookType.physical, Some sid =>
      has_capacity <- check_shelf_capacity sid ss ;;
      if negb has_capacity then Raise (ShelfFull sid) else Ok tt
  | _, _ => Ok tt
  end.

(** update_shelf_count_on_book_change, fired AFTER INSERT OR UPDATE OR DELETE
    ON books.  It only writes the shelves table. *)
Definition update_shelf_count_on_book_change (now : Z) (ev : tg_event book)
    (ss : list shelf) : result (list shelf) :=
  match ev with
  | TG_INSERT new =>
      match book_shelf_id new, book_type new with
      | Some sid, BookType.physical => update_shelf_book_count now sid 1 ss
      | _, _ => Ok ss
      end
  | TG_UPDATE old new =>
      (* If shelf changed for physical book *)
      ss1 <- (if negb (opt_Z_eqb (book_shelf_id old) (book_shelf_id new))
                 && BookType.eqb (book_type new) BookType.physical
              then
                ss' <- match book_shelf_id old with
                       | Some o => update_shelf_book_count now o (-1) ss
                       | None => Ok ss
                       end ;;
                match book_shelf_id new with
                | Some n => update_shelf_book_count now n 1 ss'
                | None => Ok ss'
                end
              else Ok ss) ;;
      (* If book type changed *)
      if negb (BookType.eqb (book_type old) (book_type new)) then
        ss2 <- match book_type old, book_shelf_id old with
               | BookType.physical, Some o => update_shelf_book_count now o (-1) ss1
               | _, _ => Ok ss1
               end ;;
        match book_type new, book_shelf_id new with
        | BookType.physical, Some n => update_shelf_book_count now n 1 ss2
        | _, _ => Ok ss2
        end
      else Ok ss1
  | TG_DELETE old =>
      match book_shelf_id old, book_type old with
      | Some sid, BookType.physical => update_shelf_book_count now sid (-1) ss
      | _, _ => Ok ss
      end
  end.

(** The AFTER ROW triggers of a statement fire once its rows are written,
    one event after the other. *)
Fixpoint fire_shelf_count (now : Z) (evs : list (tg_event book)) (ss : list shelf)
    : result (list shelf) :=
  match evs with
  | [] => Ok ss
  | ev :: rest =>
      ss' <- update_shelf_count_on_book_change now ev ss ;;
      fire_shelf_count now rest ss'
  end.

(** The rows of [UPDATE books SET ... WHERE ...]: for each row the WHERE
    clause selects, the BEFORE triggers (shelf validation, then the
    timestamp: they fire in name order) and the CHECKs.  The result is the
    new table and the (OLD, NEW) pairs for the AFTER triggers. *)
Fixpoint books_write_rows (wh : book -> bool) (set : book -> book) (now : Z)
    (ss : list shelf) (bs : list book) : result (list book * list (tg_event book)) :=
  match bs with
  | [] => Ok ([], [])
  | b :: rest =>
      if wh b then
        _ <- validate_book_shelf_placement (set b) ss ;;
        let new := update_books_updated_at now (set b) in
        _ <- ensure (books_check new) (CheckViolation Books) ;;
        ' (rest', evs) <- books_write_rows wh set now ss rest ;;
        Ok (new :: rest', TG_UPDATE b new :: evs)
      else
        ' (rest', evs) <- books_write_rows wh set now ss rest ;;
        Ok (b :: rest', evs)
  end.

(** [UPDATE books SET ... WHERE ...]: the row count and the new database. *)
Definition books_update (wh : book -> bool) (set : book -> book) (now : Z)
    (d : db) : result (Z * db) :=
  ' (bs', evs) <- books_write_rows wh set now (shelves d) (books d) ;;
  ss' <- fire_shelf_count now evs (shelves d) ;;
  Ok (Z.of_nat (List.length evs), with_shelves ss' (with_books bs' d)).

Definition set_status (st : BookStatus.t) (b : book) : book :=
  mkBook (book_id b) (book_type b) (book_shelf_id b) st (book_updated_at b).

Definition set_book_shelf_id (sid : option Z) (b : book) : book :=
  mkBook (book_id b) (book_type b) sid (status b) (book_updated_at b).

(** [UPDATE books SET status = st WHERE book_id = id], as the loan trigger
    and the update_status methods issue it. *)
Definition books_set_status (id : Z) (st : BookStatus.t) (now : Z) (d : db) : result (Z * db) :=
  books_update (fun b => book_id b =? id) (set_status st) now d.

(** BooksTableManager.move_book_to_shelf and BookRepository.move_to_shelf. *)
Definition move_book_to_shelf (now : Z) (book_id_arg new_shelf_id : Z) (d : db) : bool * db :=
  match books_update (fun b => (book_id b =? book_id_arg) && is_physical b)
                     (set_book_shelf_id (Some new_shelf_id)) now d with
  | Ok (rows_affected, d') => (0 <? rows_affected, d')
  | Raise _ => (false, d)
  end.

(** BooksTableManager.update_book_status: every value of [BookStatus.t] is in
    the method's list of accepted statuses. *)
Definition update_book_status (now : Z) (book_id_arg : Z) (new_status : BookStatus.t)
    (d : db) : bool * db :=
  match books_set_status book_id_arg new_status now d with
  | Ok (rows_affected, d') => (0 <? rows_affected, d')
  | Raise _ => (false, d)
  end.

(** The columns of [book_data] that BookRepository.create and
    BookRepository.update pass on, each present or not; [shelf_id] may be
    present with the value None. *)
Record book_data := mkBookData {
  bd_book_type : option BookType.t;
  bd_shelf_id : option (option Z);
  bd_status : option BookStatus.t
}.

Definition apply_book_data (bd : book_data) (b : book) : book :=
  mkBook (book_id b)
         (match bd_book_type bd with Some ty => ty | None => book_type b end)
         (match bd_shelf_id bd with Some sid => sid | None => book_shelf_id b end)
         (match bd_status bd with Some st => st | None => status b end)
         (book_updated_at b).

(** BookRepository.update, for the columns kept here. *)
Definition book_repository_update (now : Z) (book_id_arg : Z) (bd : book_data)
    (d : db) : bool * db :=
  match bd_book_type bd, bd_shelf_id bd, bd_status bd with
  | None, None, None => (false, d)
  | _, _, _ =>
      match books_update (fun b => book_id b =? book_id_arg) (apply_book_data bd) now d with
      | Ok (rows_affected, d') => (0 <? rows_affected, d')
      | Raise _ => (false, d)
      end
  end.

(** [INSERT INTO books], for the columns kept here: BEFORE trigger, the two
    CHECKs on the shelf, primary key, AFTER trigger. *)
Definition books_insert (now : Z) (new : book) (d : db) : result db :=
  _ <- validate_book_shelf_placement new (shelves d) ;;
  _ <- ensure (books_check new) (CheckViolation Books) ;;
  _ <- ensure (negb (existsb (fun b => book_id b =? book_id new) (books d)))
              (UniqueViolation Books) ;;
  ss' <- update_shelf_count_on_book_change now (TG_INSERT new) (shelves d) ;;
  Ok (with_shelves ss' (with_books (books d ++ [new]) d)).

(** BookRepository.create: [book_type] defaults to 'physical', [status] to
    'available', [shelf_id] to NULL; [new_id] is the value of the sequence. *)
Definition book_repository_create (now : Z) (new_id : Z) (bd : book_data)
    (d : db) : option Z * db :=
  let new := mkBook new_id
               (match bd_book_type bd with Some ty => ty | None => BookType.physical end)
               (match bd_shelf_id bd with Some sid => sid | None => None end)
               (match bd_status bd with Some st => st | None => BookStatus.available end)
               now in
  match books_insert now new d with
  | Ok d' => (Some new_id, d')
  | Raise _ => (None, d)
  end.

(** A Python str, as the list of its code points. *)
Definition str := list N.

Definition code (c : ascii) : N := N_of_ascii c.

(** [\s] in a str pattern: the code points for which Py_UNICODE_ISSPACE
    holds. *)
Definition is_space (c : N) : bool :=
  ((9 <=? c) && (c <=? 13) || (28 <=? c) && (c <=? 32)
   || (c =? 133) || (c =? 160) || (c =? 5760)
   || (8192 <=? c) && (c <=? 8202)
   || (c =? 8232) || (c =? 8233) || (c =? 8239) || (c =? 8287) || (c =? 12288))%N.

(** [[0-9]] and [[0-9X]]. *)
Definition is_digit (c : N) : bool := ((code "0" <=? c) && (c <=? code "9"))%N.

Definition is_digit_or_X (c : N) : bool := is_digit c || (c =? code "X")%N.

(** [re.sub(r'[-\s]', '', isbn)]. *)
Definition clean_isbn (isbn : str) : str :=
  filter (fun c => negb ((c =? code "-")%N || is_space c)) isbn.

(** The pattern [^[0-9]{9}[0-9X]$]: the whole string is nine digits and then
    a digit or X.  (In Python [$] also matches before a final line feed;
    _validate_isbn applies the pattern to a str of ten code points, which
    the pattern then covers to its end.) *)
Definition match_isbn10 (s : str) : bool :=
  (List.length s =? 10)%nat
  && forallb is_digit (firstn 9 s) && forallb is_digit_or_X (skipn 9 s).

(** The pattern [^97[89][0-9]{9}[0-9X]$]. *)
Definition match_isbn13 (s : str) : bool :=
  match s with
  | c1 :: c2 :: c3 :: rest =>
      (c1 =? code "9")%N && (c2 =? code "7")%N
      && ((c3 =? code "8") || (c3 =? code "9"))%N && match_isbn10 rest
  | _ => false
  end.

(** BooksTableManager._validate_isbn. *)
Definition _validate_isbn (isbn : str) : bool :=
  let clean_isbn := clean_isbn isbn in
  if (List.length clean_isbn =? 10)%nat then match_isbn10 clean_isbn
  else if (List.length clean_isbn =? 13)%nat then match_isbn13 clean_isbn
  else false.

(** chk_isbn_format: [isbn IS NULL OR isbn ~ '^(97[89])?[0-9]{9}[0-9X]$']. *)
Definition chk_isbn_format (isbn : option str) : bool :=
  match isbn with
  | None => true
  | Some s => match_isbn10 s || match_isbn13 s
  end.

(** ** loans_table.py *)

Definition is_open (l : loan) : bool :=
  match loan_status l with
  | LoanStatus.active | LoanStatus.overdue => true
  | _ => false
  end.

(** The CHECK constraints of the loans table, in the order of the CREATE
    TABLE statement. *)
Definition loans_check (today : Z) (l : loan) : bool :=
  (loan_date l <=? today)
  && (loan_date l <? estimated_return_date l)
  && match actual_return_date l with Some a => loan_date l <=? a | None => true end
  && (0 <=? renewal_count l)
  && (negb (LoanStatus.eqb (loan_status l) LoanStatus.returned)
      || match actual_return_date l with Some _ => true | None => false end)
  && (negb (LoanStatus.eqb (loan_status l) LoanStatus.active)
      || match actual_return_date l with Some _ => false | None => true end)
  && (estimated_return_date l <=? loan_date l + 365).

(** idx_loans_unique_active_book: a unique index on book_id over the rows
    WHERE loan_status IN ('active', 'overdue').  A row conflicts when it is
    in the index and another row of the table holds its key there. *)
Definition idx_loans_unique_active_book_conflict (new : loan) (others : list loan) : bool :=
  is_open new
  && existsb (fun l => is_open l && (loan_book_id l =? loan_book_id new)) others.

(** update_loans_updated_at, fired BEFORE UPDATE ON loans. *)
Definition update_loans_updated_at (now : Z) (new : loan) : loan :=
  mkLoan (loan_id new) (loan_book_id new) (loan_student_id new) (loan_date new)
         (estimated_return_date new) (actual_return_date new) (loan_status new)
         (renewal_count new) now.

(** calculate_estimated_return_date(loan_date_param, book_type_param). *)
Definition calculate_estimated_return_date (loan_date_param : Z)
    (book_type_param : BookType.t) : Z :=
  let default_loan_days := 14 in
  let digital_loan_days := 7 in
  match book_type_param with
  | BookType.digital => loan_date_param + digital_loan_days
  | _ => loan_date_param + default_loan_days
  end.

(** update_book_status_on_loan_change, fired AFTER INSERT OR UPDATE OR DELETE
    ON loans.  Each UPDATE of books it issues is a statement of its own, with
    the triggers of the books table. *)
Definition update_book_status_on_loan_change (now : Z) (ev : tg_event loan)
    (d : db) : result db :=
  match ev with
  | TG_INSERT new =>
      ' (_, d') <- books_set_status (loan_book_id new) BookStatus.loaned now d ;;
      Ok d'
  | TG_UPDATE old new =>
      (* If loan status changed to returned *)
      d1 <- (if negb (LoanStatus.eqb (loan_status old) LoanStatus.returned)
                && LoanStatus.eqb (loan_status new) LoanStatus.returned
             then ' (_, d') <- books_set_status (loan_book_id new) BookStatus.available now d ;;
                  Ok d'
             else Ok d) ;;
      (* If loan status changed from returned to active/overdue *)
      d2 <- (if LoanStatus.eqb (loan_status old) LoanStatus.returned && is_open new
             then ' (_, d') <- books_set_status (loan_book_id new) BookStatus.loaned now d1 ;;
                  Ok d'
             else Ok d1) ;;
      (* If loan status changed to lost *)
      if negb (LoanStatus.eqb (loan_status old) LoanStatus.lost)
         && LoanStatus.eqb (loan_status new) LoanStatus.lost
      then ' (_, d') <- books_set_status (loan_book_id new) BookStatus.lost now d2 ;;
           Ok d'
      else Ok d2
  | TG_DELETE old =>
      (* Only update book status if the loan was active *)
      if is_open old
      then ' (_, d') <- books_set_status (loan_book_id old) BookStatus.available now d ;;
           Ok d'
      else Ok d
  end.

Fixpoint fire_book_status (now : Z) (evs : list (tg_event loan)) (d : db) : result db :=
  match evs with
  | [] => Ok d
  | ev :: rest =>
      d' <- update_book_status_on_loan_change now ev d ;;
      fire_book_status now rest d'
  end.

(** The columns an INSERT INTO loans supplies; estimated_return_date may be
    left out.  The other columns take their defaults. *)
Record new_loan := mkNewLoan {
  nl_loan_id : Z;
  nl_book_id : Z;
  nl_student_id : Z;
  nl_loan_date : Z;
  nl_estimated_return_date : option Z
}.

Definition find_book (id : Z) (bs : list book) : option book :=
  find (fun b => book_id b =? id) bs.

Definition find_student (id : Z) (st : list student) : option student :=
  find (fun s => student_id s =? id) st.

(** COUNT of the loans of a student WHERE loan_status IN ('active', 'overdue'). *)
Definition active_loans_of_student (id : Z) (ls : list loan) : Z :=
  Z.of_nat (List.length (filter (fun l => (loan_student_id l =? id) && is_open l) ls)).

(** The first statement of validate_loan_creation,
    [SELECT status, book_type INTO book_status, book_type FROM books
     WHERE book_id = NEW.book_id].
    The function declares a variable book_type, and books has a column of
    that name: in the select list the name stands for both.  PL/pgSQL
    settles such a name by plpgsql.variable_conflict; neither the function
    (no #variable_conflict) nor the connection code sets it, so its
    default, error, applies, and the statement raises 'column reference
    "book_type" is ambiguous' when it is analysed, before any row is read. *)
Definition select_status_book_type (id : Z) (bs : list book)
    : result (option (BookStatus.t * BookType.t)) :=
  Raise (AmbiguousColumn "book_type").

(** validate_loan_creation, fired BEFORE INSERT ON loans; it returns
    NEW.estimated_return_date as the trigger leaves it. *)
Definition validate_loan_creation (new : new_loan) (d : db) : result Z :=
  let max_loans := 5 in
  found <- select_status_book_type (nl_book_id new) (books d) ;;
  match found with
  | None => Raise (BookNotFound (nl_book_id new))
  | Some (book_status, book_type) =>
      if negb (BookStatus.eqb book_status BookStatus.available)
      then Raise (BookUnavailable (nl_book_id new))
      else
        match find_student (nl_student_id new) (students d) with
        | None => Raise (StudentNotFound (nl_student_id new))
        | Some s =>
            let student_status := student_status s in
            if negb (StudentStatus.eqb student_status StudentStatus.active)
            then Raise (StudentInactive (nl_student_id new))
            else
              let active_loans_count := active_loans_of_student (nl_student_id new) (loans d) in
              if active_loans_count >=? max_loans
              then Raise (LoanLimitReached (nl_student_id new))
              else
                match nl_estimated_return_date new with
                | None => Ok (calculate_estimated_return_date (nl_loan_date new) book_type)
                | Some e => Ok e
                end
        end
  end.

(** [INSERT INTO loans]: BEFORE trigger, defaults, CHECKs, primary key,
    unique index, AFTER trigger.  The foreign keys add nothing: the BEFORE
    trigger comes first, and it looks up the book and the student. *)
Definition loans_insert (today now : Z) (nl : new_loan) (d : db) : result db :=
  est <- validate_loan_creation nl d ;;
  let new := mkLoan (nl_loan_id nl) (nl_book_id nl) (nl_student_id nl) (nl_loan_date nl)
                    est None LoanStatus.active 0 now in
  _ <- ensure (loans_check today new) (CheckViolation Loans) ;;
  _ <- ensure (negb (existsb (fun l => loan_id l =? loan_id new) (loans d)))
              (UniqueViolation Loans) ;;
  _ <- ensure (negb (idx_loans_unique_active_book_conflict new (loans d)))
              (UniqueViolation Loans) ;;
  update_book_status_on_loan_change now (TG_INSERT new) (with_loans (loans d ++ [new]) d).

(** The rows of [UPDATE loans SET ... WHERE ...], written one after the
    other: [done] holds the rows already passed (as they now are), [todo]
    the rows still to visit.  For each selected row: the BEFORE trigger, the
    CHECKs, then the unique index against the other rows of the table. *)
Fixpoint loans_write_rows (wh : loan -> bool) (set : loan -> loan) (today now : Z)
    (done todo : list loan) : result (list loan * list (tg_event loan)) :=
  match todo with
  | [] => Ok (done, [])
  | l :: rest =>
      if wh l then
        let new := update_loans_updated_at now (set l) in
        _ <- ensure (loans_check today new) (CheckViolation Loans) ;;
        _ <- ensure (negb (idx_loans_unique_active_book_conflict new (done ++ rest)))
                    (UniqueViolation Loans) ;;
        ' (t, evs) <- loans_write_rows wh set today now (done ++ [new]) rest ;;
        Ok (t, TG_UPDATE l new :: evs)
      else loans_write_rows wh set today now (done ++ [l]) rest
  end.

(** [UPDATE loans SET ... WHERE ...]: the row count and the new database. *)
Definition loans_update (wh : loan -> bool) (set : loan -> loan) (today now : Z)
    (d : db) : result (Z * db) :=
  ' (ls', evs) <- loans_write_rows wh set today now [] (loans d) ;;
  d' <- fire_book_status now evs (with_loans ls' d) ;;
  Ok (Z.of_nat (List.length evs), d').

(** [DELETE FROM loans WHERE ...]. *)
Definition loans_delete (wh : loan -> bool) (now : Z) (d : db) : result (Z * db) :=
  let gone := filter wh (loans d) in
  let d1 := with_loans (filter (fun l => negb (wh l)) (loans d)) d in
  d' <- fire_book_status now (map TG_DELETE gone) d1 ;;
  Ok (Z.of_nat (List.length gone), d').

(** [DELETE FROM loans WHERE loan_id = id]. *)
Definition delete_loan (now : Z) (id : Z) (d : db) : result (Z * db) :=
  loans_delete (fun l => loan_id l =? id) now d.

(** [DELETE FROM books WHERE book_id = id]: the loans of the book are
    deleted with it (ON DELETE CASCADE), then the AFTER DELETE trigger of
    books fires. *)
Definition books_delete (id : Z) (now : Z) (d : db) : result (Z * db) :=
  let gone := filter (fun b => book_id b =? id) (books d) in
  let d1 := with_books (filter (fun b => negb (book_id b =? id)) (books d)) d in
  ' (_, d2) <- loans_delete (fun l => loan_book_id l =? id) now d1 ;;
  ss' <- fire_shelf_count now (map TG_DELETE gone) (shelves d2) ;;
  Ok (Z.of_nat (List.length gone), with_shelves ss' d2).

(** BookRepository.delete. *)
Definition book_repository_delete (now : Z) (id : Z) (d : db) : bool * db :=
  match books_delete id now d with
  | Ok (rows_affected, d') => (0 <? rows_affected, d')
  | Raise _ => (false, d)
  end.

(** StudentRepository.delete: [DELETE FROM students WHERE student_id = id],
    with the ON DELETE CASCADE of loans.student_id. *)
Definition student_repository_delete (now : Z) (id : Z) (d : db) : bool * db :=
  let gone := filter (fun s => student_id s =? id) (students d) in
  let d1 := with_students (filter (fun s => negb (student_id s =? id)) (students d)) d in
  match loans_delete (fun l => loan_student_id l =? id) now d1 with
  | Ok (_, d') => (0 <? Z.of_nat (List.length gone), d')
  | Raise _ => (false, d)
  end.

(** LoansTableManager.validate_loan_data on the dictionary that create_loan
    builds (book_id, student_id, loan_date, estimated_return_date, notes):
    the list of messages. *)
Definition validate_loan_data (today : Z) (book_id student_id loan_date : Z)
    (estimated_return_date : option Z) : list string :=
  (if book_id =? 0 then ["book_id is required"%string] else [])
  ++ (if student_id =? 0 then ["student_id is required"%string] else [])
  ++ (if loan_date >? today then ["Loan date cannot be in the future"%string] else [])
  ++ match estimated_return_date with
     | Some e =>
         (if e <=? loan_date
          then ["Estimated return date must be after loan date"%string] else [])
         ++ (if e - loan_date >? 365
             then ["Loan period cannot exceed 365 days"%string] else [])
     | None => []
     end.

(** [if d is None: d = date.today()]. *)
Definition default_date (today : Z) (given : option Z) : Z :=
  match given with Some x => x | None => today end.

(** LoansTableManager.create_loan. *)
Definition create_loan (today now : Z) (new_id : Z) (book_id student_id : Z)
    (loan_date estimated_return_date : option Z) (d : db) : option Z * db :=
  let loan_date := default_date today loan_date in
  match validate_loan_data today book_id student_id loan_date estimated_return_date with
  | _ :: _ => (None, d)
  | [] =>
      match loans_insert today now
              (mkNewLoan new_id book_id student_id loan_date estimated_return_date) d with
      | Ok d' => (Some new_id, d')
      | Raise _ => (None, d)
      end
  end.

(** LoanRepository.create_loan. *)
Definition loan_repository_create_loan (today now : Z) (new_id : Z) (book_id student_id : Z)
    (loan_date estimated_return_date : option Z) (d : db) : option Z * db :=
  let loan_date := default_date today loan_date in
  let estimated_return_date :=
    match estimated_return_date with Some e => e | None => loan_date + 14 end in
  match loans_insert today now
          (mkNewLoan new_id book_id student_id loan_date (Some estimated_return_date)) d with
  | Ok d' => (Some new_id, d')
  | Raise _ => (None, d)
  end.

Definition set_returned (return_date : Z) (l : loan) : loan :=
  mkLoan (loan_id l) (loan_book_id l) (loan_student_id l) (loan_date l)
         (estimated_return_date l) (Some return_date) LoanStatus.returned
         (renewal_count l) (loan_updated_at l).

Definition set_loan_status (st : LoanStatus.t) (l : loan) : loan :=
  mkLoan (loan_id l) (loan_book_id l) (loan_student_id l) (loan_date l)
         (estimated_return_date l) (actual_return_date l) st
         (renewal_count l) (loan_updated_at l).

Definition set_renewed (new_return_date : Z) (l : loan) : loan :=
  mkLoan (loan_id l) (loan_book_id l) (loan_student_id l) (loan_date l)
         new_return_date (actual_return_date l) (loan_status l)
         (renewal_count l + 1) (loan_updated_at l).

(** LoansTableManager.return_book and LoanRepository.return_book. *)
Definition return_book (today now : Z) (loan_id_arg : Z) (return_date : option Z)
    (d : db) : bool * db :=
  let return_date := default_date today return_date in
  match loans_update (fun l => (loan_id l =? loan_id_arg) && is_open l)
                     (set_returned return_date) today now d with
  | Ok (rows_affected, d') => (0 <? rows_affected, d')
  | Raise _ => (false, d)
  end.

(** LoansTableManager.renew_loan and LoanRepository.renew_loan. *)
Definition renew_loan (today now : Z) (loan_id_arg : Z) (new_return_date : Z)
    (d : db) : bool * db :=
  match loans_update (fun l => (loan_id l =? loan_id_arg)
                               && LoanStatus.eqb (loan_status l) LoanStatus.active)
                     (set_renewed new_return_date) today now d with
  | Ok (rows_affected, d') => (0 <? rows_affected, d')
  | Raise _ => (false, d)
  end.

(** LoanRepository.update_status. *)
Definition loan_repository_update_status (today now : Z) (loan_id_arg : Z)
    (st : LoanStatus.t) (d : db) : bool * db :=
  match loans_update (fun l => loan_id l =? loan_id_arg) (set_loan_status st) today now d with
  | Ok (rows_affected, d') => (0 <? rows_affected, d')
  | Raise _ => (false, d)
  end.

(** The WHERE clause of the overdue sweep. *)
Definition is_past_due (today : Z) (l : loan) : bool :=
  LoanStatus.eqb (loan_status l) LoanStatus.active
  && match actual_return_date l with None => true | Some _ => false end
  && (estimated_return_date l <? today).

(** The stored function update_overdue_loans(): the UPDATE and its ROW_COUNT.
    LoanRepository.update_overdue_loans issues the same UPDATE directly. *)
Definition pg_update_overdue_loans (today now : Z) (d : db) : result (Z * db) :=
  loans_update (is_past_due today) (set_loan_status LoanStatus.overdue) today now d.

(** LoansTableManager.update_overdue_loans and
    LoanRepository.update_overdue_loans. *)
Definition update_overdue_loans (today now : Z) (d : db) : Z * db :=
  match pg_update_overdue_loans today now d with
  | Ok (updated_count, d') => (updated_count, d')
  | Raise _ => (0, d)
  end.

(** ** shelf_repository.py *)

(** COUNT of the books joined to a shelf: books.shelf_id = the shelf AND
    book_type = 'physical'. *)
Definition count_physical_books (sid : Z) (bs : list book) : Z :=
  Z.of_nat (List.length
    (filter (fun b => opt_Z_eqb (book_shelf_id b) (Some sid) && is_physical b) bs)).

Record consistency_row := mkConsistencyRow {
  cr_shelf_id : Z;
  cr_location_code : string;
  cr_actual_book_count : Z;
  cr_recorded_count : Z;
  cr_status : string
}.

(** ORDER BY location_code. *)
Fixpoint insert_by_location_code (r : consistency_row) (rs : list consistency_row)
    : list consistency_row :=
  match rs with
  | [] => [r]
  | x :: rest =>
      if String.leb (cr_location_code r) (cr_location_code x)
      then r :: x :: rest
      else x :: insert_by_location_code r rest
  end.

Definition order_by_location_code (rs : list consistency_row) : list consistency_row :=
  fold_right insert_by_location_code [] rs.

(** ShelfRepository.validate_capacity_consistency.  shelf_id is the primary
    key of shelves, so each group of the GROUP BY is one shelf. *)
Definition validate_capacity_consistency (d : db) : list consistency_row :=
  let grouped :=
    map (fun s =>
           let actual := count_physical_books (shelf_id s) (books d) in
           mkConsistencyRow (shelf_id s) (location_code s) actual (current_book_count s)
             (if actual =? current_book_count s then "OK"%string else "MISMATCH"%string))
        (shelves d) in
  let having :=
    filter (fun r => negb (cr_actual_book_count r =? cr_recorded_count r)) grouped in
  order_by_location_code having.

(** ShelfRepository.fix_capacity_counts: an UPDATE of every row of shelves;
    the method returns the row count of the statement. *)
Definition fix_capacity_counts (now : Z) (d : db) : Z * db :=
  match shelves_update (fun _ => true)
          (fun s => set_current_book_count (count_physical_books (shelf_id s) (books d)) s)
          now (shelves d) with
  | Ok (rows_affected, ss') => (rows_affected, with_shelves ss' d)
  | Raise _ => (0, d)
  end.

(** ShelfRepository.check_capacity: the first row of
    [SELECT (total_capacity - current_book_count) > 0 FROM shelves
     WHERE shelf_id = %s], False when there is none. *)
Definition shelf_repository_check_capacity (shelf_id_arg : Z) (d : db) : bool :=
  match map (fun s => total_capacity s - current_book_count s >? 0)
            (filter (fun s => shelf_id s =? shelf_id_arg) (shelves d)) with
  | has_capacity :: _ => has_capacity
  | [] => false
  end.

(** ORDER BY (total_capacity - current_book_count) DESC, location_code:
    whether row [a] may stand before row [b]. *)
Definition by_available_space (a b : shelf) : bool :=
  let space_a := total_capacity a - current_book_count a in
  let space_b := total_capacity b - current_book_count b in
  (space_a >? space_b)
  || ((space_a =? space_b) && String.leb (location_code a) (location_code b)).

Fixpoint insert_by_available_space (r : shelf) (rs : list shelf) : list shelf :=
  match rs with
  | [] => [r]
  | x :: rest =>
      if by_available_space r x then r :: x :: rest
      else x :: insert_by_available_space r rest
  end.

(** ShelfRepository.get_available_shelves(min_capacity). *)
Definition get_available_shelves (min_capacity : Z) (d : db) : list shelf :=
  fold_right insert_by_available_space []
    (filter (fun s => total_capacity s - current_book_count s >=? min_capacity) (shelves d)).




(** ** loan_repository.py: the overdue report *)

(** The rows of [loans l JOIN books b ON l.book_id = b.book_id
    JOIN students s ON l.student_id = s.student_id]. *)
Definition loans_join_books_students (d : db) : list (loan * book * student) :=
  flat_map (fun l =>
    flat_map (fun b =>
      if loan_book_id l =? book_id b
      then flat_map (fun s =>
             if loan_student_id l =? student_id s then [(l, b, s)] else [])
             (students d)
      else [])
      (books d))
    (loans d).

(** A row of LoanRepository.get_overdue_loans: the joined rows and the
    computed column days_overdue. *)
Record overdue_row := mkOverdueRow {
  or_loan : loan;
  or_book : book;
  or_student : student;
  or_days_overdue : Z
}.

(** The WHERE clause of get_overdue_loans. *)
Definition reported_overdue (today : Z) (l : loan) : bool :=
  LoanStatus.eqb (loan_status l) LoanStatus.overdue
  || (LoanStatus.eqb (loan_status l) LoanStatus.active && (estimated_return_date l <? today)).

(** ORDER BY l.estimated_return_date.  (SQL leaves the order of rows with
    the same date open; here they keep the order of the join.) *)
Fixpoint insert_by_estimated_return_date (r : overdue_row) (rs : list overdue_row)
    : list overdue_row :=
  match rs with
  | [] => [r]
  | x :: rest =>
      if estimated_return_date (or_loan r) <=? estimated_return_date (or_loan x)
      then r :: x :: rest
      else x :: insert_by_estimated_return_date r rest
  end.

(** LoanRepository.get_overdue_loans. *)
Definition get_overdue_loans (today : Z) (d : db) : list overdue_row :=
  fold_right insert_by_estimated_return_date []
    (map (fun j => mkOverdueRow (fst (fst j)) (snd (fst j)) (snd j)
                     (today - estimated_return_date (fst (fst j))))
       (filter (fun j => reported_overdue today (fst (fst j)))
          (loans_join_books_students d))).

(** ** The mutating methods as operations *)

Inductive operation :=
| CreateLoan (today now new_id book_id student_id : Z) (loan_date est : option Z)
| RepositoryCreateLoan (today now new_id book_id student_id : Z) (loan_date est : option Z)
| ReturnBook (today now id : Z) (return_date : option Z)
| RenewLoan (today now id new_return_date : Z)
| UpdateLoanStatus (today now id : Z) (st : LoanStatus.t)
| UpdateOverdueLoans (today now : Z)
| CreateBook (now new_id : Z) (bd : book_data)
| UpdateBook (now id : Z) (bd : book_data)
| MoveBookToShelf (now id new_shelf_id : Z)
| UpdateBookStatus (now id : Z) (st : BookStatus.t)
| DeleteBook (now id : Z)
| DeleteStudent (now id : Z)
| UpdateBookCount (now sid count_change : Z)
| FixCapacityCounts (now : Z).

Definition exec (op : operation) (d : db) : db :=
  match op with
  | CreateLoan today now new_id b s ld est => snd (create_loan today now new_id b s ld est d)
  | RepositoryCreateLoan today now new_id b s ld est =>
      snd (loan_repository_create_loan today now new_id b s ld est d)
  | ReturnBook today now id rd => snd (return_book today now id rd d)
  | RenewLoan today now id nd => snd (renew_loan today now id nd d)
  | UpdateLoanStatus today now id st => snd (loan_repository_update_status today now id st d)
  | UpdateOverdueLoans today now => snd (update_overdue_loans today now d)
  | CreateBook now new_id bd => snd (book_repository_create now new_id bd d)
  | UpdateBook now id bd => snd (book_repository_update now id bd d)
  | MoveBookToShelf now id sid => snd (move_book_to_shelf now id sid d)
  | UpdateBookStatus now id st => snd (update_book_status now id st d)
  | DeleteBook now id => snd (book_repository_delete now id d)
  | DeleteStudent now id => snd (student_repository_delete now id d)
  | UpdateBookCount now sid change => snd (update_book_count now sid change d)
  | FixCapacityCounts now => snd (fix_capacity_counts now d)
  end.

Definition run (ops : list operation) (d : db) : db :=
  fold_left (fun d op => exec op d) ops d.

(** ** Properties and derived tables *)

(** The number of loans of a book with loan_status IN ('active', 'overdue'). *)
Definition open_loans_of_book (b : Z) (ls : list loan) : nat :=
  List.length (filter (fun l => is_open l && (loan_book_id l =? b)) ls).

(** No double lending: at most one open loan for every book. *)
Definition unique_active_book (ls : list loan) : Prop :=
  forall b, (open_loans_of_book b ls <= 1)%nat.

(** The rows of shelves satisfy the CHECK constraints and the primary key
    of the table. *)
Definition shelves_stored (ss : list shelf) : Prop :=
  NoDup (map shelf_id ss) /\ Forall (fun s => shelves_check s = true) ss.

(** The shelves row [s] after a count adjustment at time [now]. *)
Definition adjusted (now n : Z) (s : shelf) : shelf :=
  mkShelf (shelf_id s) (location_code s) (total_capacity s) n now.

(** Every row of book [id] passes the BEFORE UPDATE shelf validation and the
    CHECKs of the books table: the book is digital and has no shelf, or it
    is physical and its shelf exists with current_book_count below
    total_capacity. *)
Definition book_row_writable (d : db) (id : Z) : Prop :=
  forall b, In b (books d) -> book_id b = id ->
            validate_book_shelf_placement b (shelves d) = Ok tt /\ books_check b = true.

(** The books table after [UPDATE books SET status = st WHERE book_id = id]. *)
Definition books_with_status (id : Z) (st : BookStatus.t) (now : Z) (bs : list book)
    : list book :=
  map (fun b => if book_id b =? id
                then update_books_updated_at now (set_status st b) else b) bs.

(** The loans table after [UPDATE loans SET ... WHERE ...]: the selected
    rows rewritten and stamped by the timestamp trigger. *)
Definition loans_rewritten (wh : loan -> bool) (set : loan -> loan) (now : Z)
    (ls : list loan) : list loan :=
  map (fun l => if wh l then update_loans_updated_at now (set l) else l) ls.

(** The database after loan [l] is returned on day [rd] at time [now]. *)
Definition after_return (l : loan) (rd now : Z) (d : db) : db :=
  with_books (books_with_status (loan_book_id l) BookStatus.available now (books d))
    (with_loans
       (loans_rewritten (fun x => (loan_id x =? loan_id l) && is_open x)
                        (set_returned rd) now (loans d)) d).

(** The eligibility rule of loan creation. *)
Definition eligible (book_id_arg student_id_arg : Z) (d : db) : Prop :=
  exists b s,
    find_book book_id_arg (books d) = Some b /\ status b = BookStatus.available
    /\ find_student student_id_arg (students d) = Some s
    /\ student_status s = StudentStatus.active
    /\ active_loans_of_student student_id_arg (loans d) < 5.

(** The range of INTEGER, the type of both parameters of
    update_shelf_book_count and of its variable new_count. *)
Definition int4_min : Z := -2147483648.
Definition int4_max : Z := 2147483647.

Definition is_int4 (z : Z) : Prop := int4_min <= z <= int4_max.

(** The recorded count of a shelf, when the shelf exists. *)
Definition shelf_count (id : Z) (ss : list shelf) : option Z :=
  match find_shelf id ss with
  | Some s => Some (current_book_count s)
  | None => None
  end.

(** The shelves table after the count of shelf [id] is set to [n]. *)
Definition shelves_adjusted (now id n : Z) (ss : list shelf) : list shelf :=
  map (fun r => if shelf_id r =? id then adjusted now n r else r) ss.

(** The books table after the physical book [id] is moved to shelf [n]. *)
Definition books_moved (now id n : Z) (bs : list book) : list book :=
  map (fun x => if (book_id x =? id) && is_physical x
                then update_books_updated_at now (set_book_shelf_id (Some n) x) else x) bs.

(** A shelf whose recorded count differs from the number of physical books
    that refer to it, and the row reported for it. *)
Definition is_drifted (bs : list book) (s : shelf) : bool :=
  negb (count_physical_books (shelf_id s) bs =? current_book_count s).

Definition drift_row (bs : list book) (s : shelf) : consistency_row :=
  mkConsistencyRow (shelf_id s) (location_code s)
    (count_physical_books (shelf_id s) bs) (current_book_count s) "MISMATCH".

(** The shelves row [s] with the recomputed count, written at time [now]. *)
Definition recounted (bs : list book) (now : Z) (s : shelf) : shelf :=
  mkShelf (shelf_id s) (location_code s) (total_capacity s)
          (count_physical_books (shelf_id s) bs) now.

(** A physical book that refers to shelf [k]: the rows count_physical_books
    counts. *)
Definition on_shelf (k : Z) (b : book) : bool :=
  opt_Z_eqb (book_shelf_id b) (Some k) && is_physical b.

Definition on_shelf_Z (k : Z) (b : book) : Z := if on_shelf k b then 1 else 0.

(** The change of the number of physical books on shelf [k] that a row event
    of books stands for. *)
Definition event_delta (k : Z) (ev : tg_event book) : Z :=
  match ev with
  | TG_INSERT new => on_shelf_Z k new
  | TG_UPDATE old new => on_shelf_Z k new - on_shelf_Z k old
  | TG_DELETE old => - on_shelf_Z k old
  end.

Definition events_delta (k : Z) (evs : list (tg_event book)) : Z :=
  fold_right (fun ev acc => event_delta k ev + acc) 0 evs.

(** The count of shelf [k] is [x] more in [ss'] than in [ss]. *)
Definition shifted (k x : Z) (ss ss' : list shelf) : Prop :=
  shelf_count k ss'
  = match shelf_count k ss with Some c => Some (c + x) | None => None end.

(** The row events on which update_shelf_count_on_book_change adjusts the
    counts by exactly the change of the books: all of them except the UPDATE
    of a digital book into a physical one.  OLD and NEW satisfy the CHECKs
    of the books table. *)
Definition counted_once (ev : tg_event book) : Prop :=
  match ev with
  | TG_UPDATE old new =>
      books_check old = true /\ books_check new = true
      /\ ~ (book_type old = BookType.digital /\ book_type new = BookType.physical)
  | _ => True
  end.

(** The ledger invariant: every shelf records the number of physical books
    that refer to it. *)
Definition counts_consistent (d : db) : Prop :=
  forall k c, shelf_count k (shelves d) = Some c -> c = count_physical_books k (books d).

(** [y] differs from [x] at most in the loans and in columns of books that
    neither the shelf counts nor the CHECKs of books read. *)
Definition same_placement (x y : db) : Prop :=
  shelves y = shelves x
  /\ (forall k, count_physical_books k (books y) = count_physical_books k (books x))
  /\ (Forall (fun b => books_check b = true) (books x) ->
      Forall (fun b => books_check b = true) (books y)).

(** The operations that move the shelf counts together with the books: all
    but the direct adjustment of a count and the update that makes a book
    physical. *)
Definition keeps_ledger (op : operation) : Prop :=
  match op with
  | UpdateBookCount _ _ _ => False
  | UpdateBook _ _ bd => bd_book_type bd <> Some BookType.physical
  | _ => True
  end.

(** Every row of shelves satisfies the CHECKs of the table:
    0 <= current_book_count <= total_capacity and total_capacity > 0. *)
Definition shelves_checked (ss : list shelf) : Prop :=
  Forall (fun s => shelves_check s = true) ss.

(** The row BookRepository.create inserts. *)
Definition created_book (now new_id : Z) (bd : book_data) : book :=
  mkBook new_id
    (match bd_book_type bd with Some ty => ty | None => BookType.physical end)
    (match bd_shelf_id bd with Some sid => sid | None => None end)
    (match bd_status bd with Some st => st | None => BookStatus.available end)
    now.

(** No stored book has the key [id]. *)
Definition fresh_book_id (id : Z) (d : db) : Prop :=
  forall b, In b (books d) -> book_id b <> id.

(** total_capacity - current_book_count, the free places of a shelf. *)
Definition available_space (s : shelf) : Z := total_capacity s - current_book_count s.

(** The foreign key loans.book_id REFERENCES books(book_id): every loan
    refers to a stored book. *)
Definition loans_reference_books (d : db) : Prop :=
  forall l, In l (loans d) -> exists b, In b (books d) /\ book_id b = loan_book_id l.

(** The database without book [id] and without the loans of that book. *)
Definition without_book (id : Z) (d : db) : db :=
  with_books (filter (fun b => negb (book_id b =? id)) (books d))
    (with_loans (filter (fun l => negb (loan_book_id l =? id)) (loans d)) d).

(** The books table after the AFTER trigger of loans has run for the loans
    [gone] that a statement has deleted or closed as returned: the book of
    every open one is available. *)
Definition books_released (now : Z) (gone : list loan) (bs : list book) : list book :=
  map (fun b => if existsb (fun l => is_open l && (loan_book_id l =? book_id b)) gone
                then update_books_updated_at now (set_status BookStatus.available b)
                else b) bs.

(** A shelf that is missing or has no free place: check_shelf_capacity
    raises or returns false. *)
Definition shelf_blocked (sid : Z) (ss : list shelf) : Prop :=
  forall s, find_shelf sid ss = Some s -> total_capacity s <= current_book_count s.

(** The loan row [l] after a renewal to [nd] at time [now]. *)
Definition renewed (nd now : Z) (l : loan) : loan :=
  mkLoan (loan_id l) (loan_book_id l) (loan_student_id l) (loan_date l) nd
         (actual_return_date l) (loan_status l) (renewal_count l + 1) now.

(** The database after [UPDATE loans SET loan_status = st WHERE loan_id = id]
    has set the book of the loan to [bst]. *)
Definition after_status (id : Z) (st : LoanStatus.t) (book : Z) (bst : BookStatus.t)
    (now : Z) (d : db) : db :=
  with_books (books_with_status book bst now (books d))
    (with_loans (loans_rewritten (fun x => loan_id x =? id) (set_loan_status st) now
                   (loans d)) d).

(** The loan limit of validate_loan_creation, as a property of the table: no
    student holds more than max_loans = 5 open loans. *)
Definition within_loan_limit (ls : list loan) : Prop :=
  forall s, active_loans_of_student s ls <= 5.

(** The operations that open no loan without the BEFORE INSERT trigger: all
    but a LoanRepository.update_status to 'active' or 'overdue'. *)
Definition keeps_loan_limit (op : operation) : Prop :=
  match op with
  | UpdateLoanStatus _ _ _ st => st = LoanStatus.returned \/ st = LoanStatus.lost
  | _ => True
  end.

(** No loan of [y] is new: every loan_id of [y] is one of [x], and [y] holds
    no more loans than [x]. *)
Definition no_loan_added (x y : db) : Prop :=
  incl (map loan_id (loans y)) (map loan_id (loans x))
  /\ (List.length (loans y) <= List.length (loans x))%nat.

(** What identifies a reported row: the loan, its book and student, the due
    date and the days overdue. *)
Definition overdue_key (r : overdue_row) : Z * Z * Z * Z * Z :=
  (loan_id (or_loan r), book_id (or_book r), student_id (or_student r),
   estimated_return_date (or_loan r), or_days_overdue r).

(** The row the overdue sweep leaves for loan [l]. *)
Definition swept (today now : Z) (l : loan) : loan :=
  if is_past_due today l
  then update_loans_updated_at now (set_loan_status LoanStatus.overdue l) else l.

(** The books table after [UPDATE books SET ... WHERE book_id = id] with the
    columns of [bd]. *)
Definition books_updated (now id : Z) (bd : book_data) (bs : list book) : list book :=
  map (fun x => if book_id x =? id
                then update_books_updated_at now (apply_book_data bd x) else x) bs.

(** Every stored book with an open loan has status 'loaned'. *)
Definition lent_books_loaned (d : db) : Prop :=
  forall l b, In l (loans d) -> is_open l = true ->
              In b (books d) -> book_id b = loan_book_id l ->
              status b = BookStatus.loaned.

(** The operations through which the status of a book follows its loans:
    all but the direct writes of a status (of a book by update_book_status
    and by BookRepository.update with a status, of a loan by
    LoanRepository.update_status). *)
Definition keeps_lending (op : operation) : Prop :=
  match op with
  | UpdateBookStatus _ _ _ => False
  | UpdateBook _ _ bd => bd_status bd = None
  | UpdateLoanStatus _ _ _ _ => False
  | _ => True
  end.

(** The foreign key, the unique index and the status of the lent books. *)
Definition circulation_consistent (d : db) : Prop :=
  loans_reference_books d /\ unique_active_book (loans d) /\ lent_books_loaned d.

(** ** Example databases *)

Definition ledger_example : db :=
  mkDb [mkShelf 1 "A1" 10 0 0; mkShelf 2 "B1" 1 1 0] [] [] [].

Definition placement_example : db :=
  mkDb [mkShelf 1 "A1" 10 0 0]
       [mkBook 1 BookType.digital None BookStatus.available 0]
       [] [].

(** Three shelves (the third one full), four books, two students and three
    loans; the dates are day numbers and "today" is day 110. *)
Definition circulation_example : db :=
  mkDb [mkShelf 1 "A1" 10 1 0; mkShelf 2 "B2" 2 1 0; mkShelf 3 "C3" 1 1 0]
       [mkBook 1 BookType.physical (Some 1) BookStatus.loaned 0;
        mkBook 2 BookType.digital None BookStatus.available 0;
        mkBook 3 BookType.physical (Some 2) BookStatus.available 0;
        mkBook 4 BookType.physical (Some 3) BookStatus.loaned 0]
       [mkStudent 1 StudentStatus.active; mkStudent 2 StudentStatus.inactive]
       [mkLoan 1 1 1 100 114 None LoanStatus.active 0 0;
        mkLoan 2 2 1 80 87 (Some 85) LoanStatus.returned 0 0;
        mkLoan 3 4 1 100 105 None LoanStatus.active 0 0].

(** Student 1 holds five open loans; book 6 is available. *)
Definition limit_example : db :=
  mkDb []
       [mkBook 1 BookType.digital None BookStatus.loaned 0;
        mkBook 2 BookType.digital None BookStatus.loaned 0;
        mkBook 3 BookType.digital None BookStatus.loaned 0;
        mkBook 4 BookType.digital None BookStatus.loaned 0;
        mkBook 5 BookType.digital None BookStatus.loaned 0;
        mkBook 6 BookType.digital None BookStatus.available 0]
       [mkStudent 1 StudentStatus.active]
       [mkLoan 1 1 1 100 107 None LoanStatus.active 0 0;
        mkLoan 2 2 1 100 107 None LoanStatus.active 0 0;
        mkLoan 3 3 1 100 107 None LoanStatus.overdue 0 0;
        mkLoan 4 4 1 100 107 None LoanStatus.active 0 0;
        mkLoan 5 5 1 100 107 None LoanStatus.overdue 0 0].

(** A digital book, an active and an inactive student, no loan yet. *)
Definition lending_example : db :=
  mkDb []
       [mkBook 1 BookType.digital None BookStatus.available 0]
       [mkStudent 1 StudentStatus.active; mkStudent 2 StudentStatus.inactive]
       [].

(** Shelf 1 records two books and holds one; shelf 2 is consistent. *)
Definition drift_example : db :=
  mkDb [mkShelf 2 "B2" 5 0 0; mkShelf 1 "A1" 10 2 0]
       [mkBook 1 BookType.physical (Some 1) BookStatus.available 0]
       [] [].

(** Student 1 holds five open loans and a returned one. *)
Definition reopen_example : db :=
  mkDb []
       [mkBook 1 BookType.digital None BookStatus.loaned 0;
        mkBook 2 BookType.digital None BookStatus.loaned 0;
        mkBook 3 BookType.digital None BookStatus.loaned 0;
        mkBook 4 BookType.digital None BookStatus.loaned 0;
        mkBook 5 BookType.digital None BookStatus.loaned 0;
        mkBook 6 BookType.digital None BookStatus.available 0]
       [mkStudent 1 StudentStatus.active]
       [mkLoan 1 1 1 100 107 None LoanStatus.active 0 0;
        mkLoan 2 2 1 100 107 None LoanStatus.active 0 0;
        mkLoan 3 3 1 100 107 None LoanStatus.overdue 0 0;
        mkLoan 4 4 1 100 107 None LoanStatus.active 0 0;
        mkLoan 5 5 1 100 107 None LoanStatus.overdue 0 0;
        mkLoan 6 6 1 90 97 (Some 95) LoanStatus.returned 0 0].

(** Two students with one open loan each. *)
Definition two_students_example : db :=
  mkDb []
       [mkBook 1 BookType.digital None BookStatus.loaned 0;
        mkBook 2 BookType.digital None BookStatus.loaned 0]
       [mkStudent 1 StudentStatus.active; mkStudent 2 StudentStatus.active]
       [mkLoan 1 1 1 100 107 None LoanStatus.active 0 0;
        mkLoan 2 2 2 100 107 None LoanStatus.active 0 0].


(** ** Tactics *)

(** Case analysis on every step of a computation in the result monad that
    is known to have completed. *)
Ltac split_steps :=
  repeat match goal with
         | H : context [bind] |- _ => unfold bind in H
         | H : (match ?x with _ => _ end) = Ok _ |- _ =>
             destruct x eqn:?; try discriminate
         | H : (if ?x then _ else _) = Ok _ |- _ =>
             destruct x eqn:?; try discriminate
         | H : Ok _ = Ok _ |- _ => inversion H; subst; clear H
         end.

(** ** Results *)

(** *** The shelf ledger: update_shelf_book_count *)

Lemma find_shelf_some (id : Z) (ss : list shelf) (s : shelf) :
  find_shelf id ss = Some s -> In s ss /\ shelf_id s = id.
Proof.
  unfold find_shelf. intros H. apply find_some in H.
  destruct H as [Hin Heq]. split; [assumption | now apply Z.eqb_eq].
Qed.


Lemma in_find_shelf (ss : list shelf) (s : shelf) :
  NoDup (map shelf_id ss) -> In s ss -> find_shelf (shelf_id s) ss = Some s.
Proof.
  unfold find_shelf. induction ss as [|x rest IH]; intros Hnd Hin; [easy|].
  cbn in Hnd. inversion Hnd as [|? ? Hx Hrest]; subst.
  cbn. destruct (shelf_id x =? shelf_id s) eqn:E.
  - destruct Hin as [->|Hin]; [reflexivity|].
    apply Z.eqb_eq in E. exfalso. apply Hx. rewrite E. now apply in_map.
  - destruct Hin as [->|Hin]; [rewrite Z.eqb_refl in E; discriminate|].
    now apply IH.
Qed.

Lemma same_shelf_id (ss : list shelf) (s r : shelf) :
  NoDup (map shelf_id ss) -> In s ss -> In r ss -> shelf_id r = shelf_id s -> r = s.
Proof.
  intros Hnd Hs Hr Heq.
  pose proof (in_find_shelf ss s Hnd Hs) as H1.
  pose proof (in_find_shelf ss r Hnd Hr) as H2.
  rewrite Heq in H2. congruence.
Qed.

(** An UPDATE of shelves whose rows all pass the CHECKs rewrites exactly the
    selected rows and counts them. *)
Lemma shelves_update_ok (wh : shelf -> bool) (set : shelf -> shelf) (now : Z) (ss : list shelf) :
  (forall s, In s ss -> wh s = true ->
             shelves_check (update_shelves_updated_at now (set s)) = true) ->
  shelves_update wh set now ss
  = Ok (Z.of_nat (List.length (filter wh ss)),
        map (fun s => if wh s then update_shelves_updated_at now (set s) else s) ss).
Proof.
  induction ss as [|x rest IH]; intros H; [reflexivity|].
  cbn [shelves_update filter map].
  rewrite IH by (intros s Hs; apply H; now right).
  destruct (wh x) eqn:E.
  - unfold shelves_write_row. rewrite (H x (or_introl eq_refl) E). cbn [ensure bind].
    f_equal. f_equal. cbn [List.length]. lia.
  - reflexivity.
Qed.

(** An UPDATE of shelves with a selected row that fails the CHECKs raises. *)
Lemma shelves_update_raise (wh : shelf -> bool) (set : shelf -> shelf) (now : Z) (ss : list shelf) :
  (exists s, In s ss /\ wh s = true
             /\ shelves_check (update_shelves_updated_at now (set s)) = false) ->
  shelves_update wh set now ss = Raise (CheckViolation Shelves).
Proof.
  induction ss as [|x rest IH]; intros [s [Hin [Hwh Hck]]]; [easy|].
  cbn [shelves_update].
  destruct Hin as [->|Hin].
  - rewrite Hwh. unfold shelves_write_row. rewrite Hck. reflexivity.
  - rewrite IH by (exists s; auto).
    destruct (wh x); [|reflexivity].
    unfold shelves_write_row, ensure.
    destruct (shelves_check (update_shelves_updated_at now (set x))); reflexivity.
Qed.

Lemma shelves_check_adjusted (now n : Z) (s : shelf) :
  shelves_check s = true -> 0 <= n <= total_capacity s ->
  shelves_check (update_shelves_updated_at now (set_current_book_count n s)) = true.
Proof.
  unfold shelves_check. cbn. intros H Hn.
  apply andb_true_iff in H. destruct H as [Hc _]. rewrite Hc. cbn.
  apply andb_true_iff. split; [apply Z.leb_le | apply Z.leb_le]; lia.
Qed.

(** The successful adjustment, as a table. *)
Lemma update_shelf_book_count_ok (now id delta : Z) (ss : list shelf) (s : shelf) :
  shelves_stored ss ->
  find_shelf id ss = Some s ->
  0 <= current_book_count s + delta <= total_capacity s ->
  update_shelf_book_count now id delta ss
  = Ok (map (fun r => if shelf_id r =? id
                      then adjusted now (current_book_count s + delta) r else r) ss).
Proof.
  intros [Hnd Hck] Hfind Hrange.
  destruct (find_shelf_some _ _ _ Hfind) as [Hin Hid].
  unfold update_shelf_book_count. rewrite Hfind. cbn zeta.
  destruct (current_book_count s + delta <? 0) eqn:E1; [apply Z.ltb_lt in E1; lia|].
  destruct (current_book_count s + delta >? total_capacity s) eqn:E2;
    [apply Z.gtb_lt in E2; lia|].
  rewrite shelves_update_ok.
  - reflexivity.
  - intros r Hr Hwh. apply Z.eqb_eq in Hwh.
    assert (r = s) as -> by (apply (same_shelf_id ss); congruence).
    apply shelves_check_adjusted; [|assumption].
    rewrite Forall_forall in Hck. now apply Hck.
Qed.

Lemma find_shelf_adjust (now id n : Z) (ss : list shelf) (k : Z) :
  find_shelf k (map (fun r => if shelf_id r =? id then adjusted now n r else r) ss)
  = match find_shelf k ss with
    | Some s => Some (if shelf_id s =? id then adjusted now n s else s)
    | None => None
    end.
Proof.
  unfold find_shelf. induction ss as [|x rest IH]; [reflexivity|].
  cbn [map find].
  assert (shelf_id (if shelf_id x =? id then adjusted now n x else x) = shelf_id x) as ->
    by (destruct (shelf_id x =? id); reflexivity).
  destruct (shelf_id x =? k); [reflexivity | apply IH].
Qed.

(** C4, as amended.  On a shelves table that satisfies its constraints and
    for arguments of the type INTEGER, update_shelf_book_count(id, delta)
    raises 'not found' for an unknown shelf, 'negative book count' when
    current_book_count + delta < 0 and 'capacity exceeded' when it is above
    total_capacity and still an INTEGER (a sum beyond the range of INTEGER
    is outside this statement), and in each of these cases
    ShelvesTableManager.update_book_count returns False with the database
    as it was.  Otherwise it succeeds: the row of the shelf gets
    current_book_count + delta and, through the timestamp trigger of the
    table, updated_at = now; its other columns, every other shelf and every
    other table are as before. *)
Theorem update_shelf_book_count_spec (now id delta : Z) (d : db) :
  shelves_stored (shelves d) ->
  is_int4 id -> is_int4 delta ->
  (find_shelf id (shelves d) = None ->
     update_shelf_book_count now id delta (shelves d) = Raise (ShelfNotFound id)
     /\ update_book_count now id delta d = (false, d))
  /\ (forall s, find_shelf id (shelves d) = Some s ->
        (current_book_count s + delta < 0 ->
           update_shelf_book_count now id delta (shelves d) = Raise (NegativeCount id)
           /\ update_book_count now id delta d = (false, d))
        /\ (total_capacity s < current_book_count s + delta <= int4_max ->
              update_shelf_book_count now id delta (shelves d) = Raise (CapacityExceeded id)
              /\ update_book_count now id delta d = (false, d))
        /\ (0 <= current_book_count s + delta <= total_capacity s ->
              exists ss',
                update_shelf_book_count now id delta (shelves d) = Ok ss'
                /\ update_book_count now id delta d = (true, with_shelves ss' d)
                /\ find_shelf id ss'
                   = Some (mkShelf id (location_code s) (total_capacity s)
                                   (current_book_count s + delta) now)
                /\ (forall k, k <> id -> find_shelf k ss' = find_shelf k (shelves d))
                /\ List.length ss' = List.length (shelves d))).
Proof.
  intros Hst _ _. split.
  - intros Hnone. unfold update_book_count, update_shelf_book_count.
    rewrite Hnone. split; reflexivity.
  - intros s Hfind. split; [|split].
    + intros Hneg. unfold update_book_count, update_shelf_book_count.
      rewrite Hfind. cbn zeta.
      apply Z.ltb_lt in Hneg. rewrite Hneg. split; reflexivity.
    + intros [Hover _]. unfold update_book_count, update_shelf_book_count.
      rewrite Hfind. cbn zeta.
      destruct (current_book_count s + delta <? 0) eqn:E1.
      * apply Z.ltb_lt in E1. destruct Hst as [_ Hck].
        destruct (find_shelf_some _ _ _ Hfind) as [Hin _].
        rewrite Forall_forall in Hck. specialize (Hck s Hin).
        unfold shelves_check in Hck.
        apply andb_true_iff in Hck. destruct Hck as [Hc _].
        apply Z.ltb_lt in Hc. lia.
      * assert ((current_book_count s + delta >? total_capacity s) = true) as ->
          by (apply Z.gtb_lt; lia).
        split; reflexivity.
    + intros Hrange.
      pose proof (update_shelf_book_count_ok now id delta _ s Hst Hfind Hrange) as Hok.
      eexists. split; [exact Hok|].
      split; [unfold update_book_count; rewrite Hok; reflexivity|].
      destruct (find_shelf_some _ _ _ Hfind) as [_ Hid].
      split; [|split].
      * rewrite find_shelf_adjust, Hfind. rewrite <- Hid at 1.
        rewrite Z.eqb_refl. unfold adjusted. now rewrite Hid.
      * intros k Hk. rewrite find_shelf_adjust.
        destruct (find_shelf k (shelves d)) as [r|] eqn:Er; [|reflexivity].
        destruct (find_shelf_some _ _ _ Er) as [_ Hr].
        assert ((shelf_id r =? id) = false) as -> by (apply Z.eqb_neq; congruence).
        reflexivity.
      * apply length_map.
Qed.

Lemma ledger_example_stored : shelves_stored (shelves ledger_example).
Proof.
  split; cbn.
  - repeat constructor; cbn; intuition lia.
  - repeat constructor.
Qed.

Lemma update_shelf_book_count_spec_witness :
  shelves_stored (shelves ledger_example)
  /\ (exists ss',
        update_shelf_book_count 7 1 1 (shelves ledger_example) = Ok ss'
        /\ update_book_count 7 1 1 ledger_example = (true, with_shelves ss' ledger_example)
        /\ find_shelf 1 ss' = Some (mkShelf 1 "A1" 10 1 7))
  /\ update_book_count 7 2 1 ledger_example = (false, ledger_example)
  /\ update_book_count 7 1 (-1) ledger_example = (false, ledger_example)
  /\ update_book_count 7 3 1 ledger_example = (false, ledger_example).
Proof.
  split; [exact ledger_example_stored|].
  split; [|split; [|split]].
  - destruct (update_shelf_book_count_spec 7 1 1 ledger_example ledger_example_stored)
      as [_ H]; try (unfold is_int4, int4_min, int4_max; lia).
    destruct (H (mkShelf 1 "A1" 10 0 0) eq_refl) as [_ [_ H3]].
    destruct H3 as [ss' [H1 [H2 [H4 _]]]]; [cbn; lia|].
    exists ss'. repeat split; assumption.
  - destruct (update_shelf_book_count_spec 7 2 1 ledger_example ledger_example_stored)
      as [_ H]; try (unfold is_int4, int4_min, int4_max; lia).
    destruct (H (mkShelf 2 "B1" 1 1 0) eq_refl) as [_ [H2 _]].
    apply H2. unfold int4_max. cbn. lia.
  - destruct (update_shelf_book_count_spec 7 1 (-1) ledger_example ledger_example_stored)
      as [_ H]; try (unfold is_int4, int4_min, int4_max; lia).
    destruct (H (mkShelf 1 "A1" 10 0 0) eq_refl) as [H1 _].
    apply H1. cbn. lia.
  - destruct (update_shelf_book_count_spec 7 3 1 ledger_example ledger_example_stored)
      as [H _]; try (unfold is_int4, int4_min, int4_max; lia).
    apply H. reflexivity.
Defined.

(** C4, as stated, fails: the successful adjustment of shelf 1 also moves
    the updated_at column of the row (from 0 to the time of the statement),
    so more is written than current_book_count. *)
Lemma update_shelf_book_count_writes_updated_at :
  update_shelf_book_count 7 1 1 [mkShelf 1 "A1" 10 0 0] = Ok [mkShelf 1 "A1" 10 1 7]
  /\ set_current_book_count 1 (mkShelf 1 "A1" 10 0 0) = mkShelf 1 "A1" 10 1 0
  /\ shelf_updated_at (mkShelf 1 "A1" 10 1 7) <> shelf_updated_at (mkShelf 1 "A1" 10 0 0).
Proof.
  split; [reflexivity|]. split; [reflexivity|]. cbn. lia.
Qed.

(** *** Shelf counts under book changes: update_shelf_count_on_book_change *)

(** C1 fails on the UPDATE branch of update_shelf_count_on_book_change.
    Shelf 1 is empty and its count is 0, as it should be.  BookRepository.update
    turns the digital book 1 into a physical book on shelf 1: both the
    "shelf changed" block and the "book type changed" block add one, so the
    shelf records 2 books while one physical book refers to it. *)
Theorem digital_to_physical_counts_twice :
  count_physical_books 1 (books placement_example) = 0
  /\ find_shelf 1 (shelves placement_example) = Some (mkShelf 1 "A1" 10 0 0)
  /\ book_repository_update 7 1
       (mkBookData (Some BookType.physical) (Some (Some 1)) None) placement_example
     = (true, mkDb [mkShelf 1 "A1" 10 2 7]
                   [mkBook 1 BookType.physical (Some 1) BookStatus.available 7]
                   [] [])
  /\ count_physical_books 1 [mkBook 1 BookType.physical (Some 1) BookStatus.available 7] = 1.
Proof.
  repeat split; reflexivity.
Qed.

(** *** Statements on books *)

Lemma update_shelf_count_same_placement (now : Z) (old new : book) (ss : list shelf) :
  book_shelf_id new = book_shelf_id old -> book_type new = book_type old ->
  update_shelf_count_on_book_change now (TG_UPDATE old new) ss = Ok ss.
Proof.
  intros Hs Ht. cbn. rewrite Hs, Ht.
  assert (opt_Z_eqb (book_shelf_id old) (book_shelf_id old) = true) as ->
    by (destruct (book_shelf_id old); cbn; [apply Z.eqb_refl | reflexivity]).
  assert (BookType.eqb (book_type old) (book_type old) = true) as ->
    by (destruct (book_type old); reflexivity).
  reflexivity.
Qed.

Lemma fire_shelf_count_same_placement (now : Z) (set : book -> book) (bs : list book)
    (ss : list shelf) :
  (forall b, book_shelf_id (set b) = book_shelf_id b /\ book_type (set b) = book_type b) ->
  fire_shelf_count now
    (map (fun b => TG_UPDATE b (update_books_updated_at now (set b))) bs) ss = Ok ss.
Proof.
  intros Hset. induction bs as [|b rest IH]; [reflexivity|].
  cbn [map fire_shelf_count].
  rewrite update_shelf_count_same_placement by (cbn; apply Hset).
  exact IH.
Qed.

(** What a completed pass over the rows of books has written. *)
Lemma books_write_rows_inv (wh : book -> bool) (set : book -> book) (now : Z)
    (ss : list shelf) (bs bs' : list book) (evs : list (tg_event book)) :
  books_write_rows wh set now ss bs = Ok (bs', evs) ->
  bs' = map (fun b => if wh b then update_books_updated_at now (set b) else b) bs
  /\ evs = map (fun b => TG_UPDATE b (update_books_updated_at now (set b))) (filter wh bs).
Proof.
  revert bs' evs. induction bs as [|b rest IH]; intros bs' evs H.
  - cbn in H. inversion H. split; reflexivity.
  - cbn [books_write_rows] in H. cbn [map filter].
    destruct (wh b) eqn:E.
    + destruct (validate_book_shelf_placement (set b) ss); [|discriminate].
      cbn [bind] in H.
      destruct (books_check (update_books_updated_at now (set b))); [|discriminate].
      cbn [ensure bind] in H.
      destruct (books_write_rows wh set now ss rest) as [[r e]|]; [|discriminate].
      cbn [bind] in H. inversion H; subst.
      destruct (IH r e eq_refl) as [-> ->]. split; reflexivity.
    + destruct (books_write_rows wh set now ss rest) as [[r e]|]; [|discriminate].
      cbn [bind] in H. inversion H; subst.
      destruct (IH r evs eq_refl) as [-> ->]. split; reflexivity.
Qed.

(** A pass whose selected rows all pass validation and CHECKs completes. *)
Lemma books_write_rows_ok (wh : book -> bool) (set : book -> book) (now : Z)
    (ss : list shelf) (bs : list book) :
  (forall b, In b bs -> wh b = true ->
             validate_book_shelf_placement (set b) ss = Ok tt
             /\ books_check (update_books_updated_at now (set b)) = true) ->
  books_write_rows wh set now ss bs
  = Ok (map (fun b => if wh b then update_books_updated_at now (set b) else b) bs,
        map (fun b => TG_UPDATE b (update_books_updated_at now (set b))) (filter wh bs)).
Proof.
  induction bs as [|b rest IH]; intros H; [reflexivity|].
  cbn [books_write_rows map filter].
  rewrite IH by (intros x Hx; apply H; now right).
  destruct (wh b) eqn:E; [|reflexivity].
  destruct (H b (or_introl eq_refl) E) as [-> ->]. reflexivity.
Qed.

Lemma validate_placement_set_status (st : BookStatus.t) (b : book) (ss : list shelf) :
  validate_book_shelf_placement (set_status st b) ss = validate_book_shelf_placement b ss.
Proof. reflexivity. Qed.

Lemma books_check_set_status (now : Z) (st : BookStatus.t) (b : book) :
  books_check (update_books_updated_at now (set_status st b)) = books_check b.
Proof. reflexivity. Qed.

(** A status update that completes has rewritten the rows of the book, and
    nothing else. *)
Lemma books_set_status_inv (id : Z) (st : BookStatus.t) (now : Z) (d d' : db) (n : Z) :
  books_set_status id st now d = Ok (n, d') ->
  d' = with_books (books_with_status id st now (books d)) d.
Proof.
  unfold books_set_status, books_update. intros H.
  destruct (books_write_rows _ _ now (shelves d) (books d)) as [[bs' evs]|] eqn:E;
    [|discriminate].
  apply books_write_rows_inv in E. destruct E as [-> ->].
  cbn [bind] in H.
  rewrite fire_shelf_count_same_placement in H by (intros b; split; reflexivity).
  cbn [bind] in H. inversion H. reflexivity.
Qed.

(** It completes when the rows of the book are writable. *)
Lemma books_set_status_ok (id : Z) (st : BookStatus.t) (now : Z) (d : db) :
  book_row_writable d id ->
  books_set_status id st now d
  = Ok (Z.of_nat (List.length (filter (fun b => book_id b =? id) (books d))),
        with_books (books_with_status id st now (books d)) d).
Proof.
  intros Hw. unfold books_set_status, books_update.
  rewrite books_write_rows_ok.
  - cbn [bind].
    rewrite fire_shelf_count_same_placement by (intros b; split; reflexivity).
    cbn [bind]. rewrite length_map. reflexivity.
  - intros b Hb Hid. apply Z.eqb_eq in Hid.
    rewrite validate_placement_set_status, books_check_set_status. now apply Hw.
Qed.

Lemma books_with_status_spec (id : Z) (st : BookStatus.t) (now : Z) (bs : list book) (b : book) :
  In b (books_with_status id st now bs) -> book_id b = id -> status b = st.
Proof.
  unfold books_with_status. intros Hin Hid.
  apply in_map_iff in Hin. destruct Hin as [x [Hx _]].
  destruct (book_id x =? id) eqn:E.
  - subst b. reflexivity.
  - subst b. apply Z.eqb_neq in E. contradiction.
Qed.

(** *** Deleting a loan *)

Lemma filter_none {A} (f : A -> bool) (xs : list A) :
  (forall x, In x xs -> f x = false) -> filter f xs = [].
Proof.
  induction xs as [|x rest IH]; intros H; [reflexivity|].
  cbn. rewrite (H x (or_introl eq_refl)). apply IH. intros y Hy. apply H. now right.
Qed.

Lemma filter_loan_id (ls : list loan) (l : loan) :
  NoDup (map loan_id ls) -> In l ls ->
  filter (fun x => loan_id x =? loan_id l) ls = [l].
Proof.
  induction ls as [|x rest IH]; intros Hnd Hin; [easy|].
  cbn in Hnd. inversion Hnd as [|? ? Hx Hrest]; subst.
  cbn [filter]. destruct Hin as [->|Hin].
  - rewrite Z.eqb_refl. f_equal.
    apply filter_none. intros y Hy.
    destruct (loan_id y =? loan_id l) eqn:E; [|reflexivity].
    apply Z.eqb_eq in E. exfalso. apply Hx. rewrite <- E. now apply in_map.
  - destruct (loan_id x =? loan_id l) eqn:E.
    + apply Z.eqb_eq in E. exfalso. apply Hx. rewrite E. now apply in_map.
    + now apply IH.
Qed.

Lemma is_open_iff (l : loan) :
  is_open l = true
  <-> loan_status l = LoanStatus.active \/ loan_status l = LoanStatus.overdue.
Proof.
  unfold is_open. destruct (loan_status l); split; intros H;
    try reflexivity; try discriminate; auto;
    destruct H as [H|H]; discriminate.
Qed.

Lemma is_closed_iff (l : loan) :
  is_open l = false
  <-> loan_status l = LoanStatus.returned \/ loan_status l = LoanStatus.lost.
Proof.
  unfold is_open. destruct (loan_status l); split; intros H;
    try reflexivity; try discriminate; auto;
    destruct H as [H|H]; discriminate.
Qed.

(** C10.  Whenever the AFTER DELETE trigger of loans runs to completion
    for a deleted loan: if the loan was active or overdue, every row of the
    referenced book has been rewritten with status available, and nothing
    else has changed; if it was returned or lost, the database is as it was.
    For the statement [DELETE FROM loans WHERE loan_id = id] on a stored
    loan this gives: a completed deletion removes the loan and sets the
    book of an open loan to available, while it leaves the books table of a
    returned or lost loan exactly as before.  The deletion of a returned or
    lost loan always completes; that of an open loan completes when the row
    of its book is writable. *)
Theorem delete_loan_book_status (now : Z) :
  (forall old d d',
     update_book_status_on_loan_change now (TG_DELETE old) d = Ok d' ->
     (loan_status old = LoanStatus.active \/ loan_status old = LoanStatus.overdue ->
        d' = with_books
               (books_with_status (loan_book_id old) BookStatus.available now (books d)) d
        /\ forall b, In b (books d') -> book_id b = loan_book_id old ->
                     status b = BookStatus.available)
     /\ (loan_status old = LoanStatus.returned \/ loan_status old = LoanStatus.lost ->
           d' = d))
  /\ (forall id d l,
        NoDup (map loan_id (loans d)) -> In l (loans d) -> loan_id l = id ->
        (forall n d', delete_loan now id d = Ok (n, d') ->
           n = 1
           /\ loans d' = filter (fun x => negb (loan_id x =? id)) (loans d)
           /\ (loan_status l = LoanStatus.active \/ loan_status l = LoanStatus.overdue ->
                 books d'
                 = books_with_status (loan_book_id l) BookStatus.available now (books d)
                 /\ forall b, In b (books d') -> book_id b = loan_book_id l ->
                              status b = BookStatus.available)
           /\ (loan_status l = LoanStatus.returned \/ loan_status l = LoanStatus.lost ->
                 books d' = books d))
        /\ (loan_status l = LoanStatus.returned \/ loan_status l = LoanStatus.lost ->
              exists d', delete_loan now id d = Ok (1, d'))
        /\ (book_row_writable d (loan_book_id l) ->
              exists d', delete_loan now id d = Ok (1, d'))).
Proof.
  split.
  - intros old d d' H. cbn [update_book_status_on_loan_change] in H. split.
    + intros Ho. apply is_open_iff in Ho. rewrite Ho in H.
      destruct (books_set_status (loan_book_id old) BookStatus.available now d)
        as [[k d1]|] eqn:Es; [|discriminate].
      apply books_set_status_inv in Es. cbn [bind] in H. inversion H; subst.
      split; [reflexivity|].
      cbn. intros b Hb Hbid. now apply (books_with_status_spec _ _ _ _ _ Hb).
    + intros Hc. apply is_closed_iff in Hc. rewrite Hc in H. now inversion H.
  - intros id d l Hnd Hin Hid. subst id.
    unfold delete_loan, loans_delete.
    rewrite (filter_loan_id _ _ Hnd Hin).
    cbn [map fire_book_status update_book_status_on_loan_change List.length].
    split; [|split].
    + intros n d' H.
      destruct (is_open l) eqn:Eo.
      * destruct (books_set_status (loan_book_id l) BookStatus.available now _)
          as [[k d1]|] eqn:Es; [|discriminate].
        apply books_set_status_inv in Es. subst d1.
        cbn [bind] in H. inversion H; subst.
        split; [reflexivity|]. split; [reflexivity|]. split.
        -- intros _. split; [reflexivity|].
           cbn. intros b Hb Hbid. now apply (books_with_status_spec _ _ _ _ _ Hb).
        -- intros Hc. apply is_closed_iff in Hc. congruence.
      * cbn [bind] in H. inversion H; subst.
        split; [reflexivity|]. split; [reflexivity|]. split.
        -- intros Ho. apply is_open_iff in Ho. congruence.
        -- intros _. reflexivity.
    + intros Hc. apply is_closed_iff in Hc. rewrite Hc. cbn [bind].
      eexists. reflexivity.
    + intros Hw. destruct (is_open l).
      * rewrite books_set_status_ok by exact Hw. cbn [bind]. eexists. reflexivity.
      * cbn [bind]. eexists. reflexivity.
Qed.

Lemma circulation_example_loan_ids : NoDup (map loan_id (loans circulation_example)).
Proof. cbn. repeat constructor; cbn; intuition lia. Qed.

Lemma circulation_example_book_1_writable : book_row_writable circulation_example 1.
Proof.
  intros b Hb Hid. cbn in Hb.
  destruct Hb as [<-|[<-|[<-|[<-|[]]]]]; cbn in Hid; try lia.
  split; reflexivity.
Qed.

Lemma delete_loan_book_status_witness :
  exists d', delete_loan 111 1 circulation_example = Ok (1, d')
             /\ forall b, In b (books d') -> book_id b = 1 -> status b = BookStatus.available.
Proof.
  destruct (delete_loan_book_status 111) as [_ H].
  destruct (H 1 circulation_example (mkLoan 1 1 1 100 114 None LoanStatus.active 0 0)
              circulation_example_loan_ids (or_introl eq_refl) eq_refl)
    as [H1 [_ H3]].
  destruct (H3 circulation_example_book_1_writable) as [d' Hd'].
  exists d'. split; [exact Hd'|].
  destruct (H1 _ _ Hd') as [_ [_ [Ho _]]].
  apply Ho. left. reflexivity.
Defined.

(** *** Statements on loans *)

Lemma loans_write_rows_inv (wh : loan -> bool) (set : loan -> loan) (today now : Z)
    (done todo t : list loan) (evs : list (tg_event loan)) :
  loans_write_rows wh set today now done todo = Ok (t, evs) ->
  t = done ++ loans_rewritten wh set now todo
  /\ evs = map (fun l => TG_UPDATE l (update_loans_updated_at now (set l))) (filter wh todo).
Proof.
  revert done t evs. induction todo as [|l rest IH]; intros done t evs H.
  - cbn in H. inversion H. cbn. rewrite app_nil_r. split; reflexivity.
  - cbn [loans_write_rows] in H. unfold loans_rewritten. cbn [map filter].
    destruct (wh l) eqn:E.
    + destruct (loans_check today (update_loans_updated_at now (set l))); [|discriminate].
      cbn [ensure bind] in H.
      destruct (idx_loans_unique_active_book_conflict _ (done ++ rest)); [discriminate|].
      cbn [negb ensure bind] in H.
      destruct (loans_write_rows wh set today now _ rest) as [[r e]|] eqn:R; [|discriminate].
      cbn [bind] in H. inversion H; subst.
      destruct (IH _ _ _ R) as [-> ->].
      rewrite <- app_assoc. split; reflexivity.
    + destruct (IH _ _ _ H) as [-> ->].
      rewrite <- app_assoc. split; reflexivity.
Qed.

(** The pass completes when every selected row passes the CHECKs and meets
    no other open loan of its book among the rows around it. *)
Lemma loans_write_rows_ok (wh : loan -> bool) (set : loan -> loan) (today now : Z)
    (done todo : list loan) :
  (forall pre l post, todo = pre ++ l :: post -> wh l = true ->
     loans_check today (update_loans_updated_at now (set l)) = true
     /\ idx_loans_unique_active_book_conflict (update_loans_updated_at now (set l))
          (done ++ loans_rewritten wh set now pre ++ post) = false) ->
  loans_write_rows wh set today now done todo
  = Ok (done ++ loans_rewritten wh set now todo,
        map (fun l => TG_UPDATE l (update_loans_updated_at now (set l))) (filter wh todo)).
Proof.
  revert done. induction todo as [|l rest IH]; intros done H.
  - cbn. rewrite app_nil_r. reflexivity.
  - cbn [loans_write_rows]. unfold loans_rewritten. cbn [map filter].
    assert (loans_write_rows wh set today now
              (done ++ [if wh l then update_loans_updated_at now (set l) else l]) rest
            = Ok ((done ++ [if wh l then update_loans_updated_at now (set l) else l])
                    ++ loans_rewritten wh set now rest,
                  map (fun l => TG_UPDATE l (update_loans_updated_at now (set l)))
                      (filter wh rest))) as Hrec.
    { apply IH. intros pre x post Heq Hx.
      specialize (H (l :: pre) x post). cbn in H. rewrite Heq in H.
      specialize (H eq_refl Hx). rewrite <- app_assoc. exact H. }
    rewrite <- app_assoc in Hrec. cbn [app] in Hrec.
    destruct (wh l) eqn:E.
    + destruct (H [] l rest eq_refl E) as [Hc Hi]. cbn [loans_rewritten map app] in Hi.
      rewrite Hc, Hi. cbn [negb ensure bind]. rewrite Hrec. reflexivity.
    + exact Hrec.
Qed.

(** The pass raises when a selected row fails the CHECKs. *)
Lemma loans_write_rows_raise (wh : loan -> bool) (set : loan -> loan) (today now : Z)
    (done todo : list loan) :
  (exists l, In l todo /\ wh l = true
             /\ loans_check today (update_loans_updated_at now (set l)) = false) ->
  exists e, loans_write_rows wh set today now done todo = Raise e.
Proof.
  revert done. induction todo as [|x rest IH]; intros done [l [Hin [Hwh Hck]]]; [easy|].
  cbn [loans_write_rows]. destruct Hin as [->|Hin].
  - rewrite Hwh, Hck. eexists. reflexivity.
  - assert (exists l, In l rest /\ wh l = true
                      /\ loans_check today (update_loans_updated_at now (set l)) = false)
      as Hex by (exists l; auto).
    destruct (wh x).
    + destruct (loans_check today (update_loans_updated_at now (set x)));
        [|eexists; reflexivity].
      cbn [ensure bind].
      destruct (idx_loans_unique_active_book_conflict _ (done ++ rest));
        [eexists; reflexivity|].
      cbn [negb ensure bind].
      destruct (IH (done ++ [update_loans_updated_at now (set x)]) Hex) as [e ->].
      eexists. reflexivity.
    + apply IH. exact Hex.
Qed.

Lemma open_loans_of_book_app (b : Z) (xs ys : list loan) :
  open_loans_of_book b (xs ++ ys)
  = (open_loans_of_book b xs + open_loans_of_book b ys)%nat.
Proof. unfold open_loans_of_book. rewrite filter_app, length_app. reflexivity. Qed.

Lemma open_loans_of_book_cons (b : Z) (x : loan) (xs : list loan) :
  open_loans_of_book b (x :: xs)
  = Nat.add (if is_open x && (loan_book_id x =? b) then 1%nat else 0%nat)
            (open_loans_of_book b xs).
Proof.
  unfold open_loans_of_book. cbn [filter].
  destruct (is_open x && (loan_book_id x =? b)); reflexivity.
Qed.

Lemma no_conflict_iff (new : loan) (others : list loan) :
  idx_loans_unique_active_book_conflict new others = false
  <-> is_open new = false \/ open_loans_of_book (loan_book_id new) others = 0%nat.
Proof.
  unfold idx_loans_unique_active_book_conflict.
  assert (existsb (fun l => is_open l && (loan_book_id l =? loan_book_id new)) others = false
          <-> open_loans_of_book (loan_book_id new) others = 0%nat) as Hex.
  { induction others as [|x rest IH]; [cbn; tauto|].
    rewrite open_loans_of_book_cons. cbn [existsb].
    destruct (is_open x && (loan_book_id x =? loan_book_id new)); cbn.
    - split; [discriminate | lia].
    - exact IH. }
  destruct (is_open new); cbn.
  - rewrite Hex. split; [auto | intros [H|H]; [discriminate | exact H]].
  - split; auto.
Qed.

Lemma same_loan_id (ls : list loan) (l x : loan) :
  NoDup (map loan_id ls) -> In l ls -> In x ls -> loan_id x = loan_id l -> x = l.
Proof.
  intros Hnd Hl Hx Heq.
  assert (In x (filter (fun y => loan_id y =? loan_id l) ls)) as Hin
    by (apply filter_In; split; [assumption | now apply Z.eqb_eq]).
  rewrite (filter_loan_id _ _ Hnd Hl) in Hin.
  destruct Hin as [Hin|[]]. now symmetry.
Qed.

Lemma filter_andb {A} (f g : A -> bool) (xs : list A) :
  filter (fun x => f x && g x) xs = filter g (filter f xs).
Proof.
  induction xs as [|x rest IH]; [reflexivity|].
  cbn [filter]. destruct (f x); cbn [andb filter]; rewrite IH; reflexivity.
Qed.

Lemma loans_rewritten_none (wh : loan -> bool) (set : loan -> loan) (now : Z) (ls : list loan) :
  (forall x, In x ls -> wh x = false) -> loans_rewritten wh set now ls = ls.
Proof.
  intros H. unfold loans_rewritten. rewrite <- (map_id ls) at 2.
  apply map_ext_in. intros x Hx. now rewrite (H x Hx).
Qed.

Lemma with_loans_same (d : db) : with_loans (loans d) d = d.
Proof. destruct d. reflexivity. Qed.

(** An UPDATE of loans that selects no row completes and changes nothing. *)
Lemma loans_update_none (wh : loan -> bool) (set : loan -> loan) (today now : Z) (d : db) :
  (forall x, In x (loans d) -> wh x = false) ->
  loans_update wh set today now d = Ok (0, d).
Proof.
  intros H. unfold loans_update.
  rewrite loans_write_rows_ok.
  - rewrite (filter_none _ _ H), (loans_rewritten_none _ _ _ _ H).
    cbn. now rewrite with_loans_same.
  - intros pre l post Heq Hl. exfalso.
    assert (In l (loans d)) as Hin by (rewrite Heq; apply in_elt).
    rewrite (H l Hin) in Hl. discriminate.
Qed.

(** *** Returning a book *)

Lemma loans_check_returned (today now rd : Z) (l : loan) :
  loans_check today l = true -> loan_date l <= rd ->
  loans_check today (update_loans_updated_at now (set_returned rd l)) = true.
Proof.
  unfold loans_check. cbn. intros H Hrd.
  repeat (apply andb_true_iff in H; destruct H as [H ?]).
  repeat (apply andb_true_iff; split); try assumption; try reflexivity.
  now apply Z.leb_le.
Qed.

Lemma loans_check_returned_early (today now rd : Z) (l : loan) :
  rd < loan_date l ->
  loans_check today (update_loans_updated_at now (set_returned rd l)) = false.
Proof.
  unfold loans_check. cbn. intros Hrd.
  assert ((loan_date l <=? rd) = false) as -> by (apply Z.leb_gt; lia).
  rewrite andb_false_r. reflexivity.
Qed.

Lemma returned_trigger (now : Z) (l : loan) (rd : Z) (d : db) :
  is_open l = true ->
  update_book_status_on_loan_change now
    (TG_UPDATE l (update_loans_updated_at now (set_returned rd l))) d
  = ' (_, d') <- books_set_status (loan_book_id l) BookStatus.available now d ;; Ok d'.
Proof.
  intros Ho. apply is_open_iff in Ho. cbn.
  destruct Ho as [-> | ->]; cbn;
    destruct (books_set_status (loan_book_id l) BookStatus.available now d) as [[n d']|];
    reflexivity.
Qed.

Lemma filter_open_loan_id (ls : list loan) (l : loan) :
  NoDup (map loan_id ls) -> In l ls ->
  filter (fun x => (loan_id x =? loan_id l) && is_open x) ls
  = if is_open l then [l] else [].
Proof.
  intros Hnd Hin. rewrite filter_andb, (filter_loan_id _ _ Hnd Hin).
  cbn. destruct (is_open l); reflexivity.
Qed.

(** The UPDATE of return_book, when it completes. *)
Lemma return_update_inv (today now rd : Z) (d d' : db) (l : loan) (n : Z) :
  NoDup (map loan_id (loans d)) -> In l (loans d) ->
  loans_update (fun x => (loan_id x =? loan_id l) && is_open x)
               (set_returned rd) today now d = Ok (n, d') ->
  (is_open l = false /\ n = 0)
  \/ (is_open l = true /\ n = 1 /\ d' = after_return l rd now d).
Proof.
  intros Hnd Hin H. unfold loans_update in H.
  destruct (loans_write_rows _ _ today now [] (loans d)) as [[t evs]|] eqn:E; [|discriminate].
  apply loans_write_rows_inv in E. destruct E as [-> ->].
  rewrite (filter_open_loan_id _ _ Hnd Hin) in H. cbn [bind app] in H.
  destruct (is_open l) eqn:Eo.
  - right. cbn [map fire_book_status] in H.
    rewrite (returned_trigger _ _ _ _ Eo) in H.
    destruct (books_set_status _ _ now _) as [[k d1]|] eqn:Es; [|discriminate].
    apply books_set_status_inv in Es. subst d1.
    cbn [bind List.length] in H. inversion H. auto.
  - left. cbn in H. inversion H. auto.
Qed.

(** C5, as amended.  For a stored loan [l]: return_book fails and changes
    nothing when the loan is returned or lost, and when it is open but the
    return date (today by default) is before loan_date (the CHECK
    chk_actual_return_after_loan).  When the loan is open, the return date
    is not before loan_date and the row of the book is writable, it
    succeeds.  Whenever it succeeds the loan was open, the date was not
    before loan_date, the loan row now has status returned and the return
    date as actual_return_date, the other loans are untouched and every row
    of the referenced book has status available. *)
Theorem return_book_spec (today now id : Z) (return_date : option Z) (d : db) (l : loan) :
  NoDup (map loan_id (loans d)) -> In l (loans d) -> loan_id l = id ->
  loans_check today l = true ->
  (loan_status l = LoanStatus.returned \/ loan_status l = LoanStatus.lost ->
     return_book today now id return_date d = (false, d))
  /\ (loan_status l = LoanStatus.active \/ loan_status l = LoanStatus.overdue ->
      default_date today return_date < loan_date l ->
      return_book today now id return_date d = (false, d))
  /\ (loan_status l = LoanStatus.active \/ loan_status l = LoanStatus.overdue ->
      loan_date l <= default_date today return_date ->
      book_row_writable d (loan_book_id l) ->
      return_book today now id return_date d
      = (true, after_return l (default_date today return_date) now d))
  /\ (forall d', return_book today now id return_date d = (true, d') ->
       (loan_status l = LoanStatus.active \/ loan_status l = LoanStatus.overdue)
       /\ loan_date l <= default_date today return_date
       /\ d' = after_return l (default_date today return_date) now d
       /\ In (mkLoan id (loan_book_id l) (loan_student_id l) (loan_date l)
                     (estimated_return_date l) (Some (default_date today return_date))
                     LoanStatus.returned (renewal_count l) now) (loans d')
       /\ (forall x, In x (loans d) -> loan_id x <> id -> In x (loans d'))
       /\ (forall b, In b (books d') -> book_id b = loan_book_id l ->
                     status b = BookStatus.available)).
Proof.
  intros Hnd Hin Hid Hck. subst id.
  set (rd := default_date today return_date).
  assert (forall x, In x (loans d) ->
            ((loan_id x =? loan_id l) && is_open x) = true -> x = l) as Hsel.
  { intros x Hx Hw. apply andb_true_iff in Hw. destruct Hw as [Hw _].
    apply Z.eqb_eq in Hw. now apply (same_loan_id (loans d)). }
  assert (is_open l = true -> rd < loan_date l ->
          return_book today now (loan_id l) return_date d = (false, d)) as Hearly.
  { intros Ho Hrd. unfold return_book, loans_update. fold rd.
    destruct (loans_write_rows_raise (fun x => (loan_id x =? loan_id l) && is_open x)
                (set_returned rd) today now [] (loans d)) as [e ->]; [|reflexivity].
    exists l. split; [assumption|]. split.
    - now rewrite Z.eqb_refl, Ho.
    - now apply loans_check_returned_early. }
  split; [|split; [|split]].
  - intros Hc. apply is_closed_iff in Hc.
    unfold return_book. rewrite loans_update_none; [reflexivity|].
    intros x Hx. destruct ((loan_id x =? loan_id l) && is_open x) eqn:E; [|reflexivity].
    rewrite (Hsel x Hx E) in E. rewrite Hc, andb_false_r in E. discriminate.
  - intros Ho Hrd. apply is_open_iff in Ho. now apply Hearly.
  - intros Ho Hrd Hw. apply is_open_iff in Ho.
    unfold return_book, loans_update. fold rd.
    rewrite loans_write_rows_ok.
    + rewrite (filter_open_loan_id _ _ Hnd Hin), Ho.
      cbn [bind app map fire_book_status].
      rewrite (returned_trigger _ _ _ _ Ho).
      rewrite books_set_status_ok by exact Hw.
      cbn [bind List.length]. reflexivity.
    + intros pre x post Heq Hx.
      assert (In x (loans d)) as Hxin by (rewrite Heq; apply in_elt).
      rewrite (Hsel x Hxin Hx). split.
      * now apply loans_check_returned.
      * apply no_conflict_iff. left. reflexivity.
  - intros d' H.
    assert (is_open l = true /\ d' = after_return l rd now d) as [Ho ->].
    { unfold return_book in H. fold rd in H.
      destruct (loans_update _ (set_returned rd) today now d) as [[n d1]|] eqn:E;
        [|discriminate].
      destruct (return_update_inv _ _ _ _ _ _ _ Hnd Hin E) as [[_ ->]|[Ho [-> ->]]].
      - cbn in H. discriminate.
      - inversion H. auto. }
    assert (loan_date l <= rd) as Hrd.
    { destruct (Z.le_gt_cases (loan_date l) rd) as [Hle|Hgt]; [assumption|].
      rewrite (Hearly Ho) in H by lia. discriminate. }
    split; [now apply is_open_iff|]. split; [assumption|]. split; [reflexivity|].
    split; [|split].
    + cbn. unfold loans_rewritten. apply in_map_iff. exists l.
      rewrite Z.eqb_refl, Ho. split; [reflexivity | assumption].
    + intros x Hx Hne. cbn. unfold loans_rewritten. apply in_map_iff. exists x.
      assert ((loan_id x =? loan_id l) = false) as -> by now apply Z.eqb_neq.
      split; [reflexivity | assumption].
    + cbn. intros b Hb Hbid. now apply (books_with_status_spec _ _ _ _ _ Hb).
Qed.

Lemma return_book_spec_witness :
  return_book 110 111 1 None circulation_example
  = (true, after_return (mkLoan 1 1 1 100 114 None LoanStatus.active 0 0) 110 111
             circulation_example)
  /\ return_book 110 111 2 None circulation_example = (false, circulation_example).
Proof.
  split.
  - destruct (return_book_spec 110 111 1 None circulation_example
                (mkLoan 1 1 1 100 114 None LoanStatus.active 0 0)
                circulation_example_loan_ids (or_introl eq_refl) eq_refl eq_refl)
      as [_ [_ [H _]]].
    apply H.
    + left. reflexivity.
    + cbn. lia.
    + exact circulation_example_book_1_writable.
  - destruct (return_book_spec 110 111 2 None circulation_example
                (mkLoan 2 2 1 80 87 (Some 85) LoanStatus.returned 0 0)
                circulation_example_loan_ids (or_intror (or_introl eq_refl)) eq_refl eq_refl)
      as [H _].
    apply H. left. reflexivity.
Defined.

(** C5, as stated, fails: loan 1 is active, yet returning it with a return
    date (day 95) before its loan_date (day 100) is refused by the CHECK
    chk_actual_return_after_loan, and nothing changes. *)
Lemma return_book_before_loan_date_refused :
  find (fun l => loan_id l =? 1) (loans circulation_example)
  = Some (mkLoan 1 1 1 100 114 None LoanStatus.active 0 0)
  /\ return_book 110 111 1 (Some 95) circulation_example = (false, circulation_example).
Proof. split; reflexivity. Qed.

(** Loan 3 is active and its book stands on the full shelf 3: the UPDATE of
    books issued by the loan trigger is refused by
    validate_book_shelf_placement, and the return with it. *)
Lemma return_book_on_full_shelf_refused :
  find (fun l => loan_id l =? 3) (loans circulation_example)
  = Some (mkLoan 3 4 1 100 105 None LoanStatus.active 0 0)
  /\ check_shelf_capacity 3 (shelves circulation_example) = Ok false
  /\ return_book 110 111 3 None circulation_example = (false, circulation_example).
Proof. repeat split; reflexivity. Qed.

(** *** The overdue sweep *)

Lemma is_past_due_active (today : Z) (l : loan) :
  is_past_due today l = true ->
  loan_status l = LoanStatus.active /\ actual_return_date l = None
  /\ estimated_return_date l < today.
Proof.
  unfold is_past_due. intros H.
  apply andb_true_iff in H. destruct H as [H H3].
  apply andb_true_iff in H. destruct H as [H1 H2].
  split; [|split].
  - destruct (loan_status l); try discriminate; reflexivity.
  - destruct (actual_return_date l); [discriminate | reflexivity].
  - now apply Z.ltb_lt.
Qed.

Lemma loans_check_overdue (today now : Z) (l : loan) :
  loans_check today l = true -> is_past_due today l = true ->
  loans_check today (update_loans_updated_at now (set_loan_status LoanStatus.overdue l)) = true.
Proof.
  intros H Hp. destruct (is_past_due_active _ _ Hp) as [Hs [Ha _]].
  unfold loans_check in *. cbn. rewrite Hs, Ha in H. rewrite Ha. exact H.
Qed.

Lemma overdue_trigger (today now : Z) (l : loan) (d : db) :
  is_past_due today l = true ->
  update_book_status_on_loan_change now
    (TG_UPDATE l (update_loans_updated_at now (set_loan_status LoanStatus.overdue l))) d
  = Ok d.
Proof.
  intros Hp. destruct (is_past_due_active _ _ Hp) as [Hs _].
  cbn. rewrite Hs. reflexivity.
Qed.

Lemma fire_overdue_triggers (today now : Z) (ls : list loan) (d : db) :
  (forall l, In l ls -> is_past_due today l = true) ->
  fire_book_status now
    (map (fun l => TG_UPDATE l
                     (update_loans_updated_at now (set_loan_status LoanStatus.overdue l))) ls) d
  = Ok d.
Proof.
  induction ls as [|l rest IH]; intros H; [reflexivity|].
  cbn [map fire_book_status].
  rewrite (overdue_trigger today) by (apply H; now left).
  cbn [bind]. apply IH. intros x Hx. apply H. now right.
Qed.

(** The sweep leaves the open loans of every book as many as they were. *)
Lemma open_loans_after_sweep (today now b : Z) (ls : list loan) :
  open_loans_of_book b
    (loans_rewritten (is_past_due today) (set_loan_status LoanStatus.overdue) now ls)
  = open_loans_of_book b ls.
Proof.
  induction ls as [|x rest IH]; [reflexivity|].
  unfold loans_rewritten in *. cbn [map]. rewrite !open_loans_of_book_cons, IH.
  f_equal. destruct (is_past_due today x) eqn:Ep; [|reflexivity].
  destruct (is_past_due_active _ _ Ep) as [Hs _].
  unfold is_open. cbn. rewrite Hs. reflexivity.
Qed.

(** After the sweep no loan is past due on the same day. *)
Lemma none_past_due_after_sweep (today now : Z) (ls : list loan) (x : loan) :
  In x (loans_rewritten (is_past_due today) (set_loan_status LoanStatus.overdue) now ls) ->
  is_past_due today x = false.
Proof.
  unfold loans_rewritten. intros H. apply in_map_iff in H.
  destruct H as [l [Hl _]]. destruct (is_past_due today l) eqn:Ep; subst x.
  - reflexivity.
  - exact Ep.
Qed.

(** C6.  On a loans table that satisfies its CHECKs and its unique index,
    update_overdue_loans completes: the rows with status active, no
    actual_return_date and estimated_return_date < today get status overdue
    (and updated_at = now), every other row and table is as before, and the
    method returns the number of those rows.  Run again on the same day, at
    any time, it returns 0 and leaves the database as the first run left
    it. *)
Theorem update_overdue_loans_spec (today now now' : Z) (d : db) :
  Forall (fun l => loans_check today l = true) (loans d) ->
  unique_active_book (loans d) ->
  update_overdue_loans today now d
  = (Z.of_nat (List.length (filter (is_past_due today) (loans d))),
     with_loans (loans_rewritten (is_past_due today)
                   (set_loan_status LoanStatus.overdue) now (loans d)) d)
  /\ update_overdue_loans today now'
       (with_loans (loans_rewritten (is_past_due today)
                      (set_loan_status LoanStatus.overdue) now (loans d)) d)
     = (0, with_loans (loans_rewritten (is_past_due today)
                         (set_loan_status LoanStatus.overdue) now (loans d)) d).
Proof.
  intros Hck Huniq. split.
  - unfold update_overdue_loans, pg_update_overdue_loans, loans_update.
    rewrite loans_write_rows_ok.
    + cbn [bind app].
      rewrite (fire_overdue_triggers today)
        by (intros l Hl; apply filter_In in Hl; tauto).
      cbn [bind]. rewrite length_map. reflexivity.
    + intros pre l post Heq Hp. split.
      * apply loans_check_overdue; [|assumption].
        rewrite Forall_forall in Hck. apply Hck. rewrite Heq. apply in_elt.
      * apply no_conflict_iff. right. cbn [app loan_book_id update_loans_updated_at
                                           set_loan_status].
        rewrite open_loans_of_book_app, open_loans_after_sweep.
        specialize (Huniq (loan_book_id l)). rewrite Heq in Huniq.
        rewrite open_loans_of_book_app, open_loans_of_book_cons in Huniq.
        destruct (is_past_due_active _ _ Hp) as [Hs _].
        unfold is_open in Huniq at 1. rewrite Hs, Z.eqb_refl in Huniq.
        cbn [andb] in Huniq. lia.
  - unfold update_overdue_loans, pg_update_overdue_loans.
    rewrite loans_update_none; [reflexivity|].
    cbn [loans with_loans]. intros x Hx.
    now apply (none_past_due_after_sweep today now (loans d)).
Qed.

Lemma circulation_example_loans_check :
  Forall (fun l => loans_check 110 l = true) (loans circulation_example).
Proof. cbn. repeat constructor. Qed.

Lemma open_loans_zero (b : Z) (ls : list loan) :
  ~ In b (map loan_book_id (filter is_open ls)) -> open_loans_of_book b ls = 0%nat.
Proof.
  intros H. unfold open_loans_of_book. rewrite filter_none; [reflexivity|].
  intros x Hx. destruct (is_open x) eqn:Eo; [|reflexivity].
  cbn [andb]. apply Z.eqb_neq. intros Heq. apply H. rewrite <- Heq.
  apply in_map. apply filter_In. split; assumption.
Qed.

(** Uniqueness, as the index sees it: the keys of the indexed rows are
    pairwise distinct. *)
Lemma unique_active_book_of_keys (ls : list loan) :
  NoDup (map loan_book_id (filter is_open ls)) -> unique_active_book ls.
Proof.
  induction ls as [|x rest IH]; intros Hnd b; [cbn; lia|].
  rewrite open_loans_of_book_cons. cbn [filter] in Hnd.
  destruct (is_open x) eqn:Eo; cbn [andb].
  - cbn [map] in Hnd. inversion Hnd as [|? ? Hx Hrest]; subst.
    destruct (loan_book_id x =? b) eqn:Eb.
    + apply Z.eqb_eq in Eb. subst b. rewrite (open_loans_zero _ _ Hx). lia.
    + exact (IH Hrest b).
  - exact (IH Hnd b).
Qed.

Lemma circulation_example_unique : unique_active_book (loans circulation_example).
Proof.
  apply unique_active_book_of_keys. cbn.
  repeat constructor; cbn; intuition lia.
Qed.

Lemma update_overdue_loans_spec_witness :
  update_overdue_loans 110 111 circulation_example
  = (1, with_loans [mkLoan 1 1 1 100 114 None LoanStatus.active 0 0;
                    mkLoan 2 2 1 80 87 (Some 85) LoanStatus.returned 0 0;
                    mkLoan 3 4 1 100 105 None LoanStatus.overdue 0 111]
                   circulation_example)
  /\ update_overdue_loans 110 112
       (with_loans [mkLoan 1 1 1 100 114 None LoanStatus.active 0 0;
                    mkLoan 2 2 1 80 87 (Some 85) LoanStatus.returned 0 0;
                    mkLoan 3 4 1 100 105 None LoanStatus.overdue 0 111]
                   circulation_example)
     = (0, with_loans [mkLoan 1 1 1 100 114 None LoanStatus.active 0 0;
                       mkLoan 2 2 1 80 87 (Some 85) LoanStatus.returned 0 0;
                       mkLoan 3 4 1 100 105 None LoanStatus.overdue 0 111]
                      circulation_example).
Proof.
  exact (update_overdue_loans_spec 110 111 112 circulation_example
           circulation_example_loans_check circulation_example_unique).
Defined.

(** *** Creating a loan *)

(** The BEFORE INSERT trigger stops at its first statement, whatever the row
    and the tables are, and the INSERT with it. *)
Lemma loans_insert_raises (today now : Z) (nl : new_loan) (d : db) :
  loans_insert today now nl d = Raise (AmbiguousColumn "book_type").
Proof. reflexivity. Qed.

(** Both create_loan methods catch the exception. *)
Lemma create_loan_refused (today now new_id b s : Z) (ld est : option Z) (d : db) :
  create_loan today now new_id b s ld est d = (None, d).
Proof.
  unfold create_loan. rewrite loans_insert_raises.
  destruct (validate_loan_data _ _ _ _ _); reflexivity.
Qed.

Lemma loan_repository_create_loan_refused (today now new_id b s : Z) (ld est : option Z)
    (d : db) :
  loan_repository_create_loan today now new_id b s ld est d = (None, d).
Proof. reflexivity. Qed.

(** C3 fails on validate_loan_creation.  The trigger is written to raise
    'not found', 'not available', 'not active' and 'maximum loan limit', in
    that order, and to accept the other rows; its first statement selects
    book_type into a variable of the same name and raises 'column reference
    book_type is ambiguous' instead.  So every INSERT INTO loans raises that
    error: for the unknown book 7, for the inactive student 2 and for
    student 1 of [limit_example], who holds five open loans, where the claim
    names the errors NotFound, StudentInactive and StudentLoanLimitReached;
    and also for book 1 and student 1 of [lending_example], who are
    eligible. *)
Theorem loan_creation_ambiguous_book_type :
  (forall today now nl d,
     validate_loan_creation nl d = Raise (AmbiguousColumn "book_type")
     /\ loans_insert today now nl d = Raise (AmbiguousColumn "book_type"))
  /\ find_book 7 (books lending_example) = None
  /\ loans_insert 110 111 (mkNewLoan 1 7 1 110 None) lending_example
     = Raise (AmbiguousColumn "book_type")
  /\ find_student 2 (students lending_example) = Some (mkStudent 2 StudentStatus.inactive)
  /\ loans_insert 110 111 (mkNewLoan 1 1 2 110 None) lending_example
     = Raise (AmbiguousColumn "book_type")
  /\ active_loans_of_student 1 (loans limit_example) = 5
  /\ loans_insert 110 111 (mkNewLoan 6 6 1 110 None) limit_example
     = Raise (AmbiguousColumn "book_type")
  /\ eligible 1 1 lending_example
  /\ loans_insert 110 111 (mkNewLoan 1 1 1 110 None) lending_example
     = Raise (AmbiguousColumn "book_type").
Proof.
  split; [intros today now nl d; split; reflexivity|].
  repeat (split; [reflexivity|]).
  split; [|reflexivity].
  exists (mkBook 1 BookType.digital None BookStatus.available 0),
         (mkStudent 1 StudentStatus.active).
  repeat split; cbn; lia.
Qed.

(** *** No double lending *)

Lemma open_loans_of_book_filter (b : Z) (f : loan -> bool) (ls : list loan) :
  (open_loans_of_book b (filter f ls) <= open_loans_of_book b ls)%nat.
Proof.
  induction ls as [|x rest IH]; [cbn; lia|].
  cbn [filter]. destruct (f x); rewrite ?open_loans_of_book_cons; lia.
Qed.

Lemma unique_active_book_filter (f : loan -> bool) (ls : list loan) :
  unique_active_book ls -> unique_active_book (filter f ls).
Proof.
  intros H b. specialize (H b). pose proof (open_loans_of_book_filter b f ls). lia.
Qed.

(** Replacing a row by one that does not conflict with the others keeps the
    index unique. *)
Lemma unique_active_book_replace (done rest : list loan) (old new : loan) :
  unique_active_book (done ++ old :: rest) ->
  idx_loans_unique_active_book_conflict new (done ++ rest) = false ->
  unique_active_book (done ++ new :: rest).
Proof.
  intros Hu Hc b. specialize (Hu b).
  rewrite open_loans_of_book_app, open_loans_of_book_cons in *.
  apply no_conflict_iff in Hc. rewrite open_loans_of_book_app in Hc.
  destruct (is_open new) eqn:Eo; cbn [andb].
  - destruct (loan_book_id new =? b) eqn:Eb.
    + apply Z.eqb_eq in Eb. subst b. destruct Hc as [Hc|Hc]; [discriminate | lia].
    + destruct (is_open old && (loan_book_id old =? b)); lia.
  - destruct (is_open old && (loan_book_id old =? b)); lia.
Qed.

Lemma loans_write_rows_unique (wh : loan -> bool) (set : loan -> loan) (today now : Z)
    (done todo t : list loan) (evs : list (tg_event loan)) :
  loans_write_rows wh set today now done todo = Ok (t, evs) ->
  unique_active_book (done ++ todo) -> unique_active_book t.
Proof.
  revert done t evs. induction todo as [|l rest IH]; intros done t evs H Hu.
  - cbn in H. inversion H; subst. now rewrite app_nil_r in Hu.
  - cbn [loans_write_rows] in H. destruct (wh l).
    + destruct (loans_check today (update_loans_updated_at now (set l))); [|discriminate].
      cbn [ensure bind] in H.
      destruct (idx_loans_unique_active_book_conflict _ (done ++ rest)) eqn:Ec;
        [discriminate|].
      cbn [negb ensure bind] in H.
      destruct (loans_write_rows wh set today now _ rest) as [[r e]|] eqn:R; [|discriminate].
      cbn [bind] in H. inversion H; subst.
      apply (IH _ _ _ R). rewrite <- app_assoc. cbn [app].
      now apply (unique_active_book_replace done rest l).
    + apply (IH _ _ _ H). rewrite <- app_assoc. exact Hu.
Qed.

(** What holds across every UPDATE of books that the loan trigger issues
    holds across the trigger, and across the triggers of a statement. *)
Section LoanTrigger.

Variable R : db -> db -> Prop.
Hypothesis R_refl : forall d, R d d.
Hypothesis R_trans : forall x y z, R x y -> R y z -> R x z.
Hypothesis R_step :
  forall id st now x y n, books_set_status id st now x = Ok (n, y) -> R x y.

Lemma books_set_status_rel (id : Z) (st : BookStatus.t) (now : Z) (x y : db) :
  (' (_, z) <- books_set_status id st now x ;; Ok z) = Ok y -> R x y.
Proof.
  intros H. destruct (books_set_status id st now x) as [[k z]|] eqn:E; [|discriminate].
  cbn [bind] in H. inversion H; subst. exact (R_step _ _ _ _ _ _ E).
Qed.

Lemma guarded_set_status_rel (g : bool) (id : Z) (st : BookStatus.t) (now : Z) (x y : db) :
  (if g then ' (_, z) <- books_set_status id st now x ;; Ok z else Ok x) = Ok y -> R x y.
Proof.
  destruct g; [apply books_set_status_rel|].
  intros H. inversion H; subst. apply R_refl.
Qed.

Lemma update_book_status_on_loan_change_rel (now : Z) (ev : tg_event loan) (d d' : db) :
  update_book_status_on_loan_change now ev d = Ok d' -> R d d'.
Proof.
  destruct ev as [new|old new|old]; cbn [update_book_status_on_loan_change].
  - apply books_set_status_rel.
  - intros H.
    destruct (if negb (LoanStatus.eqb (loan_status old) LoanStatus.returned)
                 && LoanStatus.eqb (loan_status new) LoanStatus.returned
              then ' (_, z) <- books_set_status (loan_book_id new)
                                 BookStatus.available now d ;; Ok z
              else Ok d) as [d1|] eqn:E1; [|discriminate].
    cbn [bind] in H.
    destruct (if LoanStatus.eqb (loan_status old) LoanStatus.returned && is_open new
              then ' (_, z) <- books_set_status (loan_book_id new)
                                 BookStatus.loaned now d1 ;; Ok z
              else Ok d1) as [d2|] eqn:E2; [|discriminate].
    cbn [bind] in H.
    apply guarded_set_status_rel in E1. apply guarded_set_status_rel in E2.
    apply guarded_set_status_rel in H.
    exact (R_trans _ _ _ E1 (R_trans _ _ _ E2 H)).
  - apply guarded_set_status_rel.
Qed.

Lemma fire_book_status_rel (now : Z) (evs : list (tg_event loan)) (d d' : db) :
  fire_book_status now evs d = Ok d' -> R d d'.
Proof.
  revert d. induction evs as [|ev rest IH]; intros d H.
  - cbn in H. inversion H; subst. apply R_refl.
  - cbn [fire_book_status] in H.
    destruct (update_book_status_on_loan_change now ev d) as [d1|] eqn:E; [|discriminate].
    cbn [bind] in H.
    exact (R_trans _ _ _ (update_book_status_on_loan_change_rel _ _ _ _ E) (IH _ H)).
Qed.

End LoanTrigger.

(** The loan trigger writes books only. *)
Lemma fire_book_status_loans (now : Z) (evs : list (tg_event loan)) (d d' : db) :
  fire_book_status now evs d = Ok d' -> loans d' = loans d.
Proof.
  apply (fire_book_status_rel (fun x y => loans y = loans x)).
  - reflexivity.
  - intros x y z H1 H2. congruence.
  - intros id st t x y n H. apply books_set_status_inv in H. now subst y.
Qed.

Lemma loans_update_unique (wh : loan -> bool) (set : loan -> loan) (today now : Z)
    (d d' : db) (n : Z) :
  loans_update wh set today now d = Ok (n, d') ->
  unique_active_book (loans d) -> unique_active_book (loans d').
Proof.
  unfold loans_update. intros H Hu.
  destruct (loans_write_rows wh set today now [] (loans d)) as [[t evs]|] eqn:E;
    [|discriminate].
  cbn [bind] in H.
  destruct (fire_book_status now evs (with_loans t d)) as [d1|] eqn:F; [|discriminate].
  cbn [bind] in H. inversion H; subst.
  rewrite (fire_book_status_loans _ _ _ _ F). cbn.
  exact (loans_write_rows_unique _ _ _ _ _ _ _ _ E Hu).
Qed.

Lemma loans_delete_unique (wh : loan -> bool) (now : Z) (d d' : db) (n : Z) :
  loans_delete wh now d = Ok (n, d') ->
  unique_active_book (loans d) -> unique_active_book (loans d').
Proof.
  unfold loans_delete. intros H Hu.
  destruct (fire_book_status now _ _) as [d1|] eqn:F; [|discriminate].
  cbn [bind] in H. inversion H; subst.
  rewrite (fire_book_status_loans _ _ _ _ F). cbn.
  now apply unique_active_book_filter.
Qed.

Lemma books_update_loans (wh : book -> bool) (set : book -> book) (now : Z)
    (d d' : db) (n : Z) :
  books_update wh set now d = Ok (n, d') -> loans d' = loans d.
Proof.
  unfold books_update. intros H.
  destruct (books_write_rows wh set now (shelves d) (books d)) as [[bs evs]|]; [|discriminate].
  cbn [bind] in H.
  destruct (fire_shelf_count now evs (shelves d)) as [ss|]; [|discriminate].
  cbn [bind] in H. inversion H. reflexivity.
Qed.

Lemma books_insert_loans (now : Z) (new : book) (d d' : db) :
  books_insert now new d = Ok d' -> loans d' = loans d.
Proof.
  unfold books_insert. intros H.
  destruct (validate_book_shelf_placement new (shelves d)); [|discriminate].
  cbn [bind] in H.
  destruct (books_check new); [|discriminate].
  cbn [ensure bind] in H.
  destruct (existsb _ (books d)); [discriminate|].
  cbn [negb ensure bind] in H.
  destruct (update_shelf_count_on_book_change now _ (shelves d)) as [ss|]; [|discriminate].
  cbn [bind] in H. inversion H. reflexivity.
Qed.

Lemma books_delete_unique (id now : Z) (d d' : db) (n : Z) :
  books_delete id now d = Ok (n, d') ->
  unique_active_book (loans d) -> unique_active_book (loans d').
Proof.
  unfold books_delete. intros H Hu.
  destruct (loans_delete _ now _) as [[k d2]|] eqn:E; [|discriminate].
  cbn [bind] in H.
  destruct (fire_shelf_count now _ (shelves d2)) as [ss|]; [|discriminate].
  cbn [bind] in H. inversion H; subst. cbn.
  exact (loans_delete_unique _ _ _ _ _ E Hu).
Qed.

(** Every operation keeps the index unique, whether it succeeds or not. *)
Lemma exec_unique (op : operation) (d : db) :
  unique_active_book (loans d) -> unique_active_book (loans (exec op d)).
Proof.
  intros Hu. destruct op; cbn [exec].
  - rewrite create_loan_refused. exact Hu.
  - rewrite loan_repository_create_loan_refused. exact Hu.
  - unfold return_book.
    destruct (loans_update _ _ today now d) as [[n d']|] eqn:E; [|exact Hu].
    exact (loans_update_unique _ _ _ _ _ _ _ E Hu).
  - unfold renew_loan.
    destruct (loans_update _ _ today now d) as [[n d']|] eqn:E; [|exact Hu].
    exact (loans_update_unique _ _ _ _ _ _ _ E Hu).
  - unfold loan_repository_update_status.
    destruct (loans_update _ _ today now d) as [[n d']|] eqn:E; [|exact Hu].
    exact (loans_update_unique _ _ _ _ _ _ _ E Hu).
  - unfold update_overdue_loans, pg_update_overdue_loans.
    destruct (loans_update _ _ today now d) as [[n d']|] eqn:E; [|exact Hu].
    exact (loans_update_unique _ _ _ _ _ _ _ E Hu).
  - unfold book_repository_create.
    destruct (books_insert now _ d) as [d'|] eqn:E; [|exact Hu].
    cbn. now rewrite (books_insert_loans _ _ _ _ E).
  - unfold book_repository_update.
    destruct (bd_book_type bd), (bd_shelf_id bd), (bd_status bd); try exact Hu;
      (destruct (books_update _ _ now d) as [[n d']|] eqn:E; [|exact Hu];
       cbn; now rewrite (books_update_loans _ _ _ _ _ _ E)).
  - unfold move_book_to_shelf.
    destruct (books_update _ _ now d) as [[n d']|] eqn:E; [|exact Hu].
    cbn. now rewrite (books_update_loans _ _ _ _ _ _ E).
  - unfold update_book_status, books_set_status.
    destruct (books_update _ _ now d) as [[n d']|] eqn:E; [|exact Hu].
    cbn. now rewrite (books_update_loans _ _ _ _ _ _ E).
  - unfold book_repository_delete.
    destruct (books_delete id now d) as [[n d']|] eqn:E; [|exact Hu].
    exact (books_delete_unique _ _ _ _ _ E Hu).
  - unfold student_repository_delete.
    destruct (loans_delete _ now _) as [[n d']|] eqn:E; [|exact Hu].
    exact (loans_delete_unique _ _ _ _ _ E Hu).
  - unfold update_book_count.
    destruct (update_shelf_book_count now sid count_change (shelves d)); exact Hu.
  - unfold fix_capacity_counts.
    destruct (shelves_update _ _ now (shelves d)) as [[n ss]|]; exact Hu.
Qed.

Lemma run_unique (ops : list operation) (d : db) :
  unique_active_book (loans d) -> unique_active_book (loans (run ops d)).
Proof.
  revert d. induction ops as [|op rest IH]; intros d Hu; [exact Hu|].
  cbn [run fold_left]. apply IH. now apply exec_unique.
Qed.

(** C2.  Starting from the empty database, and more generally from any
    database whose loans hold at most one open (active or overdue) loan per
    book, every sequence of operations leads to a database with at most one
    open loan per book.  A create_loan for a book that has an open loan
    returns None and leaves the database, its loans included, as it was. *)
Theorem no_double_lending :
  (forall ops, unique_active_book (loans (run ops empty_db)))
  /\ (forall ops d, unique_active_book (loans d) -> unique_active_book (loans (run ops d)))
  /\ (forall today now new_id book_id_arg student_id_arg loan_date est d l,
        In l (loans d) ->
        loan_status l = LoanStatus.active \/ loan_status l = LoanStatus.overdue ->
        loan_book_id l = book_id_arg ->
        create_loan today now new_id book_id_arg student_id_arg loan_date est d = (None, d)
        /\ loan_repository_create_loan today now new_id book_id_arg student_id_arg
             loan_date est d = (None, d)).
Proof.
  split; [|split].
  - intros ops. apply run_unique. intros b. cbn. lia.
  - intros ops d. apply run_unique.
  - intros today now new_id b s ld est d l Hin Ho Hb. split.
    + apply create_loan_refused.
    + apply loan_repository_create_loan_refused.
Qed.

Lemma no_double_lending_witness :
  unique_active_book
    (loans (run [UpdateBookStatus 111 1 BookStatus.available;
                 CreateLoan 110 112 4 1 1 None None;
                 CreateLoan 110 113 5 2 1 None None] circulation_example))
  /\ create_loan 110 111 4 1 1 None None circulation_example = (None, circulation_example)
  /\ loan_repository_create_loan 110 111 4 1 1 None None circulation_example
     = (None, circulation_example).
Proof.
  destruct no_double_lending as [_ [Hrun Hcreate]]. split.
  - apply Hrun. exact circulation_example_unique.
  - apply (Hcreate 110 111 4 1 1 None None circulation_example
             (mkLoan 1 1 1 100 114 None LoanStatus.active 0 0)).
    + left. reflexivity.
    + left. reflexivity.
    + reflexivity.
Defined.

(** *** The default due date *)

(** C7 fails on both create_loan methods, through the defect of
    validate_loan_creation.  Book 1 of [lending_example] is digital and
    available and student 1 is active without loans, so the request passes
    validate_loan_data and is eligible; created without a due date on day
    110 the loan should be due on day 117 = 110 + 7.  Both methods return
    None and store no loan; they do so for every request, with or without a
    due date. *)
Theorem create_loan_stores_no_loan :
  (forall today now new_id b s ld est d,
     create_loan today now new_id b s ld est d = (None, d)
     /\ loan_repository_create_loan today now new_id b s ld est d = (None, d))
  /\ find_book 1 (books lending_example)
     = Some (mkBook 1 BookType.digital None BookStatus.available 0)
  /\ eligible 1 1 lending_example
  /\ validate_loan_data 110 1 1 110 None = []
  /\ calculate_estimated_return_date 110 BookType.digital = 117
  /\ create_loan 110 111 1 1 1 None None lending_example = (None, lending_example)
  /\ loan_repository_create_loan 110 111 1 1 1 None None lending_example
     = (None, lending_example)
  /\ loans lending_example = [].
Proof.
  split.
  { intros. split;
      [apply create_loan_refused | apply loan_repository_create_loan_refused]. }
  split; [reflexivity|]. split.
  { exists (mkBook 1 BookType.digital None BookStatus.available 0),
           (mkStudent 1 StudentStatus.active).
    repeat split; cbn; lia. }
  repeat split; reflexivity.
Qed.

(** *** Moving a book between shelves *)

Lemma filter_key {A} (key : A -> Z) (xs : list A) (x : A) :
  NoDup (map key xs) -> In x xs -> filter (fun y => key y =? key x) xs = [x].
Proof.
  induction xs as [|y rest IH]; intros Hnd Hin; [easy|].
  cbn in Hnd. inversion Hnd as [|? ? Hy Hrest]; subst.
  cbn [filter]. destruct Hin as [->|Hin].
  - rewrite Z.eqb_refl. f_equal. apply filter_none. intros z Hz.
    apply Z.eqb_neq. intros E. apply Hy. rewrite <- E. now apply in_map.
  - destruct (key y =? key x) eqn:E.
    + apply Z.eqb_eq in E. exfalso. apply Hy. rewrite E. now apply in_map.
    + now apply IH.
Qed.

Lemma shelf_count_adjusted (now id n k : Z) (ss : list shelf) :
  shelf_count k (shelves_adjusted now id n ss)
  = if k =? id then match shelf_count k ss with Some _ => Some n | None => None end
    else shelf_count k ss.
Proof.
  unfold shelf_count, shelves_adjusted. rewrite find_shelf_adjust.
  destruct (find_shelf k ss) as [s|] eqn:E.
  - destruct (find_shelf_some _ _ _ E) as [_ Hid]. rewrite Hid.
    destruct (k =? id); reflexivity.
  - destruct (k =? id); reflexivity.
Qed.

Lemma shelves_stored_adjusted (now id n : Z) (ss : list shelf) (s : shelf) :
  shelves_stored ss -> find_shelf id ss = Some s -> 0 <= n <= total_capacity s ->
  shelves_stored (shelves_adjusted now id n ss).
Proof.
  intros [Hnd Hck] Hfind Hn. destruct (find_shelf_some _ _ _ Hfind) as [Hin Hid].
  unfold shelves_adjusted. split.
  - rewrite map_map.
    rewrite (map_ext _ shelf_id); [assumption|].
    intros r. destruct (shelf_id r =? id); reflexivity.
  - apply Forall_map. rewrite Forall_forall in *. intros r Hr.
    destruct (shelf_id r =? id) eqn:E; [|now apply Hck].
    apply Z.eqb_eq in E.
    assert (r = s) as -> by (apply (same_shelf_id ss); congruence).
    apply (shelves_check_adjusted now n s (Hck s Hin) Hn).
Qed.

Lemma update_shelf_book_count_adjusted (now id delta : Z) (ss : list shelf) (s : shelf) :
  shelves_stored ss -> find_shelf id ss = Some s ->
  0 <= current_book_count s + delta <= total_capacity s ->
  update_shelf_book_count now id delta ss
  = Ok (shelves_adjusted now id (current_book_count s + delta) ss).
Proof. apply update_shelf_book_count_ok. Qed.

Lemma find_shelf_adjusted_other (now id n k : Z) (ss : list shelf) (s : shelf) :
  k <> id -> find_shelf k ss = Some s -> find_shelf k (shelves_adjusted now id n ss) = Some s.
Proof.
  intros Hk Hfind. unfold shelves_adjusted. rewrite find_shelf_adjust, Hfind.
  destruct (find_shelf_some _ _ _ Hfind) as [_ Hid].
  assert ((shelf_id s =? id) = false) as -> by (apply Z.eqb_neq; congruence).
  reflexivity.
Qed.

(** One move of a physical book from shelf [o] to another shelf [n] with a
    free place. *)
Lemma move_book_to_shelf_ok (now id o n : Z) (d : db) (b : book) (so sn : shelf) :
  shelves_stored (shelves d) ->
  NoDup (map book_id (books d)) -> In b (books d) -> book_id b = id ->
  book_type b = BookType.physical -> book_shelf_id b = Some o ->
  o <> n ->
  find_shelf o (shelves d) = Some so -> 1 <= current_book_count so ->
  find_shelf n (shelves d) = Some sn -> current_book_count sn < total_capacity sn ->
  move_book_to_shelf now id n d
  = (true,
     with_shelves
       (shelves_adjusted now n (current_book_count sn + 1)
          (shelves_adjusted now o (current_book_count so - 1) (shelves d)))
       (with_books (books_moved now id n (books d)) d)).
Proof.
  intros Hst Hnd Hin Hid Hty Hsh Hon Hso Hco Hsn Hcn. subst id.
  assert (shelves_check so = true /\ shelves_check sn = true) as [Hcko Hckn].
  { destruct Hst as [_ Hck]. rewrite Forall_forall in Hck.
    split; apply Hck; [apply (find_shelf_some _ _ _ Hso) | apply (find_shelf_some _ _ _ Hsn)]. }
  assert (current_book_count so <= total_capacity so /\ 0 <= current_book_count sn)
    as [Hcapo Hposn].
  { unfold shelves_check in Hcko, Hckn.
    apply andb_true_iff in Hcko. destruct Hcko as [_ Hcko].
    apply andb_true_iff in Hcko. destruct Hcko as [_ Hcko].
    apply andb_true_iff in Hckn. destruct Hckn as [_ Hckn].
    apply andb_true_iff in Hckn. destruct Hckn as [Hckn _].
    apply Z.leb_le in Hcko. apply Z.leb_le in Hckn. lia. }
  unfold move_book_to_shelf, books_update.
  rewrite books_write_rows_ok.
  - rewrite filter_andb, (filter_key book_id _ _ Hnd Hin).
    assert (is_physical b = true) as Hp by (unfold is_physical; now rewrite Hty).
    cbn [filter]. rewrite Hp. cbn [map bind].
    cbn [fire_shelf_count update_shelf_count_on_book_change].
    cbn [book_shelf_id book_type update_books_updated_at set_book_shelf_id].
    rewrite Hsh, Hty. cbn [opt_Z_eqb].
    assert ((o =? n) = false) as -> by now apply Z.eqb_neq.
    cbn [negb andb BookType.eqb].
    rewrite (update_shelf_book_count_adjusted now o (-1) _ so Hst Hso) by lia.
    cbn [bind].
    rewrite (update_shelf_book_count_adjusted now n 1 _ sn).
    + cbn [bind List.length]. reflexivity.
    + apply (shelves_stored_adjusted now o _ _ so Hst Hso). lia.
    + apply find_shelf_adjusted_other; [congruence | assumption].
    + lia.
  - intros x Hx Hw. apply andb_true_iff in Hw. destruct Hw as [Hw Hp].
    unfold is_physical in Hp.
    unfold validate_book_shelf_placement, books_check. cbn.
    destruct (book_type x); [|discriminate].
    unfold check_shelf_capacity. rewrite Hsn. cbn [bind].
    assert ((current_book_count sn <? total_capacity sn) = true) as ->
      by now apply Z.ltb_lt.
    split; reflexivity.
Qed.

Lemma find_shelf_adjusted_same (now id n : Z) (ss : list shelf) (s : shelf) :
  find_shelf id ss = Some s ->
  find_shelf id (shelves_adjusted now id n ss) = Some (adjusted now n s).
Proof.
  intros Hfind. unfold shelves_adjusted. rewrite find_shelf_adjust, Hfind.
  destruct (find_shelf_some _ _ _ Hfind) as [_ Hid].
  rewrite Hid, Z.eqb_refl. reflexivity.
Qed.

Lemma filter_nil_all {A} (f : A -> bool) (xs : list A) :
  filter f xs = [] -> forall x, In x xs -> f x = false.
Proof.
  intros H x Hx. destruct (f x) eqn:E; [|reflexivity].
  assert (In x (filter f xs)) as Hin by (apply filter_In; auto).
  rewrite H in Hin. contradiction.
Qed.

Lemma with_tables_same (d : db) : with_shelves (shelves d) (with_books (books d) d) = d.
Proof. destruct d. reflexivity. Qed.

(** A move that does not succeed changes nothing. *)
Lemma move_book_to_shelf_refused (now id n : Z) (d d' : db) :
  move_book_to_shelf now id n d = (false, d') -> d' = d.
Proof.
  unfold move_book_to_shelf, books_update. intros H.
  destruct (books_write_rows _ _ now (shelves d) (books d)) as [[bs evs]|] eqn:E;
    [|inversion H; reflexivity].
  apply books_write_rows_inv in E. destruct E as [-> ->].
  cbn [bind] in H. rewrite length_map in H.
  destruct (filter _ (books d)) as [|x rest] eqn:F.
  - cbn in H. inversion H; subst.
    rewrite (map_ext_in _ (fun x => x)).
    + rewrite map_id. apply with_tables_same.
    + intros x Hx. now rewrite (filter_nil_all _ _ F x Hx).
  - destruct (fire_shelf_count now _ (shelves d)) as [ss|]; cbn [bind] in H.
    + inversion H as [[Hk Hd]]; cbn [List.length] in Hk;
        apply Z.ltb_ge in Hk; lia.
    + inversion H. reflexivity.
Qed.

(** A pass with a selected row that fails the shelf validation raises. *)
Lemma books_write_rows_raise (wh : book -> bool) (set : book -> book) (now : Z)
    (ss : list shelf) (bs : list book) :
  (exists x, In x bs /\ wh x = true
             /\ exists e, validate_book_shelf_placement (set x) ss = Raise e) ->
  exists e, books_write_rows wh set now ss bs = Raise e.
Proof.
  induction bs as [|y rest IH]; intros [x [Hin [Hwh [e0 Hv]]]]; [easy|].
  cbn [books_write_rows]. destruct Hin as [->|Hin].
  - rewrite Hwh, Hv. eexists. reflexivity.
  - destruct IH as [e He]; [exists x; eauto|]. rewrite He.
    destruct (wh y); [|eexists; reflexivity].
    destruct (validate_book_shelf_placement (set y) ss); [|eexists; reflexivity].
    cbn [bind]. destruct (books_check _); eexists; reflexivity.
Qed.

(** C8, as amended.  A physical book stands on shelf [o] and is moved to
    shelf [a] and then to shelf [b], the three shelves being different, [a]
    and [b] having a free place and [o] recording at least the book.  Both
    moves succeed; afterwards shelf [a] records what it did before, shelf
    [b] one more, shelf [o] one less, and the book is on shelf [b].  A move
    that returns False, as one to a full shelf does, leaves the whole
    database, the count of the old shelf included, as it was. *)
Theorem move_book_round_trip (now1 now2 id o a b : Z) (d : db) (bk : book)
    (so sa sb : shelf) :
  shelves_stored (shelves d) ->
  NoDup (map book_id (books d)) -> In bk (books d) -> book_id bk = id ->
  book_type bk = BookType.physical -> book_shelf_id bk = Some o ->
  o <> a -> a <> b -> o <> b ->
  find_shelf o (shelves d) = Some so -> 1 <= current_book_count so ->
  find_shelf a (shelves d) = Some sa -> current_book_count sa < total_capacity sa ->
  find_shelf b (shelves d) = Some sb -> current_book_count sb < total_capacity sb ->
  (exists d1 d2,
     move_book_to_shelf now1 id a d = (true, d1)
     /\ move_book_to_shelf now2 id b d1 = (true, d2)
     /\ shelf_count a (shelves d2) = Some (current_book_count sa)
     /\ shelf_count b (shelves d2) = Some (current_book_count sb + 1)
     /\ shelf_count o (shelves d2) = Some (current_book_count so - 1)
     /\ In (mkBook id BookType.physical (Some b) (status bk) now2) (books d2))
  /\ (forall now full, check_shelf_capacity full (shelves d) = Ok false ->
                       move_book_to_shelf now id full d = (false, d))
  /\ (forall now n d', move_book_to_shelf now id n d = (false, d') -> d' = d).
Proof.
  intros Hst Hnd Hin Hid Hty Hsh Hoa Hab Hob Hso Hco Hsa Hca Hsb Hcb.
  assert (0 <= current_book_count sa) as Hpa.
  { destruct Hst as [_ Hck]. rewrite Forall_forall in Hck.
    pose proof (Hck sa (proj1 (find_shelf_some _ _ _ Hsa))) as H.
    unfold shelves_check in H.
    apply andb_true_iff in H. destruct H as [_ H].
    apply andb_true_iff in H. destruct H as [H _]. now apply Z.leb_le. }
  assert (current_book_count so <= total_capacity so) as Hcapo.
  { destruct Hst as [_ Hck]. rewrite Forall_forall in Hck.
    pose proof (Hck so (proj1 (find_shelf_some _ _ _ Hso))) as H.
    unfold shelves_check in H.
    apply andb_true_iff in H. destruct H as [_ H].
    apply andb_true_iff in H. destruct H as [_ H]. now apply Z.leb_le. }
  split.
  - pose proof (move_book_to_shelf_ok now1 id o a d bk so sa
                  Hst Hnd Hin Hid Hty Hsh Hoa Hso Hco Hsa Hca) as H1.
    set (ss1 := shelves_adjusted now1 a (current_book_count sa + 1)
                  (shelves_adjusted now1 o (current_book_count so - 1) (shelves d))) in *.
    set (d1 := with_shelves ss1 (with_books (books_moved now1 id a (books d)) d)) in *.
    set (bk1 := update_books_updated_at now1 (set_book_shelf_id (Some a) bk)).
    assert (shelves_stored (shelves_adjusted now1 o (current_book_count so - 1) (shelves d)))
      as Hst0 by (apply (shelves_stored_adjusted now1 o _ _ so Hst Hso); lia).
    assert (find_shelf a (shelves_adjusted now1 o (current_book_count so - 1) (shelves d))
            = Some sa) as Hsa0
      by (apply find_shelf_adjusted_other; [congruence | assumption]).
    assert (shelves_stored (shelves d1)) as Hst1
      by (cbn; apply (shelves_stored_adjusted now1 a _ _ sa Hst0 Hsa0); lia).
    assert (find_shelf a (shelves d1)
            = Some (adjusted now1 (current_book_count sa + 1) sa)) as Hsa1
      by (cbn; now apply find_shelf_adjusted_same).
    assert (find_shelf b (shelves d1) = Some sb) as Hsb1.
    { cbn. apply find_shelf_adjusted_other; [congruence|].
      apply find_shelf_adjusted_other; [congruence | assumption]. }
    assert (NoDup (map book_id (books d1))) as Hnd1.
    { cbn. unfold books_moved. rewrite map_map.
      rewrite (map_ext _ book_id); [assumption|].
      intros x. destruct ((book_id x =? id) && is_physical x); reflexivity. }
    assert (In bk1 (books d1)) as Hin1.
    { cbn. unfold books_moved. apply in_map_iff. exists bk. split; [|assumption].
      rewrite Hid, Z.eqb_refl. unfold is_physical. rewrite Hty. reflexivity. }
    pose proof (move_book_to_shelf_ok now2 id a b d1 bk1 _ sb
                  Hst1 Hnd1 Hin1 Hid Hty eq_refl Hab Hsa1) as H2.
    cbn [adjusted current_book_count] in H2.
    specialize (H2 ltac:(lia) Hsb1 Hcb).
    eexists. eexists. split; [exact H1|]. split; [exact H2|].
    cbn [shelves with_shelves].
    assert (shelf_count a ss1 = Some (current_book_count sa + 1)) as Hca1
      by (unfold shelf_count; change (shelves d1) with ss1 in Hsa1; now rewrite Hsa1).
    assert (shelf_count b ss1 = Some (current_book_count sb)) as Hcb1
      by (unfold shelf_count; change (shelves d1) with ss1 in Hsb1; now rewrite Hsb1).
    assert (shelf_count o ss1 = Some (current_book_count so - 1)) as Hco1.
    { unfold ss1. rewrite !shelf_count_adjusted, Z.eqb_refl.
      assert ((o =? a) = false) as -> by now apply Z.eqb_neq.
      unfold shelf_count. now rewrite Hso. }
    rewrite !shelf_count_adjusted, !Z.eqb_refl.
    assert ((a =? b) = false) as -> by now apply Z.eqb_neq.
    assert ((o =? b) = false) as -> by now apply Z.eqb_neq.
    assert ((o =? a) = false) as -> by now apply Z.eqb_neq.
    assert ((b =? a) = false) as -> by (apply Z.eqb_neq; congruence).
    change (shelves d1) with ss1.
    rewrite Hca1, Hcb1, Hco1.
    split; [f_equal; lia|]. split; [reflexivity|]. split; [reflexivity|].
    cbn [books with_books with_shelves]. unfold books_moved at 1. apply in_map_iff.
    exists bk1. split; [|exact Hin1].
    unfold bk1, is_physical. cbn. rewrite Hid, Z.eqb_refl, Hty.
    unfold update_books_updated_at, set_book_shelf_id. cbn.
    rewrite ?Hid, ?Hty. reflexivity.
  - split; [|intros now n d'; apply move_book_to_shelf_refused].
    intros now full Hfull.
    unfold move_book_to_shelf, books_update.
    destruct (books_write_rows_raise (fun x => (book_id x =? id) && is_physical x)
                (set_book_shelf_id (Some full)) now (shelves d) (books d)) as [e ->];
      [|reflexivity].
    exists bk. split; [assumption|]. split.
    + rewrite Hid, Z.eqb_refl. unfold is_physical. now rewrite Hty.
    + exists (ShelfFull full). unfold validate_book_shelf_placement. cbn.
      rewrite Hty, Hfull. reflexivity.
Qed.

Lemma circulation_example_shelves_stored : shelves_stored (shelves circulation_example).
Proof.
  split; cbn.
  - repeat constructor; cbn; intuition lia.
  - repeat constructor.
Qed.

Lemma circulation_example_book_ids : NoDup (map book_id (books circulation_example)).
Proof. cbn. repeat constructor; cbn; intuition lia. Qed.

Lemma move_book_round_trip_witness :
  (exists d1 d2,
     move_book_to_shelf 111 4 1 circulation_example = (true, d1)
     /\ move_book_to_shelf 112 4 2 d1 = (true, d2)
     /\ shelf_count 1 (shelves d2) = Some 1
     /\ shelf_count 2 (shelves d2) = Some 2
     /\ shelf_count 3 (shelves d2) = Some 0)
  /\ move_book_to_shelf 111 4 3 circulation_example = (false, circulation_example).
Proof.
  destruct (move_book_round_trip 111 112 4 3 1 2 circulation_example
              (mkBook 4 BookType.physical (Some 3) BookStatus.loaned 0)
              (mkShelf 3 "C3" 1 1 0) (mkShelf 1 "A1" 10 1 0) (mkShelf 2 "B2" 2 1 0)
              circulation_example_shelves_stored circulation_example_book_ids
              ltac:(cbn; tauto) eq_refl eq_refl eq_refl
              ltac:(lia) ltac:(lia) ltac:(lia)
              eq_refl ltac:(cbn; lia) eq_refl ltac:(cbn; lia) eq_refl ltac:(cbn; lia))
    as [[d1 [d2 [H1 [H2 [Ha [Hb [Ho _]]]]]]] [Hfull _]].
  split.
  - exists d1, d2. repeat split; assumption.
  - apply Hfull. reflexivity.
Defined.

(** C8, as stated, fails when the book already stands on shelf A.  Book 3
    is on shelf 2, which records one book and has room for two; shelf 1 has
    room as well.  Assigning the book to shelf 2 and then to shelf 1 both
    succeed, and shelf 2 ends with a count of 0, one less than before the
    first assignment. *)
Lemma move_book_round_trip_from_first_shelf :
  find_book 3 (books circulation_example)
  = Some (mkBook 3 BookType.physical (Some 2) BookStatus.available 0)
  /\ check_shelf_capacity 2 (shelves circulation_example) = Ok true
  /\ check_shelf_capacity 1 (shelves circulation_example) = Ok true
  /\ fst (move_book_to_shelf 111 3 2 circulation_example) = true
  /\ fst (move_book_to_shelf 112 3 1
            (snd (move_book_to_shelf 111 3 2 circulation_example))) = true
  /\ shelf_count 2 (shelves circulation_example) = Some 1
  /\ shelf_count 2 (shelves (snd (move_book_to_shelf 112 3 1
                                    (snd (move_book_to_shelf 111 3 2 circulation_example)))))
     = Some 0.
Proof. repeat split; reflexivity. Qed.

(** *** Detecting and repairing drift *)

Lemma insert_by_location_code_perm (r : consistency_row) (rs : list consistency_row) :
  Permutation (insert_by_location_code r rs) (r :: rs).
Proof.
  induction rs as [|x rest IH]; [reflexivity|].
  cbn [insert_by_location_code].
  destruct (String.leb (cr_location_code r) (cr_location_code x)); [reflexivity|].
  rewrite IH. apply perm_swap.
Qed.

Lemma order_by_location_code_perm (rs : list consistency_row) :
  Permutation (order_by_location_code rs) rs.
Proof.
  induction rs as [|x rest IH]; [reflexivity|].
  cbn [order_by_location_code fold_right].
  rewrite insert_by_location_code_perm. now apply perm_skip.
Qed.

Lemma having_rows (bs : list book) (ss : list shelf) :
  filter (fun r => negb (cr_actual_book_count r =? cr_recorded_count r))
    (map (fun s =>
            mkConsistencyRow (shelf_id s) (location_code s)
              (count_physical_books (shelf_id s) bs) (current_book_count s)
              (if count_physical_books (shelf_id s) bs =? current_book_count s
               then "OK"%string else "MISMATCH"%string))
         ss)
  = map (drift_row bs) (filter (is_drifted bs) ss).
Proof.
  induction ss as [|s rest IH]; [reflexivity|].
  cbn [map filter cr_actual_book_count cr_recorded_count]. unfold is_drifted at 1.
  destruct (count_physical_books (shelf_id s) bs =? current_book_count s) eqn:E;
    cbn [negb map]; rewrite IH; reflexivity.
Qed.

Lemma filter_all {A} (xs : list A) : filter (fun _ => true) xs = xs.
Proof. induction xs as [|x rest IH]; [reflexivity|]. cbn. now rewrite IH. Qed.

Lemma count_physical_books_nonneg (sid : Z) (bs : list book) :
  0 <= count_physical_books sid bs.
Proof. unfold count_physical_books. lia. Qed.

(** C9, as amended.  validate_capacity_consistency reports, up to the order
    of the rows, exactly the shelves whose current_book_count differs from
    the number of physical books on them, each once, with both counts.
    fix_capacity_counts updates every row of shelves.  When no shelf holds
    more physical books than its total_capacity, each shelf gets the
    recomputed count (a shelf that had not drifted keeps its count), the
    method returns the number of all shelves and no drift is left.  When
    some shelf holds more physical books than its total_capacity the CHECK
    chk_current_book_count_valid rejects the statement: the method returns
    0 and nothing changes. *)
Theorem capacity_consistency_spec (now : Z) (d : db) :
  Forall (fun s => shelves_check s = true) (shelves d) ->
  Permutation (validate_capacity_consistency d)
              (map (drift_row (books d)) (filter (is_drifted (books d)) (shelves d)))
  /\ ((forall s, In s (shelves d) ->
                 count_physical_books (shelf_id s) (books d) <= total_capacity s) ->
      fix_capacity_counts now d
      = (Z.of_nat (List.length (shelves d)),
         with_shelves (map (recounted (books d) now) (shelves d)) d)
      /\ (forall s, In s (shelves d) -> is_drifted (books d) s = false ->
                    recounted (books d) now s
                    = mkShelf (shelf_id s) (location_code s) (total_capacity s)
                              (current_book_count s) now)
      /\ validate_capacity_consistency
           (with_shelves (map (recounted (books d) now) (shelves d)) d) = [])
  /\ ((exists s, In s (shelves d)
                 /\ total_capacity s < count_physical_books (shelf_id s) (books d)) ->
      fix_capacity_counts now d = (0, d)).
Proof.
  intros Hck. split; [|split].
  - unfold validate_capacity_consistency. cbn zeta.
    rewrite order_by_location_code_perm, having_rows. reflexivity.
  - intros Hfit. split; [|split].
    + unfold fix_capacity_counts. rewrite shelves_update_ok.
      * rewrite filter_all. reflexivity.
      * intros s Hs _. rewrite Forall_forall in Hck.
        apply shelves_check_adjusted; [now apply Hck|].
        split; [apply count_physical_books_nonneg | now apply Hfit].
    + intros s Hs Hd. unfold is_drifted in Hd. apply negb_false_iff in Hd.
      apply Z.eqb_eq in Hd. unfold recounted. now rewrite Hd.
    + unfold validate_capacity_consistency. cbn zeta. rewrite having_rows.
      cbn [shelves books with_shelves].
      rewrite filter_none; [reflexivity|].
      intros s Hs. apply in_map_iff in Hs. destruct Hs as [x [<- _]].
      unfold is_drifted, recounted. cbn. now rewrite Z.eqb_refl.
  - intros [s [Hs Hover]]. unfold fix_capacity_counts.
    rewrite shelves_update_raise; [reflexivity|].
    exists s. split; [assumption|]. split; [reflexivity|].
    unfold shelves_check. cbn.
    assert ((count_physical_books (shelf_id s) (books d) <=? total_capacity s) = false) as ->
      by (apply Z.leb_gt; lia).
    now rewrite !andb_false_r.
Qed.

Lemma drift_example_shelves_check :
  Forall (fun s => shelves_check s = true) (shelves drift_example).
Proof. cbn. repeat constructor. Qed.

Lemma drift_example_fits (s : shelf) :
  In s (shelves drift_example) ->
  count_physical_books (shelf_id s) (books drift_example) <= total_capacity s.
Proof. cbn. intros [<-|[<-|[]]]; cbn; lia. Qed.

Lemma capacity_consistency_spec_witness :
  Permutation (validate_capacity_consistency drift_example)
              [mkConsistencyRow 1 "A1" 1 2 "MISMATCH"]
  /\ fix_capacity_counts 111 drift_example
     = (2, with_shelves [mkShelf 2 "B2" 5 0 111; mkShelf 1 "A1" 10 1 111] drift_example)
  /\ validate_capacity_consistency
       (with_shelves [mkShelf 2 "B2" 5 0 111; mkShelf 1 "A1" 10 1 111] drift_example) = [].
Proof.
  destruct (capacity_consistency_spec 111 drift_example drift_example_shelves_check)
    as [Hp [Hfix _]].
  destruct (Hfix drift_example_fits) as [H1 [_ H3]].
  split; [exact Hp|]. split; [exact H1 | exact H3].
Defined.

(** C9, as stated, fails on the value fix_capacity_counts returns: with
    one drifted shelf out of two it returns 2, and on a database without
    any drift it returns 3, the number of shelves. *)
Lemma fix_capacity_counts_counts_every_shelf :
  validate_capacity_consistency drift_example = [mkConsistencyRow 1 "A1" 1 2 "MISMATCH"]
  /\ fst (fix_capacity_counts 111 drift_example) = 2
  /\ validate_capacity_consistency circulation_example = []
  /\ fst (fix_capacity_counts 111 circulation_example) = 3.
Proof. repeat split; reflexivity. Qed.

(** *** Where the shelf counts do follow the books *)

Lemma shelves_update_inv (wh : shelf -> bool) (set : shelf -> shelf) (now : Z)
    (ss ss' : list shelf) (n : Z) :
  shelves_update wh set now ss = Ok (n, ss') ->
  ss' = map (fun s => if wh s then update_shelves_updated_at now (set s) else s) ss.
Proof.
  revert n ss'. induction ss as [|s rest IH]; intros n ss' H.
  - cbn in H. inversion H. reflexivity.
  - cbn [shelves_update] in H. cbn [map]. destruct (wh s).
    + unfold shelves_write_row in H.
      destruct (shelves_check (update_shelves_updated_at now (set s))); [|discriminate].
      cbn [ensure bind] in H.
      destruct (shelves_update wh set now rest) as [[k r]|] eqn:E; [|discriminate].
      cbn [bind] in H. inversion H; subst. now rewrite (IH _ _ eq_refl).
    + destruct (shelves_update wh set now rest) as [[k r]|] eqn:E; [|discriminate].
      cbn [bind] in H. inversion H; subst. now rewrite (IH _ _ eq_refl).
Qed.

Lemma update_shelf_book_count_inv (now id delta : Z) (ss ss' : list shelf) :
  update_shelf_book_count now id delta ss = Ok ss' ->
  exists s, find_shelf id ss = Some s
            /\ ss' = shelves_adjusted now id (current_book_count s + delta) ss.
Proof.
  unfold update_shelf_book_count. intros H.
  destruct (find_shelf id ss) as [s|]; [|discriminate]. cbn zeta in H.
  destruct (current_book_count s + delta <? 0); [discriminate|].
  destruct (current_book_count s + delta >? total_capacity s); [discriminate|].
  destruct (shelves_update _ _ now ss) as [[n r]|] eqn:E; [|discriminate].
  cbn [bind] in H. inversion H; subst.
  apply shelves_update_inv in E. exists s. split; [reflexivity | exact E].
Qed.

(** A completed adjustment moves the count of its shelf by [delta] and no
    other count. *)
Lemma update_shelf_book_count_shelf_count (now id delta : Z) (ss ss' : list shelf) (k : Z) :
  update_shelf_book_count now id delta ss = Ok ss' ->
  shelf_count k ss'
  = match shelf_count k ss with
    | Some c => Some (c + (if k =? id then delta else 0))
    | None => None
    end.
Proof.
  intros H. apply update_shelf_book_count_inv in H. destruct H as [s [Hs ->]].
  rewrite shelf_count_adjusted. destruct (k =? id) eqn:E.
  - apply Z.eqb_eq in E. subst k. unfold shelf_count. rewrite Hs. reflexivity.
  - destruct (shelf_count k ss); [f_equal; lia | reflexivity].
Qed.

Lemma shifted_refl (k : Z) (ss : list shelf) : shifted k 0 ss ss.
Proof. unfold shifted. destruct (shelf_count k ss); [f_equal; lia | reflexivity]. Qed.

Lemma shifted_trans (k x y : Z) (ss1 ss2 ss3 : list shelf) :
  shifted k x ss1 ss2 -> shifted k y ss2 ss3 -> shifted k (x + y) ss1 ss3.
Proof.
  unfold shifted. intros H1 H2. rewrite H2, H1.
  destruct (shelf_count k ss1); [f_equal; lia | reflexivity].
Qed.

Lemma shifted_eq (k x y : Z) (ss ss' : list shelf) :
  x = y -> shifted k x ss ss' -> shifted k y ss ss'.
Proof. now intros ->. Qed.

Lemma update_shelf_book_count_shifted (now id delta : Z) (ss ss' : list shelf) (k : Z) :
  update_shelf_book_count now id delta ss = Ok ss' ->
  shifted k (if id =? k then delta else 0) ss ss'.
Proof.
  intros H. unfold shifted. rewrite (update_shelf_book_count_shelf_count _ _ _ _ _ k H).
  rewrite (Z.eqb_sym id k). reflexivity.
Qed.

Lemma books_check_cases (b : book) :
  books_check b = true ->
  (book_type b = BookType.digital /\ book_shelf_id b = None)
  \/ (book_type b = BookType.physical /\ exists sid, book_shelf_id b = Some sid).
Proof.
  unfold books_check. destruct (book_type b), (book_shelf_id b) as [sid|]; cbn;
    intros H; try discriminate.
  - right. split; [reflexivity | now exists sid].
  - left. split; reflexivity.
Qed.

(** The trigger moves the counts by the change of the books, for every
    event but the UPDATE of a digital book into a physical one. *)
Lemma update_shelf_count_shifted (now : Z) (ev : tg_event book) (ss ss' : list shelf) (k : Z) :
  update_shelf_count_on_book_change now ev ss = Ok ss' -> counted_once ev ->
  shifted k (event_delta k ev) ss ss'.
Proof.
  destruct ev as [new|old new|old]; cbn [update_shelf_count_on_book_change counted_once].
  - intros H _. unfold event_delta, on_shelf_Z, on_shelf, is_physical.
    destruct (book_shelf_id new) as [sid|], (book_type new); cbn.
    + apply (update_shelf_book_count_shifted _ _ _ _ _ k) in H.
      eapply shifted_eq; [|exact H]. destruct (sid =? k); reflexivity.
    + inversion H; subst. eapply shifted_eq; [|apply shifted_refl].
      destruct (sid =? k); reflexivity.
    + inversion H; subst. apply shifted_refl.
    + inversion H; subst. apply shifted_refl.
  - intros H [Ho [Hn Hdp]].
    unfold event_delta, on_shelf_Z, on_shelf, is_physical.
    destruct (books_check_cases _ Ho) as [[To So]|[To [o So]]];
      destruct (books_check_cases _ Hn) as [[Tn Sn]|[Tn [n Sn]]];
      rewrite To, Tn, So, Sn in *; cbn in H |- *.
    + inversion H; subst. apply shifted_refl.
    + exfalso. apply Hdp. split; reflexivity.
    + destruct (update_shelf_book_count now o (-1) ss) as [ss1|] eqn:E1; [|discriminate].
      cbn [bind] in H. inversion H; subst.
      apply (update_shelf_book_count_shifted _ _ _ _ _ k) in E1.
      eapply shifted_eq; [|exact E1]. destruct (o =? k); reflexivity.
    + destruct (o =? n) eqn:Eon; cbn in H.
      * inversion H; subst. apply Z.eqb_eq in Eon. subst n.
        eapply shifted_eq; [|apply shifted_refl]. lia.
      * destruct (update_shelf_book_count now o (-1) ss) as [ss1|] eqn:E1; [|discriminate].
        cbn [bind] in H.
        destruct (update_shelf_book_count now n 1 ss1) as [ss2|] eqn:E2; [|discriminate].
        cbn [bind] in H. inversion H; subst.
        apply (update_shelf_book_count_shifted _ _ _ _ _ k) in E1.
        apply (update_shelf_book_count_shifted _ _ _ _ _ k) in E2.
        eapply shifted_eq; [|exact (shifted_trans _ _ _ _ _ _ E1 E2)].
        destruct (o =? k), (n =? k); cbn; lia.
  - intros H _. unfold event_delta, on_shelf_Z, on_shelf, is_physical.
    destruct (book_shelf_id old) as [sid|], (book_type old); cbn.
    + apply (update_shelf_book_count_shifted _ _ _ _ _ k) in H.
      eapply shifted_eq; [|exact H]. destruct (sid =? k); reflexivity.
    + inversion H; subst. eapply shifted_eq; [|apply shifted_refl].
      destruct (sid =? k); reflexivity.
    + inversion H; subst. apply shifted_refl.
    + inversion H; subst. apply shifted_refl.
Qed.

Lemma fire_shelf_count_shifted (now : Z) (evs : list (tg_event book)) (ss ss' : list shelf)
    (k : Z) :
  fire_shelf_count now evs ss = Ok ss' -> Forall counted_once evs ->
  shifted k (events_delta k evs) ss ss'.
Proof.
  revert ss. induction evs as [|ev rest IH]; intros ss H Hc.
  - cbn in H. inversion H; subst. apply shifted_refl.
  - cbn [fire_shelf_count] in H. inversion Hc as [|? ? Hev Hrest]; subst.
    destruct (update_shelf_count_on_book_change now ev ss) as [ss1|] eqn:E; [|discriminate].
    cbn [bind] in H. cbn [events_delta fold_right].
    apply (shifted_trans k _ _ ss ss1 ss').
    + now apply (update_shelf_count_shifted now).
    + now apply IH.
Qed.

Lemma count_physical_books_cons (k : Z) (b : book) (bs : list book) :
  count_physical_books k (b :: bs) = on_shelf_Z k b + count_physical_books k bs.
Proof.
  unfold count_physical_books, on_shelf_Z. cbn [filter].
  change (opt_Z_eqb (book_shelf_id b) (Some k) && is_physical b) with (on_shelf k b).
  destruct (on_shelf k b); cbn [List.length]; lia.
Qed.

Lemma count_physical_books_app (k : Z) (xs ys : list book) :
  count_physical_books k (xs ++ ys) = count_physical_books k xs + count_physical_books k ys.
Proof.
  unfold count_physical_books. rewrite filter_app, length_app. lia.
Qed.

Lemma count_physical_books_rewritten (k : Z) (wh : book -> bool) (g : book -> book)
    (bs : list book) :
  count_physical_books k (map (fun b => if wh b then g b else b) bs)
  = count_physical_books k bs
    + events_delta k (map (fun b => TG_UPDATE b (g b)) (filter wh bs)).
Proof.
  induction bs as [|b rest IH]; [reflexivity|].
  cbn [map filter]. rewrite !count_physical_books_cons, IH.
  destruct (wh b); cbn [map events_delta fold_right event_delta];
    fold (events_delta k (map (fun b => TG_UPDATE b (g b)) (filter wh rest))); lia.
Qed.

Lemma count_physical_books_deleted (k : Z) (p : book -> bool) (bs : list book) :
  count_physical_books k (filter (fun b => negb (p b)) bs)
  = count_physical_books k bs + events_delta k (map TG_DELETE (filter p bs)).
Proof.
  induction bs as [|b rest IH]; [reflexivity|].
  cbn [filter]. rewrite count_physical_books_cons.
  destruct (p b); cbn [negb map events_delta fold_right event_delta];
    fold (events_delta k (map TG_DELETE (filter p rest)));
    rewrite ?count_physical_books_cons, IH; lia.
Qed.

(** The rows a completed pass has written satisfy the CHECKs. *)
Lemma books_write_rows_checked (wh : book -> bool) (set : book -> book) (now : Z)
    (ss : list shelf) (bs bs' : list book) (evs : list (tg_event book)) :
  books_write_rows wh set now ss bs = Ok (bs', evs) ->
  forall b, In b bs -> wh b = true ->
            books_check (update_books_updated_at now (set b)) = true.
Proof.
  revert bs' evs. induction bs as [|x rest IH]; intros bs' evs H b Hb Hw; [easy|].
  cbn [books_write_rows] in H. destruct (wh x) eqn:E.
  - destruct (validate_book_shelf_placement (set x) ss); [|discriminate].
    cbn [bind] in H.
    destruct (books_check (update_books_updated_at now (set x))) eqn:C; [|discriminate].
    cbn [ensure bind] in H.
    destruct (books_write_rows wh set now ss rest) as [[r e]|] eqn:W; [|discriminate].
    destruct Hb as [->|Hb]; [exact C | exact (IH _ _ eq_refl b Hb Hw)].
  - destruct (books_write_rows wh set now ss rest) as [[r e]|] eqn:W; [|discriminate].
    destruct Hb as [->|Hb]; [congruence | exact (IH _ _ eq_refl b Hb Hw)].
Qed.

(** An UPDATE of books that turns no digital book into a physical one keeps
    the ledger invariant. *)
Lemma books_update_consistent (wh : book -> bool) (set : book -> book) (now : Z)
    (d d' : db) (n : Z) :
  books_update wh set now d = Ok (n, d') ->
  counts_consistent d ->
  Forall (fun b => books_check b = true) (books d) ->
  (forall b, In b (books d) -> wh b = true ->
             ~ (book_type b = BookType.digital /\ book_type (set b) = BookType.physical)) ->
  counts_consistent d'.
Proof.
  unfold books_update. intros H Hc Hck Hnd.
  destruct (books_write_rows wh set now (shelves d) (books d)) as [[bs' evs]|] eqn:W;
    [|discriminate].
  pose proof (books_write_rows_checked _ _ _ _ _ _ _ W) as Hnew.
  apply books_write_rows_inv in W. destruct W as [-> ->].
  cbn [bind] in H.
  destruct (fire_shelf_count now _ (shelves d)) as [ss'|] eqn:F; [|discriminate].
  cbn [bind] in H. inversion H; subst. clear H.
  intros k c Hk. cbn [shelves books with_shelves with_books] in *.
  assert (Forall counted_once
            (map (fun b => TG_UPDATE b (update_books_updated_at now (set b)))
                 (filter wh (books d)))) as Hev.
  { apply Forall_map. apply Forall_forall. intros b Hb.
    apply filter_In in Hb. destruct Hb as [Hb Hw]. cbn [counted_once].
    rewrite Forall_forall in Hck.
    split; [now apply Hck|]. split; [now apply Hnew|]. now apply Hnd. }
  pose proof (fire_shelf_count_shifted now _ _ _ k F Hev) as Hs. unfold shifted in Hs.
  rewrite Hk in Hs.
  destruct (shelf_count k (shelves d)) as [c0|] eqn:E0; [|discriminate].
  inversion Hs; subst. rewrite (Hc k c0 E0).
  now rewrite count_physical_books_rewritten.
Qed.

(** An INSERT into books keeps the ledger invariant. *)
Lemma books_insert_consistent (now : Z) (new : book) (d d' : db) :
  books_insert now new d = Ok d' -> counts_consistent d -> counts_consistent d'.
Proof.
  unfold books_insert. intros H Hc.
  destruct (validate_book_shelf_placement new (shelves d)); [|discriminate].
  cbn [bind] in H.
  destruct (books_check new); [|discriminate].
  cbn [ensure bind] in H.
  destruct (existsb _ (books d)); [discriminate|].
  cbn [negb ensure bind] in H.
  destruct (update_shelf_count_on_book_change now (TG_INSERT new) (shelves d))
    as [ss'|] eqn:F; [|discriminate].
  cbn [bind] in H. inversion H; subst. clear H.
  intros k c Hk. cbn [shelves books with_shelves with_books] in *.
  pose proof (update_shelf_count_shifted now _ _ _ k F I) as Hs. unfold shifted in Hs.
  rewrite Hk in Hs.
  destruct (shelf_count k (shelves d)) as [c0|] eqn:E0; [|discriminate].
  inversion Hs; subst. rewrite (Hc k c0 E0).
  rewrite count_physical_books_app, count_physical_books_cons.
  cbn [event_delta]. unfold count_physical_books at 3. cbn. lia.
Qed.

Lemma same_placement_refl (d : db) : same_placement d d.
Proof. split; [reflexivity|]. split; [reflexivity | auto]. Qed.

Lemma same_placement_trans (x y z : db) :
  same_placement x y -> same_placement y z -> same_placement x z.
Proof.
  intros [H1 [H2 H3]] [H4 [H5 H6]]. split; [congruence|]. split.
  - intros k. now rewrite H5, H2.
  - auto.
Qed.

Lemma same_placement_with_loans (ls : list loan) (d : db) : same_placement d (with_loans ls d).
Proof. split; [reflexivity|]. split; [reflexivity | auto]. Qed.

Lemma books_set_status_same_placement (id : Z) (st : BookStatus.t) (now : Z) (x y : db)
    (n : Z) :
  books_set_status id st now x = Ok (n, y) -> same_placement x y.
Proof.
  intros H. apply books_set_status_inv in H. subst y.
  split; [reflexivity|]. cbn [books with_books]. unfold books_with_status. split.
  - intros k. induction (books x) as [|b rest IH]; [reflexivity|].
    cbn [map]. rewrite !count_physical_books_cons, IH. f_equal.
    destruct (book_id b =? id); reflexivity.
  - intros Hck. apply Forall_map. rewrite Forall_forall in *. intros b Hb.
    destruct (book_id b =? id); [|now apply Hck].
    rewrite books_check_set_status. now apply Hck.
Qed.

(** The loan triggers move no book and no count. *)
Lemma fire_book_status_same_placement (now : Z) (evs : list (tg_event loan)) (d d' : db) :
  fire_book_status now evs d = Ok d' -> same_placement d d'.
Proof.
  apply (fire_book_status_rel same_placement).
  - apply same_placement_refl.
  - apply same_placement_trans.
  - intros id st t x y n. apply books_set_status_same_placement.
Qed.

Lemma same_placement_consistent (x y : db) :
  same_placement x y -> counts_consistent x -> counts_consistent y.
Proof.
  intros [Hs [Hb _]] Hc k c Hk. rewrite Hs in Hk. rewrite Hb. now apply Hc.
Qed.

(** A DELETE from books keeps the ledger invariant. *)
Lemma books_delete_consistent (id now : Z) (d d' : db) (n : Z) :
  books_delete id now d = Ok (n, d') -> counts_consistent d -> counts_consistent d'.
Proof.
  unfold books_delete, loans_delete. intros H Hc.
  destruct (fire_book_status now _ _) as [d2|] eqn:L; [|discriminate].
  cbn [bind] in H.
  destruct (fire_shelf_count now _ (shelves d2)) as [ss'|] eqn:F; [|discriminate].
  cbn [bind] in H. inversion H; subst. clear H.
  apply fire_book_status_same_placement in L. destruct L as [Hsh [Hbk _]].
  cbn [shelves books with_loans with_books] in Hsh, Hbk.
  intros k c Hk. cbn [shelves books with_shelves] in *.
  assert (Forall counted_once
            (map TG_DELETE (filter (fun b => book_id b =? id) (books d)))) as Hev
    by (apply Forall_map, Forall_forall; intros b _; exact I).
  pose proof (fire_shelf_count_shifted now _ _ _ k F Hev) as Hs. unfold shifted in Hs.
  rewrite Hk, Hsh in Hs.
  destruct (shelf_count k (shelves d)) as [c0|] eqn:E0; [|discriminate].
  inversion Hs; subst. rewrite (Hc k c0 E0), Hbk.
  now rewrite (count_physical_books_deleted k (fun b => book_id b =? id)).
Qed.

Lemma loans_update_same_placement (wh : loan -> bool) (set : loan -> loan) (today now : Z)
    (d d' : db) (n : Z) :
  loans_update wh set today now d = Ok (n, d') -> same_placement d d'.
Proof.
  unfold loans_update. intros H.
  destruct (loans_write_rows wh set today now [] (loans d)) as [[t evs]|]; [|discriminate].
  cbn [bind] in H.
  destruct (fire_book_status now evs (with_loans t d)) as [d1|] eqn:F; [|discriminate].
  cbn [bind] in H. inversion H; subst.
  apply (same_placement_trans _ (with_loans t d)).
  - apply same_placement_with_loans.
  - exact (fire_book_status_same_placement _ _ _ _ F).
Qed.

Lemma loans_delete_same_placement (wh : loan -> bool) (now : Z) (d d' : db) (n : Z) :
  loans_delete wh now d = Ok (n, d') -> same_placement d d'.
Proof.
  unfold loans_delete. intros H.
  destruct (fire_book_status now _ _) as [d1|] eqn:F; [|discriminate].
  cbn [bind] in H. inversion H; subst.
  eapply same_placement_trans; [apply same_placement_with_loans|].
  exact (fire_book_status_same_placement _ _ _ _ F).
Qed.

Lemma books_update_checked (wh : book -> bool) (set : book -> book) (now : Z)
    (d d' : db) (n : Z) :
  books_update wh set now d = Ok (n, d') ->
  Forall (fun b => books_check b = true) (books d) ->
  Forall (fun b => books_check b = true) (books d').
Proof.
  unfold books_update. intros H Hck.
  destruct (books_write_rows wh set now (shelves d) (books d)) as [[bs' evs]|] eqn:W;
    [|discriminate].
  pose proof (books_write_rows_checked _ _ _ _ _ _ _ W) as Hnew.
  apply books_write_rows_inv in W. destruct W as [-> ->].
  cbn [bind] in H.
  destruct (fire_shelf_count now _ (shelves d)) as [ss'|]; [|discriminate].
  cbn [bind] in H. inversion H; subst. cbn [books with_shelves with_books].
  apply Forall_map. rewrite Forall_forall in *. intros b Hb.
  destruct (wh b) eqn:E; [now apply Hnew | now apply Hck].
Qed.

Lemma books_insert_checked (now : Z) (new : book) (d d' : db) :
  books_insert now new d = Ok d' ->
  Forall (fun b => books_check b = true) (books d) ->
  Forall (fun b => books_check b = true) (books d').
Proof.
  unfold books_insert. intros H Hck.
  destruct (validate_book_shelf_placement new (shelves d)); [|discriminate].
  cbn [bind] in H.
  destruct (books_check new) eqn:C; [|discriminate].
  cbn [ensure bind] in H.
  destruct (existsb _ (books d)); [discriminate|].
  cbn [negb ensure bind] in H.
  destruct (update_shelf_count_on_book_change now _ (shelves d)) as [ss'|]; [|discriminate].
  cbn [bind] in H. inversion H; subst. cbn [books with_shelves with_books].
  apply Forall_app. split; [assumption | now constructor].
Qed.

Lemma books_delete_checked (id now : Z) (d d' : db) (n : Z) :
  books_delete id now d = Ok (n, d') ->
  Forall (fun b => books_check b = true) (books d) ->
  Forall (fun b => books_check b = true) (books d').
Proof.
  unfold books_delete. intros H Hck.
  destruct (loans_delete _ now _) as [[k d2]|] eqn:L; [|discriminate].
  cbn [bind] in H.
  destruct (fire_shelf_count now _ (shelves d2)) as [ss'|]; [|discriminate].
  cbn [bind] in H. inversion H; subst. cbn [books with_shelves].
  apply loans_delete_same_placement in L. destruct L as [_ [_ Hb]].
  apply Hb. cbn [books with_books].
  rewrite Forall_forall in *. intros b Hb'. apply filter_In in Hb'. now apply Hck.
Qed.

Lemma find_shelf_map (f : shelf -> shelf) (k : Z) (ss : list shelf) :
  (forall s, shelf_id (f s) = shelf_id s) ->
  find_shelf k (map f ss)
  = match find_shelf k ss with Some s => Some (f s) | None => None end.
Proof.
  intros Hf. unfold find_shelf. induction ss as [|x rest IH]; [reflexivity|].
  cbn [map find]. rewrite Hf. destruct (shelf_id x =? k); [reflexivity | exact IH].
Qed.

(** The repair establishes the ledger invariant, whatever it was before. *)
Lemma fix_capacity_counts_consistent (now : Z) (d : db) (n : Z) (ss' : list shelf) :
  shelves_update (fun _ => true)
    (fun s => set_current_book_count (count_physical_books (shelf_id s) (books d)) s)
    now (shelves d) = Ok (n, ss') ->
  counts_consistent (with_shelves ss' d).
Proof.
  intros H. apply shelves_update_inv in H. subst ss'.
  intros k c Hk. cbn [shelves books with_shelves] in Hk |- *.
  unfold shelf_count in Hk. rewrite find_shelf_map in Hk by reflexivity.
  destruct (find_shelf k (shelves d)) as [s|] eqn:E; [|discriminate].
  destruct (find_shelf_some _ _ _ E) as [_ Hid].
  cbn in Hk. inversion Hk. now rewrite Hid.
Qed.

(** One operation that keeps the ledger keeps the invariant and the CHECKs
    of books. *)
Lemma exec_keeps_ledger (op : operation) (d : db) :
  keeps_ledger op ->
  counts_consistent d -> Forall (fun b => books_check b = true) (books d) ->
  counts_consistent (exec op d)
  /\ Forall (fun b => books_check b = true) (books (exec op d)).
Proof.
  intros Hop Hc Hck.
  assert (forall d', same_placement d d' ->
                     counts_consistent d'
                     /\ Forall (fun b => books_check b = true) (books d')) as Hsame.
  { intros d' Hs. split; [exact (same_placement_consistent _ _ Hs Hc)|].
    destruct Hs as [_ [_ Hb]]. now apply Hb. }
  destruct op; cbn [exec keeps_ledger] in *.
  - rewrite create_loan_refused. now split.
  - rewrite loan_repository_create_loan_refused. now split.
  - unfold return_book.
    destruct (loans_update _ _ today now d) as [[n d']|] eqn:E; [|now split].
    apply Hsame. exact (loans_update_same_placement _ _ _ _ _ _ _ E).
  - unfold renew_loan.
    destruct (loans_update _ _ today now d) as [[n d']|] eqn:E; [|now split].
    apply Hsame. exact (loans_update_same_placement _ _ _ _ _ _ _ E).
  - unfold loan_repository_update_status.
    destruct (loans_update _ _ today now d) as [[n d']|] eqn:E; [|now split].
    apply Hsame. exact (loans_update_same_placement _ _ _ _ _ _ _ E).
  - unfold update_overdue_loans, pg_update_overdue_loans.
    destruct (loans_update _ _ today now d) as [[n d']|] eqn:E; [|now split].
    apply Hsame. exact (loans_update_same_placement _ _ _ _ _ _ _ E).
  - unfold book_repository_create.
    destruct (books_insert now _ d) as [d'|] eqn:E; [|now split].
    split; [exact (books_insert_consistent _ _ _ _ E Hc)
           | exact (books_insert_checked _ _ _ _ E Hck)].
  - unfold book_repository_update.
    assert (forall r, books_update (fun b => book_id b =? id) (apply_book_data bd) now d = r ->
              counts_consistent (snd (match r with
                                      | Ok (rows_affected, d') => (0 <? rows_affected, d')
                                      | Raise _ => (false, d)
                                      end))
              /\ Forall (fun b => books_check b = true)
                   (books (snd (match r with
                                | Ok (rows_affected, d') => (0 <? rows_affected, d')
                                | Raise _ => (false, d)
                                end)))) as Hupd.
    { intros [[n d']|e] E; [|now split]. cbn [snd]. split.
      - apply (books_update_consistent _ _ _ _ _ _ E Hc Hck).
        intros b _ _ [Hd Hp]. unfold apply_book_data in Hp. cbn in Hp.
        destruct (bd_book_type bd) as [ty|]; [subst ty; now apply Hop | congruence].
      - exact (books_update_checked _ _ _ _ _ _ E Hck). }
    destruct (bd_book_type bd), (bd_shelf_id bd), (bd_status bd);
      try (now split); now apply Hupd.
  - unfold move_book_to_shelf.
    destruct (books_update _ _ now d) as [[n d']|] eqn:E; [|now split].
    cbn [snd]. split.
    + apply (books_update_consistent _ _ _ _ _ _ E Hc Hck).
      intros b _ _ [Hd Hp]. cbn in Hp. congruence.
    + exact (books_update_checked _ _ _ _ _ _ E Hck).
  - unfold update_book_status.
    destruct (books_set_status id st now d) as [[n d']|] eqn:E; [|now split].
    apply Hsame. exact (books_set_status_same_placement _ _ _ _ _ _ E).
  - unfold book_repository_delete.
    destruct (books_delete id now d) as [[n d']|] eqn:E; [|now split].
    split; [exact (books_delete_consistent _ _ _ _ _ E Hc)
           | exact (books_delete_checked _ _ _ _ _ E Hck)].
  - unfold student_repository_delete.
    destruct (loans_delete _ now _) as [[n d']|] eqn:E; [|now split].
    apply Hsame. apply loans_delete_same_placement in E.
    destruct E as [E1 [E2 E3]]. split; [exact E1|]. split; [exact E2 | exact E3].
  - contradiction.
  - unfold fix_capacity_counts.
    destruct (shelves_update _ _ now (shelves d)) as [[n ss']|] eqn:E; [|now split].
    split; [exact (fix_capacity_counts_consistent _ _ _ _ E) | exact Hck].
Qed.

(** X1.  Along every sequence of operations that keep the ledger (all but
    the direct adjustment of a count and the update that makes a book
    physical), from a database where each shelf records the number of
    physical books that refer to it, each shelf still records that number. *)
Theorem ledger_follows_books (ops : list operation) (d : db) :
  Forall keeps_ledger ops ->
  counts_consistent d -> Forall (fun b => books_check b = true) (books d) ->
  counts_consistent (run ops d).
Proof.
  revert d. induction ops as [|op rest IH]; intros d Hops Hc Hck; [exact Hc|].
  inversion Hops as [|? ? Hop Hrest]; subst.
  destruct (exec_keeps_ledger op d Hop Hc Hck) as [Hc' Hck'].
  cbn [run fold_left]. exact (IH _ Hrest Hc' Hck').
Qed.

Lemma counts_consistent_of_rows (d : db) :
  Forall (fun s => current_book_count s = count_physical_books (shelf_id s) (books d))
         (shelves d) ->
  counts_consistent d.
Proof.
  intros H k c Hk. unfold shelf_count in Hk.
  destruct (find_shelf k (shelves d)) as [s|] eqn:E; [|discriminate].
  destruct (find_shelf_some _ _ _ E) as [Hin Hid].
  rewrite Forall_forall in H. inversion Hk; subst. now apply H.
Qed.

Lemma circulation_example_consistent : counts_consistent circulation_example.
Proof. apply counts_consistent_of_rows. cbn. repeat constructor. Qed.

Lemma circulation_example_books_check :
  Forall (fun b => books_check b = true) (books circulation_example).
Proof. cbn. repeat constructor. Qed.

Lemma ledger_follows_books_witness :
  counts_consistent
    (run [CreateBook 111 5 (mkBookData None (Some (Some 1)) None);
          MoveBookToShelf 112 3 1;
          UpdateBook 113 1 (mkBookData (Some BookType.digital) (Some None) None);
          DeleteBook 114 3;
          ReturnBook 110 115 1 None]
         circulation_example).
Proof.
  apply ledger_follows_books.
  - repeat constructor; cbn; discriminate.
  - exact circulation_example_consistent.
  - exact circulation_example_books_check.
Defined.

(** *** The counts stay within the capacity *)

Lemma shelves_update_checked (wh : shelf -> bool) (set : shelf -> shelf) (now : Z)
    (ss ss' : list shelf) (n : Z) :
  shelves_update wh set now ss = Ok (n, ss') -> shelves_checked ss -> shelves_checked ss'.
Proof.
  unfold shelves_checked.
  revert n ss'. induction ss as [|s rest IH]; intros n ss' H Hck.
  - cbn in H. inversion H. constructor.
  - cbn [shelves_update] in H. inversion Hck as [|? ? Hs Hrest]; subst.
    destruct (wh s).
    + unfold shelves_write_row in H.
      destruct (shelves_check (update_shelves_updated_at now (set s))) eqn:C; [|discriminate].
      cbn [ensure bind] in H.
      destruct (shelves_update wh set now rest) as [[k r]|] eqn:E; [|discriminate].
      cbn [bind] in H. inversion H; subst.
      constructor; [exact C | exact (IH _ _ eq_refl Hrest)].
    + destruct (shelves_update wh set now rest) as [[k r]|] eqn:E; [|discriminate].
      cbn [bind] in H. inversion H; subst.
      constructor; [exact Hs | exact (IH _ _ eq_refl Hrest)].
Qed.

Lemma update_shelf_book_count_checked (now id delta : Z) (ss ss' : list shelf) :
  update_shelf_book_count now id delta ss = Ok ss' -> shelves_checked ss -> shelves_checked ss'.
Proof.
  unfold update_shelf_book_count. intros H Hck.
  destruct (find_shelf id ss) as [s|]; [|discriminate]. cbn zeta in H.
  destruct (current_book_count s + delta <? 0); [discriminate|].
  destruct (current_book_count s + delta >? total_capacity s); [discriminate|].
  destruct (shelves_update _ _ now ss) as [[n r]|] eqn:E; [|discriminate].
  cbn [bind] in H. inversion H; subst.
  exact (shelves_update_checked _ _ _ _ _ _ E Hck).
Qed.

Lemma update_shelf_count_checked (now : Z) (ev : tg_event book) (ss ss' : list shelf) :
  update_shelf_count_on_book_change now ev ss = Ok ss' ->
  shelves_checked ss -> shelves_checked ss'.
Proof.
  intros H Hck. destruct ev as [new|old new|old];
    cbn [update_shelf_count_on_book_change] in H; split_steps;
    eauto 10 using update_shelf_book_count_checked.
Qed.

Lemma fire_shelf_count_checked (now : Z) (evs : list (tg_event book)) (ss ss' : list shelf) :
  fire_shelf_count now evs ss = Ok ss' -> shelves_checked ss -> shelves_checked ss'.
Proof.
  revert ss. induction evs as [|ev rest IH]; intros ss H Hck.
  - cbn in H. inversion H; subst. exact Hck.
  - cbn [fire_shelf_count] in H.
    destruct (update_shelf_count_on_book_change now ev ss) as [ss1|] eqn:E; [|discriminate].
    cbn [bind] in H. eauto using update_shelf_count_checked.
Qed.

Lemma books_update_shelves_checked (wh : book -> bool) (set : book -> book) (now : Z)
    (d d' : db) (n : Z) :
  books_update wh set now d = Ok (n, d') ->
  shelves_checked (shelves d) -> shelves_checked (shelves d').
Proof.
  unfold books_update. intros H Hck.
  destruct (books_write_rows wh set now (shelves d) (books d)) as [[bs' evs]|];
    [|discriminate].
  cbn [bind] in H.
  destruct (fire_shelf_count now evs (shelves d)) as [ss'|] eqn:F; [|discriminate].
  cbn [bind] in H. inversion H; subst. cbn [shelves with_shelves].
  exact (fire_shelf_count_checked _ _ _ _ F Hck).
Qed.

Lemma books_insert_shelves_checked (now : Z) (new : book) (d d' : db) :
  books_insert now new d = Ok d' ->
  shelves_checked (shelves d) -> shelves_checked (shelves d').
Proof.
  unfold books_insert. intros H Hck.
  destruct (validate_book_shelf_placement new (shelves d)); [|discriminate].
  cbn [bind] in H.
  destruct (books_check new); [|discriminate].
  cbn [ensure bind] in H.
  destruct (existsb _ (books d)); [discriminate|].
  cbn [negb ensure bind] in H.
  destruct (update_shelf_count_on_book_change now _ (shelves d)) as [ss'|] eqn:F;
    [|discriminate].
  cbn [bind] in H. inversion H; subst. cbn [shelves with_shelves].
  exact (update_shelf_count_checked _ _ _ _ F Hck).
Qed.

Lemma books_delete_shelves_checked (id now : Z) (d d' : db) (n : Z) :
  books_delete id now d = Ok (n, d') ->
  shelves_checked (shelves d) -> shelves_checked (shelves d').
Proof.
  unfold books_delete. intros H Hck.
  destruct (loans_delete _ now _) as [[k d2]|] eqn:L; [|discriminate].
  cbn [bind] in H.
  destruct (fire_shelf_count now _ (shelves d2)) as [ss'|] eqn:F; [|discriminate].
  cbn [bind] in H. inversion H; subst. cbn [shelves with_shelves].
  apply loans_delete_same_placement in L. destruct L as [Hs _].
  apply (fire_shelf_count_checked _ _ _ _ F). now rewrite Hs.
Qed.

Lemma exec_shelves_checked (op : operation) (d : db) :
  shelves_checked (shelves d) -> shelves_checked (shelves (exec op d)).
Proof.
  intros Hck.
  assert (forall d', same_placement d d' -> shelves_checked (shelves d')) as Hsame
    by (intros d' [Hs _]; now rewrite Hs).
  destruct op; cbn [exec].
  - rewrite create_loan_refused. exact Hck.
  - rewrite loan_repository_create_loan_refused. exact Hck.
  - unfold return_book.
    destruct (loans_update _ _ today now d) as [[n d']|] eqn:E; [|exact Hck].
    apply Hsame. exact (loans_update_same_placement _ _ _ _ _ _ _ E).
  - unfold renew_loan.
    destruct (loans_update _ _ today now d) as [[n d']|] eqn:E; [|exact Hck].
    apply Hsame. exact (loans_update_same_placement _ _ _ _ _ _ _ E).
  - unfold loan_repository_update_status.
    destruct (loans_update _ _ today now d) as [[n d']|] eqn:E; [|exact Hck].
    apply Hsame. exact (loans_update_same_placement _ _ _ _ _ _ _ E).
  - unfold update_overdue_loans, pg_update_overdue_loans.
    destruct (loans_update _ _ today now d) as [[n d']|] eqn:E; [|exact Hck].
    apply Hsame. exact (loans_update_same_placement _ _ _ _ _ _ _ E).
  - unfold book_repository_create.
    destruct (books_insert now _ d) as [d'|] eqn:E; [|exact Hck].
    exact (books_insert_shelves_checked _ _ _ _ E Hck).
  - unfold book_repository_update.
    destruct (bd_book_type bd), (bd_shelf_id bd), (bd_status bd); try exact Hck;
      (destruct (books_update _ _ now d) as [[n d']|] eqn:E; [|exact Hck];
       exact (books_update_shelves_checked _ _ _ _ _ _ E Hck)).
  - unfold move_book_to_shelf.
    destruct (books_update _ _ now d) as [[n d']|] eqn:E; [|exact Hck].
    exact (books_update_shelves_checked _ _ _ _ _ _ E Hck).
  - unfold update_book_status, books_set_status.
    destruct (books_update _ _ now d) as [[n d']|] eqn:E; [|exact Hck].
    exact (books_update_shelves_checked _ _ _ _ _ _ E Hck).
  - unfold book_repository_delete.
    destruct (books_delete id now d) as [[n d']|] eqn:E; [|exact Hck].
    exact (books_delete_shelves_checked _ _ _ _ _ E Hck).
  - unfold student_repository_delete.
    destruct (loans_delete _ now _) as [[n d']|] eqn:E; [|exact Hck].
    apply loans_delete_same_placement in E. destruct E as [Hs _].
    cbn [snd]. now rewrite Hs.
  - unfold update_book_count.
    destruct (update_shelf_book_count now sid count_change (shelves d)) as [ss'|] eqn:E;
      [|exact Hck].
    exact (update_shelf_book_count_checked _ _ _ _ _ E Hck).
  - unfold fix_capacity_counts.
    destruct (shelves_update _ _ now (shelves d)) as [[n ss']|] eqn:E; [|exact Hck].
    exact (shelves_update_checked _ _ _ _ _ _ E Hck).
Qed.

(** X2.  Whatever the operations, the recorded count of every shelf stays
    within [0, total_capacity]: every write of a shelves row goes through
    the CHECKs of the table. *)
Theorem shelf_counts_within_capacity (ops : list operation) (d : db) :
  shelves_checked (shelves d) ->
  forall s, In s (shelves (run ops d)) ->
            0 <= current_book_count s <= total_capacity s.
Proof.
  intros Hck.
  assert (shelves_checked (shelves (run ops d))) as Hrun.
  { revert d Hck. induction ops as [|op rest IH]; intros d Hck; [exact Hck|].
    cbn [run fold_left]. apply IH. now apply exec_shelves_checked. }
  intros s Hs. unfold shelves_checked in Hrun. rewrite Forall_forall in Hrun.
  specialize (Hrun s Hs). unfold shelves_check in Hrun.
  apply andb_true_iff in Hrun. destruct Hrun as [_ Hrun].
  apply andb_true_iff in Hrun. destruct Hrun as [H1 H2].
  apply Z.leb_le in H1. apply Z.leb_le in H2. lia.
Qed.

Lemma shelf_counts_within_capacity_witness :
  Forall (fun s => 0 <= current_book_count s <= total_capacity s)
    (shelves (run [UpdateBook 111 2 (mkBookData (Some BookType.physical)
                                                (Some (Some 3)) None);
                   UpdateBookCount 112 1 20;
                   MoveBookToShelf 113 3 1]
                  circulation_example)).
Proof.
  apply Forall_forall.
  apply (shelf_counts_within_capacity _ circulation_example).
  exact (proj2 circulation_example_shelves_stored).
Defined.

(** *** Free places: check_capacity and get_available_shelves *)

Lemma filter_head_find {A} (f : A -> bool) (xs : list A) :
  find f xs = match filter f xs with x :: _ => Some x | [] => None end.
Proof.
  induction xs as [|x rest IH]; [reflexivity|].
  cbn. destruct (f x); [reflexivity | exact IH].
Qed.

Lemma check_capacity_iff (id : Z) (d : db) :
  check_capacity id d = true
  <-> exists s, find_shelf id (shelves d) = Some s
                /\ current_book_count s < total_capacity s.
Proof.
  unfold check_capacity, check_shelf_capacity.
  destruct (find_shelf id (shelves d)) as [s|].
  - cbn zeta. split.
    + intros H. exists s. split; [reflexivity | now apply Z.ltb_lt].
    + intros [s' [Heq H]]. inversion Heq; subst. now apply Z.ltb_lt.
  - split; [discriminate | intros [s [H _]]; discriminate].
Qed.

(** X5.  ShelvesTableManager.check_capacity and
    ShelfRepository.check_capacity give the same answer on every database:
    True exactly when the shelf exists and its current_book_count is below
    its total_capacity (False for an unknown shelf).  The placement trigger
    accepts a physical book on the shelf exactly when they answer True. *)
Theorem check_capacity_agree (id : Z) (d : db) :
  check_capacity id d = shelf_repository_check_capacity id d
  /\ (check_capacity id d = true
      <-> exists s, find_shelf id (shelves d) = Some s
                    /\ current_book_count s < total_capacity s)
  /\ (forall b, book_type b = BookType.physical -> book_shelf_id b = Some id ->
        (validate_book_shelf_placement b (shelves d) = Ok tt <-> check_capacity id d = true)).
Proof.
  split; [|split; [apply check_capacity_iff|]].
  - unfold check_capacity, shelf_repository_check_capacity, check_shelf_capacity, find_shelf.
    rewrite filter_head_find.
    destruct (filter (fun s => shelf_id s =? id) (shelves d)) as [|s rest]; [reflexivity|].
    cbn. destruct (current_book_count s <? total_capacity s) eqn:E.
    + apply Z.ltb_lt in E. symmetry. apply Z.gtb_lt. lia.
    + apply Z.ltb_ge in E. symmetry.
      destruct (total_capacity s - current_book_count s >? 0) eqn:E'; [|reflexivity].
      apply Z.gtb_lt in E'. lia.
  - intros b Hty Hsh. unfold validate_book_shelf_placement. rewrite Hty, Hsh.
    unfold check_capacity.
    destruct (check_shelf_capacity id (shelves d)) as [[|]|e]; cbn; split;
      try reflexivity; try discriminate.
Qed.

(** *** Creating a book *)

Lemma fresh_book_id_existsb (id : Z) (d : db) :
  fresh_book_id id d <-> existsb (fun b => book_id b =? id) (books d) = false.
Proof.
  unfold fresh_book_id. split.
  - intros H. destruct (existsb _ (books d)) eqn:E; [|reflexivity].
    apply existsb_exists in E. destruct E as [b [Hb Hid]].
    apply Z.eqb_eq in Hid. exfalso. now apply (H b).
  - intros H b Hb Hid.
    assert (existsb (fun x => book_id x =? id) (books d) = true) as Hc.
    { apply existsb_exists. exists b. split; [assumption | now apply Z.eqb_eq]. }
    congruence.
Qed.

Lemma shelves_stored_count (ss : list shelf) (id : Z) (s : shelf) :
  shelves_stored ss -> find_shelf id ss = Some s ->
  0 < total_capacity s /\ 0 <= current_book_count s <= total_capacity s.
Proof.
  intros [_ Hck] Hfind. destruct (find_shelf_some _ _ _ Hfind) as [Hin _].
  rewrite Forall_forall in Hck. specialize (Hck s Hin).
  unfold shelves_check in Hck.
  apply andb_true_iff in Hck. destruct Hck as [H1 H2].
  apply andb_true_iff in H2. destruct H2 as [H2 H3].
  apply Z.ltb_lt in H1. apply Z.leb_le in H2. apply Z.leb_le in H3. lia.
Qed.





Lemma insert_by_available_space_perm (r : shelf) (rs : list shelf) :
  Permutation (insert_by_available_space r rs) (r :: rs).
Proof.
  induction rs as [|x rest IH]; [reflexivity|].
  cbn. destruct (by_available_space r x); [reflexivity|].
  rewrite IH. apply perm_swap.
Qed.

Lemma by_available_space_total (a b : shelf) :
  by_available_space a b = false -> by_available_space b a = true.
Proof.
  unfold by_available_space. cbn zeta. intros H.
  apply orb_false_iff in H. destruct H as [H1 H2].
  destruct (Z.compare_spec (total_capacity a - current_book_count a)
                           (total_capacity b - current_book_count b)) as [E|E|E].
  - rewrite E in *. rewrite Z.eqb_refl in *. cbn in H2.
    destruct (String.leb_total (location_code a) (location_code b)) as [Ht|Ht];
      [congruence|].
    rewrite Ht. apply orb_true_r.
  - apply orb_true_iff. left. apply Z.gtb_lt. exact E.
  - exfalso. assert ((total_capacity a - current_book_count a
                      >? total_capacity b - current_book_count b) = true)
      by (apply Z.gtb_lt; lia). congruence.
Qed.

Lemma by_available_space_ge (a b : shelf) :
  by_available_space a b = true -> available_space b <= available_space a.
Proof.
  unfold by_available_space, available_space. cbn zeta. intros H.
  apply orb_true_iff in H. destruct H as [H|H].
  - apply Z.gtb_lt in H. lia.
  - apply andb_true_iff in H. destruct H as [H _]. apply Z.eqb_eq in H. lia.
Qed.

Lemma insert_by_available_space_sorted (r : shelf) (rs : list shelf) :
  Sorted (fun a b => by_available_space a b = true) rs ->
  Sorted (fun a b => by_available_space a b = true) (insert_by_available_space r rs).
Proof.
  induction rs as [|x rest IH]; intros Hs.
  - cbn. repeat constructor.
  - cbn. destruct (by_available_space r x) eqn:E.
    + constructor; [assumption|]. constructor. exact E.
    + inversion Hs as [|? ? Hrest Hhd]; subst.
      constructor; [now apply IH|].
      destruct rest as [|y rest'].
      * cbn. constructor. now apply by_available_space_total.
      * cbn. destruct (by_available_space r y).
        -- constructor. now apply by_available_space_total.
        -- inversion Hhd; subst. now constructor.
Qed.

Lemma get_available_shelves_perm (min_capacity : Z) (d : db) :
  Permutation (get_available_shelves min_capacity d)
    (filter (fun s => min_capacity <=? available_space s) (shelves d)).
Proof.
  unfold get_available_shelves.
  assert (filter (fun s => total_capacity s - current_book_count s >=? min_capacity) (shelves d)
          = filter (fun s => min_capacity <=? available_space s) (shelves d)) as ->.
  { apply filter_ext. intros s. unfold available_space.
    rewrite Z.geb_leb. reflexivity. }
  induction (filter _ (shelves d)) as [|x rest IH]; [reflexivity|].
  cbn. rewrite insert_by_available_space_perm. now constructor.
Qed.

Lemma get_available_shelves_sorted (min_capacity : Z) (d : db) :
  Sorted (fun a b => by_available_space a b = true) (get_available_shelves min_capacity d).
Proof.
  unfold get_available_shelves.
  induction (filter _ (shelves d)) as [|x rest IH]; [constructor|].
  cbn. now apply insert_by_available_space_sorted.
Qed.

Lemma get_available_shelves_in (min_capacity : Z) (d : db) (s : shelf) :
  In s (get_available_shelves min_capacity d) ->
  In s (shelves d) /\ min_capacity <= total_capacity s - current_book_count s.
Proof.
  intros Hin. apply (Permutation_in _ (get_available_shelves_perm _ _)) in Hin.
  apply filter_In in Hin. destruct Hin as [Hin Hs].
  apply Z.leb_le in Hs. unfold available_space in Hs. auto.
Qed.

(** X7.  ShelfRepository.get_available_shelves(min_capacity) returns exactly
    the shelves with at least min_capacity free places (a permutation of
    them), each next to the other in the order of the ORDER BY clause: more
    free places first, the smaller location_code first among equals.  So the
    free places never increase along the list. *)
Theorem get_available_shelves_spec (min_capacity : Z) (d : db) :
  Permutation (get_available_shelves min_capacity d)
    (filter (fun s => min_capacity <=? available_space s) (shelves d))
  /\ Sorted (fun a b => by_available_space a b = true) (get_available_shelves min_capacity d)
  /\ StronglySorted (fun a b => available_space b <= available_space a)
       (get_available_shelves min_capacity d).
Proof.
  split; [apply get_available_shelves_perm|].
  split; [apply get_available_shelves_sorted|].
  apply Sorted_StronglySorted.
  - intros a b c Hab Hbc. lia.
  - pose proof (get_available_shelves_sorted min_capacity d) as Hsorted.
    induction Hsorted as [|x l Hl IH Hhd]; [constructor|].
    constructor; [exact IH|].
    destruct Hhd; constructor. now apply by_available_space_ge.
Qed.

(** X8.  get_available_shelves and the placement of books, on a shelves
    table that satisfies its constraints.  A shelf is listed by
    get_available_shelves(1) exactly when it is stored and check_capacity is
    True for it, and a shelf listed for a min_capacity >= 1 is listed for 1.
    validate_book_shelf_placement accepts a physical book on a listed shelf;
    BookRepository.create returns None, with the database as it was, for a
    physical book on a stored shelf that is not listed. *)
Theorem available_shelves_have_capacity (d : db) :
  shelves_stored (shelves d) ->
  (forall s, In s (get_available_shelves 1 d)
             <-> In s (shelves d) /\ check_capacity (shelf_id s) d = true)
  /\ (forall min_capacity s,
        1 <= min_capacity -> In s (get_available_shelves min_capacity d) ->
        In s (get_available_shelves 1 d))
  /\ (forall s b,
        In s (get_available_shelves 1 d) ->
        book_type b = BookType.physical -> book_shelf_id b = Some (shelf_id s) ->
        validate_book_shelf_placement b (shelves d) = Ok tt)
  /\ (forall now new_id bd s,
        In s (shelves d) -> ~ In s (get_available_shelves 1 d) ->
        book_type (created_book now new_id bd) = BookType.physical ->
        book_shelf_id (created_book now new_id bd) = Some (shelf_id s) ->
        book_repository_create now new_id bd d = (None, d)).
Proof.
  intros Hst.
  assert (forall s, In s (get_available_shelves 1 d)
                    <-> In s (shelves d) /\ current_book_count s < total_capacity s) as Hlist.
  { intros s. split.
    - intros Hin. apply get_available_shelves_in in Hin. destruct Hin as [Hin Hfree].
      split; [exact Hin | lia].
    - intros [Hin Hlt].
      apply (Permutation_in _ (Permutation_sym (get_available_shelves_perm 1 d))).
      apply filter_In. split; [exact Hin|].
      apply Z.leb_le. unfold available_space. lia. }
  assert (forall s, In s (shelves d) -> find_shelf (shelf_id s) (shelves d) = Some s) as Hfind
    by (intros s Hin; apply in_find_shelf; [apply Hst | assumption]).
  split; [|split; [|split]].
  - intros s. rewrite Hlist. split.
    + intros [Hin Hlt]. split; [exact Hin|].
      apply check_capacity_iff. exists s. auto.
    + intros [Hin Hcap]. split; [exact Hin|].
      apply check_capacity_iff in Hcap. destruct Hcap as [s' [Hs' Hlt]].
      rewrite (Hfind s Hin) in Hs'. now inversion Hs'; subst.
  - intros m s Hm Hin. apply get_available_shelves_in in Hin. destruct Hin as [Hin Hfree].
    apply Hlist. split; [exact Hin | lia].
  - intros s b Hin Hty Hsh. apply Hlist in Hin. destruct Hin as [Hin Hlt].
    unfold validate_book_shelf_placement, check_shelf_capacity.
    rewrite Hty, Hsh, (Hfind s Hin). cbn.
    assert ((current_book_count s <? total_capacity s) = true) as -> by now apply Z.ltb_lt.
    reflexivity.
  - intros now new_id bd s Hin Hout Hty Hsh.
    change (book_repository_create now new_id bd d)
      with (match books_insert now (created_book now new_id bd) d with
            | Ok d' => (Some new_id, d')
            | Raise _ => (None, d)
            end).
    unfold books_insert, validate_book_shelf_placement, check_shelf_capacity.
    rewrite Hty, Hsh, (Hfind s Hin). cbn [bind].
    assert ((current_book_count s <? total_capacity s) = false) as ->.
    { apply Z.ltb_ge. destruct (Z_lt_ge_dec (current_book_count s) (total_capacity s)) as [L|G];
        [|lia].
      exfalso. apply Hout. apply Hlist. auto. }
    reflexivity.
Qed.

Lemma available_shelves_have_capacity_witness :
  map shelf_id (get_available_shelves 1 circulation_example) = [1; 2]
  /\ check_capacity 3 circulation_example = false
  /\ book_repository_create 111 5 (mkBookData None (Some (Some 3)) None) circulation_example
     = (None, circulation_example).
Proof.
  split; [reflexivity|]. split; [reflexivity|].
  destruct (available_shelves_have_capacity circulation_example
              circulation_example_shelves_stored) as [_ [_ [_ H]]].
  apply (H 111 5 (mkBookData None (Some (Some 3)) None) (mkShelf 3 "C3" 1 1 0)).
  - cbn. auto.
  - intros Hin. cbn in Hin.
    repeat (destruct Hin as [Hin|Hin]; [discriminate|]). contradiction.
  - reflexivity.
  - reflexivity.
Defined.

(** *** Deleting a shelf *)


(** An UPDATE of books that selects no row completes and changes nothing. *)
Lemma books_update_none (wh : book -> bool) (set : book -> book) (now : Z) (d : db) :
  (forall b, In b (books d) -> wh b = false) ->
  books_update wh set now d = Ok (0, d).
Proof.
  intros H. unfold books_update.
  rewrite books_write_rows_ok.
  - rewrite (filter_none _ _ H). cbn.
    rewrite (map_ext_in _ (fun b => b)), map_id by (intros b Hb; now rewrite (H b Hb)).
    now rewrite with_tables_same.
  - intros b Hb Hw. rewrite (H b Hb) in Hw. discriminate.
Qed.




(** *** Deleting a book *)

Lemma books_with_status_absent (id : Z) (st : BookStatus.t) (now : Z) (bs : list book) :
  (forall b, In b bs -> book_id b <> id) -> books_with_status id st now bs = bs.
Proof.
  intros H. unfold books_with_status.
  rewrite (map_ext_in _ (fun b => b)); [apply map_id|].
  intros b Hb. apply H in Hb. apply Z.eqb_neq in Hb. now rewrite Hb.
Qed.

Lemma with_books_same (d : db) : with_books (books d) d = d.
Proof. destruct d. reflexivity. Qed.

Lemma with_shelves_same (d : db) : with_shelves (shelves d) d = d.
Proof. destruct d. reflexivity. Qed.

Lemma filter_all_true {A} (f : A -> bool) (xs : list A) :
  (forall x, In x xs -> f x = true) -> filter f xs = xs.
Proof.
  induction xs as [|x rest IH]; intros H; [reflexivity|].
  cbn. rewrite (H x (or_introl eq_refl)). f_equal. apply IH. intros y Hy. apply H. now right.
Qed.

(** A status update for a key that no row of books holds writes nothing. *)
Lemma books_set_status_absent (id : Z) (st : BookStatus.t) (now : Z) (d : db) :
  (forall b, In b (books d) -> book_id b <> id) ->
  books_set_status id st now d = Ok (0, d).
Proof.
  intros H. unfold books_set_status. apply books_update_none.
  intros b Hb. apply Z.eqb_neq. now apply H.
Qed.

Lemma fire_book_status_absent (now id : Z) (gone : list loan) (d : db) :
  (forall b, In b (books d) -> book_id b <> id) ->
  (forall l, In l gone -> loan_book_id l = id) ->
  fire_book_status now (map TG_DELETE gone) d = Ok d.
Proof.
  intros Hb. induction gone as [|l rest IH]; intros Hl; [reflexivity|].
  cbn [map fire_book_status update_book_status_on_loan_change].
  rewrite (Hl l (or_introl eq_refl)).
  rewrite books_set_status_absent by assumption.
  destruct (is_open l); cbn [bind]; apply IH; intros x Hx; apply Hl; now right.
Qed.

Lemma filter_book_id (bs : list book) (b : book) :
  NoDup (map book_id bs) -> In b bs -> filter (fun x => book_id x =? book_id b) bs = [b].
Proof. apply (filter_key book_id). Qed.

(** The cascade of [DELETE FROM books WHERE book_id = id] over loans. *)
Lemma books_delete_cascade (id now : Z) (d : db) :
  loans_delete (fun l => loan_book_id l =? id) now
    (with_books (filter (fun b => negb (book_id b =? id)) (books d)) d)
  = Ok (Z.of_nat (List.length (filter (fun l => loan_book_id l =? id) (loans d))),
        without_book id d).
Proof.
  unfold loans_delete. cbn [loans with_books].
  rewrite (fire_book_status_absent now id).
  - reflexivity.
  - cbn. intros b Hb. apply filter_In in Hb. destruct Hb as [_ Hb].
    apply negb_true_iff in Hb. now apply Z.eqb_neq.
  - intros l Hl. apply filter_In in Hl. destruct Hl as [_ Hl]. now apply Z.eqb_eq.
Qed.

(** X10.  BookRepository.delete, on a database with unique book ids, a
    shelves table that satisfies its constraints and loans that refer to
    stored books.  It returns False for an unknown id.  A digital book is
    deleted together with all its loans, open ones included.  A physical
    book is deleted, with its loans, when its shelf records at least one
    book, and the count of the shelf goes down by one; when the shelf
    records none, or is missing, the deletion is refused and nothing
    changes.  After a successful delete the loans are those of the other
    books and the books are the other books. *)
Theorem book_repository_delete_spec (now id : Z) (d : db) :
  shelves_stored (shelves d) ->
  NoDup (map book_id (books d)) ->
  loans_reference_books d ->
  (find_book id (books d) = None -> book_repository_delete now id d = (false, d))
  /\ (forall b, find_book id (books d) = Some b ->
        (book_type b = BookType.digital \/ book_shelf_id b = None ->
         book_repository_delete now id d = (true, without_book id d))
        /\ (forall sid, book_type b = BookType.physical -> book_shelf_id b = Some sid ->
              (forall s, find_shelf sid (shelves d) = Some s -> 1 <= current_book_count s ->
                 book_repository_delete now id d
                 = (true, with_shelves
                            (shelves_adjusted now sid (current_book_count s - 1) (shelves d))
                            (without_book id d)))
              /\ (forall s, find_shelf sid (shelves d) = Some s -> current_book_count s < 1 ->
                    book_repository_delete now id d = (false, d))
              /\ (find_shelf sid (shelves d) = None ->
                    book_repository_delete now id d = (false, d))))
  /\ (forall d', book_repository_delete now id d = (true, d') ->
        (forall l, In l (loans d') <-> In l (loans d) /\ loan_book_id l <> id)
        /\ (forall x, In x (books d') <-> In x (books d) /\ book_id x <> id)).
Proof.
  intros Hst Hnd Hfk.
  assert (forall b, find_book id (books d) = Some b ->
            book_repository_delete now id d
            = match fire_shelf_count now [TG_DELETE b] (shelves d) with
              | Ok ss' => (true, with_shelves ss' (without_book id d))
              | Raise _ => (false, d)
              end) as Hsome.
  { intros b Hfind. unfold find_book in Hfind. apply find_some in Hfind.
    destruct Hfind as [Hin Hid]. apply Z.eqb_eq in Hid. subst id.
    unfold book_repository_delete, books_delete.
    rewrite books_delete_cascade. cbn [bind].
    rewrite (filter_book_id _ _ Hnd Hin). cbn [map List.length].
    change (shelves (without_book (book_id b) d)) with (shelves d).
    destruct (fire_shelf_count now [TG_DELETE b] (shelves d)); reflexivity. }
  split; [|split].
  - intros Hnone. unfold book_repository_delete, books_delete.
    rewrite books_delete_cascade. cbn [bind].
    assert (filter (fun b => book_id b =? id) (books d) = []) as Hb.
    { apply filter_none. intros b Hb. apply (find_none _ _ Hnone b Hb). }
    rewrite Hb. cbn [map fire_shelf_count bind List.length Z.of_nat Z.ltb Z.compare].
    change (shelves (without_book id d)) with (shelves d).
    assert (without_book id d = d) as ->; [|now rewrite with_shelves_same].
    unfold without_book.
    rewrite (filter_all_true (fun l => negb (loan_book_id l =? id)) (loans d)).
    + rewrite with_loans_same.
      rewrite (filter_all_true (fun b => negb (book_id b =? id)) (books d)).
      * apply with_books_same.
      * intros b Hin. apply negb_true_iff. apply (find_none _ _ Hnone b Hin).
    + intros l Hl. apply negb_true_iff, Z.eqb_neq. intros Heq.
      destruct (Hfk l Hl) as [b [Hin Hid]].
      pose proof (find_none _ _ Hnone b Hin) as Hn. cbn in Hn.
      apply Z.eqb_neq in Hn. congruence.
  - intros b Hfind. rewrite (Hsome b Hfind). cbn [fire_shelf_count update_shelf_count_on_book_change].
    split.
    + intros [Hty|Hsh].
      * rewrite Hty. destruct (book_shelf_id b); cbn [bind];
          change (shelves d) with (shelves (without_book id d));
          now rewrite with_shelves_same.
      * rewrite Hsh. cbn [bind].
        change (shelves d) with (shelves (without_book id d)).
        now rewrite with_shelves_same.
    + intros sid Hty Hsh. rewrite Hty, Hsh. split; [|split].
      * intros s Hs Hc.
        pose proof (shelves_stored_count _ _ _ Hst Hs) as Hr.
        rewrite (update_shelf_book_count_adjusted now sid (-1) _ s Hst Hs) by lia.
        cbn [bind]. reflexivity.
      * intros s Hs Hc. unfold update_shelf_book_count. rewrite Hs. cbn zeta.
        assert ((current_book_count s + -1 <? 0) = true) as -> by (apply Z.ltb_lt; lia).
        reflexivity.
      * intros Hs. unfold update_shelf_book_count. rewrite Hs. reflexivity.
  - intros d' H.
    destruct (find_book id (books d)) as [b|] eqn:Hfind.
    + rewrite (Hsome b eq_refl) in H.
      destruct (fire_shelf_count now [TG_DELETE b] (shelves d)) as [ss'|]; [|discriminate].
      inversion H; subst d'. cbn. split.
      * intros l. rewrite filter_In, negb_true_iff, Z.eqb_neq. reflexivity.
      * intros x. rewrite filter_In, negb_true_iff, Z.eqb_neq. reflexivity.
    + exfalso. revert H. unfold book_repository_delete, books_delete.
      rewrite books_delete_cascade. cbn [bind].
      rewrite filter_none by (intros b Hb; apply (find_none _ _ Hfind b Hb)).
      cbn. discriminate.
Qed.

Lemma loans_reference_books_dec (d : db) :
  forallb (fun l => existsb (fun b => book_id b =? loan_book_id l) (books d)) (loans d) = true ->
  loans_reference_books d.
Proof.
  intros H l Hl. rewrite forallb_forall in H. specialize (H l Hl).
  apply existsb_exists in H. destruct H as [b [Hb Hid]].
  exists b. split; [assumption | now apply Z.eqb_eq].
Qed.

Lemma circulation_example_references : loans_reference_books circulation_example.
Proof. apply loans_reference_books_dec. reflexivity. Qed.

Lemma book_repository_delete_spec_witness :
  book_repository_delete 111 1 circulation_example
  = (true, mkDb [mkShelf 1 "A1" 10 0 111; mkShelf 2 "B2" 2 1 0; mkShelf 3 "C3" 1 1 0]
               [mkBook 2 BookType.digital None BookStatus.available 0;
                mkBook 3 BookType.physical (Some 2) BookStatus.available 0;
                mkBook 4 BookType.physical (Some 3) BookStatus.loaned 0]
               [mkStudent 1 StudentStatus.active; mkStudent 2 StudentStatus.inactive]
               [mkLoan 2 2 1 80 87 (Some 85) LoanStatus.returned 0 0;
                mkLoan 3 4 1 100 105 None LoanStatus.active 0 0])
  /\ book_repository_delete 111 2 circulation_example
     = (true, without_book 2 circulation_example)
  /\ book_repository_delete 111 9 circulation_example = (false, circulation_example).
Proof.
  destruct (book_repository_delete_spec 111 1 circulation_example
              circulation_example_shelves_stored circulation_example_book_ids
              circulation_example_references) as [_ [H1 _]].
  destruct (book_repository_delete_spec 111 2 circulation_example
              circulation_example_shelves_stored circulation_example_book_ids
              circulation_example_references) as [_ [H2 _]].
  destruct (book_repository_delete_spec 111 9 circulation_example
              circulation_example_shelves_stored circulation_example_book_ids
              circulation_example_references) as [H9 _].
  split; [|split].
  - destruct (H1 _ eq_refl) as [_ H]. destruct (H 1 eq_refl eq_refl) as [Hok _].
    rewrite (Hok (mkShelf 1 "A1" 10 1 0) eq_refl); [reflexivity | cbn; lia].
  - destruct (H2 _ eq_refl) as [H _]. apply H. now left.
  - apply H9. reflexivity.
Defined.

(** *** Deleting a student *)

Lemma book_row_writable_with_status (id k : Z) (st : BookStatus.t) (now : Z) (d : db) :
  book_row_writable d id ->
  book_row_writable (with_books (books_with_status k st now (books d)) d) id.
Proof.
  intros Hw b Hb Hid. cbn in Hb. unfold books_with_status in Hb.
  apply in_map_iff in Hb. destruct Hb as [x [Hx Hin]].
  destruct (book_id x =? k); subst b; exact (Hw x Hin Hid).
Qed.

Lemma books_released_cons (now : Z) (l : loan) (rest : list loan) (bs : list book) :
  books_released now (l :: rest) bs
  = books_released now rest
      (if is_open l then books_with_status (loan_book_id l) BookStatus.available now bs
       else bs).
Proof.
  unfold books_released, books_with_status. cbn [existsb].
  destruct (is_open l); cbn [andb orb]; [|reflexivity].
  rewrite map_map. apply map_ext. intros b.
  rewrite (Z.eqb_sym (loan_book_id l) (book_id b)).
  destruct (book_id b =? loan_book_id l) eqn:E; cbn [orb].
  - cbn [book_id update_books_updated_at set_status].
    destruct (existsb _ rest); reflexivity.
  - reflexivity.
Qed.

(** The AFTER DELETE triggers of loans, when the books of the open loans
    are writable. *)
Lemma fire_book_status_released (now : Z) (gone : list loan) (d : db) :
  (forall l, In l gone -> is_open l = true -> book_row_writable d (loan_book_id l)) ->
  fire_book_status now (map TG_DELETE gone) d
  = Ok (with_books (books_released now gone (books d)) d).
Proof.
  revert d. induction gone as [|l rest IH]; intros d Hw.
  - cbn. unfold books_released. cbn. rewrite map_id. now rewrite with_books_same.
  - cbn [map fire_book_status update_book_status_on_loan_change].
    rewrite books_released_cons.
    destruct (is_open l) eqn:Eo.
    + rewrite books_set_status_ok by (apply Hw; [now left | assumption]).
      cbn [bind]. rewrite IH.
      * destruct d; reflexivity.
      * intros x Hx Ho. apply book_row_writable_with_status. apply Hw; [now right | assumption].
    + cbn [bind]. apply IH. intros x Hx Ho. apply Hw; [now right | assumption].
Qed.

Lemma books_released_status (now : Z) (gone : list loan) (bs : list book) (l : loan) (b : book) :
  In l gone -> is_open l = true -> In b (books_released now gone bs) ->
  book_id b = loan_book_id l -> status b = BookStatus.available.
Proof.
  intros Hl Ho Hb Hid. unfold books_released in Hb.
  apply in_map_iff in Hb. destruct Hb as [x [Hx _]].
  assert (existsb (fun l => is_open l && (loan_book_id l =? book_id x)) gone = true) as He.
  { apply existsb_exists. exists l. split; [assumption|].
    rewrite Ho. cbn. apply Z.eqb_eq.
    destruct (existsb _ gone); subst b; cbn in Hid; congruence. }
  rewrite He in Hx. subst b. reflexivity.
Qed.

Lemma books_released_other (now : Z) (gone : list loan) (bs : list book) (b : book) :
  In b bs -> (forall l, In l gone -> is_open l = true -> loan_book_id l <> book_id b) ->
  In b (books_released now gone bs).
Proof.
  intros Hb Hl. unfold books_released. apply in_map_iff. exists b. split; [|assumption].
  destruct (existsb _ gone) eqn:E; [|reflexivity].
  apply existsb_exists in E. destruct E as [l [Hin H]].
  apply andb_true_iff in H. destruct H as [Ho Hid]. apply Z.eqb_eq in Hid.
  exfalso. now apply (Hl l Hin Ho).
Qed.

(** X11.  StudentRepository.delete, when the books of the student's open
    loans are writable.  It returns whether the student existed, removes the
    student and, by the cascade, all loans of the student; the trigger of
    loans sets the book of each deleted open loan to available.  The loans
    of other students stay, and a book that none of the student's open loans
    refers to is as it was. *)
Theorem student_repository_delete_spec (now id : Z) (d : db) :
  (forall l, In l (loans d) -> loan_student_id l = id -> is_open l = true ->
             book_row_writable d (loan_book_id l)) ->
  student_repository_delete now id d
  = (existsb (fun s => student_id s =? id) (students d),
     mkDb (shelves d)
          (books_released now (filter (fun l => loan_student_id l =? id) (loans d)) (books d))
          (filter (fun s => negb (student_id s =? id)) (students d))
          (filter (fun l => negb (loan_student_id l =? id)) (loans d)))
  /\ (forall l, In l (loans (snd (student_repository_delete now id d)))
                <-> In l (loans d) /\ loan_student_id l <> id)
  /\ (forall l b, In l (loans d) -> loan_student_id l = id -> is_open l = true ->
                  In b (books (snd (student_repository_delete now id d))) ->
                  book_id b = loan_book_id l -> status b = BookStatus.available)
  /\ (forall b, In b (books d) ->
                (forall l, In l (loans d) -> loan_student_id l = id -> is_open l = true ->
                           loan_book_id l <> book_id b) ->
                In b (books (snd (student_repository_delete now id d)))).
Proof.
  intros Hw.
  assert (student_repository_delete now id d
          = (existsb (fun s => student_id s =? id) (students d),
             mkDb (shelves d)
               (books_released now (filter (fun l => loan_student_id l =? id) (loans d))
                  (books d))
               (filter (fun s => negb (student_id s =? id)) (students d))
               (filter (fun l => negb (loan_student_id l =? id)) (loans d)))) as Heq.
  { unfold student_repository_delete, loans_delete.
    cbn [loans with_students with_loans].
    rewrite fire_book_status_released.
    - cbn [bind]. f_equal.
      induction (students d) as [|s rest IH]; [reflexivity|].
      cbn [filter existsb]. destruct (student_id s =? id); [reflexivity | exact IH].
    - intros l Hl Ho. apply filter_In in Hl. destruct Hl as [Hl Hid].
      apply Z.eqb_eq in Hid.
      intros b Hb Hbid. apply (Hw l Hl Hid Ho b Hb Hbid). }
  rewrite Heq. cbn [snd loans books].
  split; [reflexivity|]. split; [|split].
  - intros l. rewrite filter_In, negb_true_iff, Z.eqb_neq. reflexivity.
  - intros l b Hl Hid Ho Hb Hbid.
    apply (books_released_status now
             (filter (fun x => loan_student_id x =? id) (loans d)) (books d) l b);
      try assumption.
    apply filter_In. split; [assumption | now apply Z.eqb_eq].
  - intros b Hb Hl. apply books_released_other; [assumption|].
    intros l Hin Ho. apply filter_In in Hin. destruct Hin as [Hin Hid].
    apply Z.eqb_eq in Hid. now apply Hl.
Qed.

Lemma student_repository_delete_spec_witness :
  student_repository_delete 111 1 two_students_example
  = (true,
     mkDb [] [mkBook 1 BookType.digital None BookStatus.available 111;
              mkBook 2 BookType.digital None BookStatus.loaned 0]
          [mkStudent 2 StudentStatus.active]
          [mkLoan 2 2 2 100 107 None LoanStatus.active 0 0]).
Proof.
  destruct (student_repository_delete_spec 111 1 two_students_example) as [H _].
  - intros l Hl Hs Ho b Hb Hid. cbn in Hb.
    repeat (destruct Hb as [Hb|Hb]; [subst b; split; reflexivity|]). contradiction.
  - rewrite H. reflexivity.
Defined.

(** *** A full shelf stops the circulation of its books *)

Lemma validate_placement_blocked (b : book) (sid : Z) (ss : list shelf) :
  book_type b = BookType.physical -> book_shelf_id b = Some sid -> shelf_blocked sid ss ->
  exists e, validate_book_shelf_placement b ss = Raise e.
Proof.
  intros Hty Hsh Hbl. unfold validate_book_shelf_placement, check_shelf_capacity.
  rewrite Hty, Hsh.
  destruct (find_shelf sid ss) as [s|] eqn:E; [|eexists; reflexivity].
  cbn. assert ((current_book_count s <? total_capacity s) = false) as ->
    by (apply Z.ltb_ge; now apply Hbl).
  eexists. reflexivity.
Qed.

(** No UPDATE of the status of a physical book on a blocked shelf completes. *)
Lemma books_set_status_blocked (st : BookStatus.t) (now : Z) (d : db) (b : book) (sid : Z) :
  In b (books d) -> book_type b = BookType.physical -> book_shelf_id b = Some sid ->
  shelf_blocked sid (shelves d) ->
  exists e, books_set_status (book_id b) st now d = Raise e.
Proof.
  intros Hin Hty Hsh Hbl. unfold books_set_status, books_update.
  destruct (books_write_rows_raise (fun x => book_id x =? book_id b) (set_status st) now
              (shelves d) (books d)) as [e ->]; [|eexists; reflexivity].
  exists b. split; [assumption|]. split; [apply Z.eqb_refl|].
  rewrite validate_placement_set_status. now apply (validate_placement_blocked b sid).
Qed.

(** X4.  A physical book whose shelf is missing or has no free place cannot
    circulate: every UPDATE of its row fires validate_book_shelf_placement,
    which raises.  update_book_status returns False for every status, both
    create_loan methods return None for the book whoever the student is, and
    return_book returns False for every loan of the book; each of them
    leaves the database as it was. *)
Theorem full_shelf_blocks_circulation (today now : Z) (d : db) (b : book) (sid : Z) :
  In b (books d) -> book_type b = BookType.physical -> book_shelf_id b = Some sid ->
  shelf_blocked sid (shelves d) ->
  (forall st, update_book_status now (book_id b) st d = (false, d))
  /\ (forall new_id student_id_arg loan_date est,
        create_loan today now new_id (book_id b) student_id_arg loan_date est d = (None, d)
        /\ loan_repository_create_loan today now new_id (book_id b) student_id_arg
             loan_date est d = (None, d))
  /\ (forall l return_date,
        NoDup (map loan_id (loans d)) -> In l (loans d) -> loan_book_id l = book_id b ->
        return_book today now (loan_id l) return_date d = (false, d)).
Proof.
  intros Hin Hty Hsh Hbl.
  split; [|split].
  - intros st. unfold update_book_status.
    destruct (books_set_status_blocked st now d b sid Hin Hty Hsh Hbl) as [e ->].
    reflexivity.
  - intros new_id s ld est. split.
    + apply create_loan_refused.
    + apply loan_repository_create_loan_refused.
  - intros l rd Hnd Hl Hbook.
    destruct (is_open l) eqn:Eo.
    2:{ unfold return_book. rewrite loans_update_none; [reflexivity|].
        intros x Hx.
        destruct ((loan_id x =? loan_id l) && is_open x) eqn:E; [|reflexivity].
        apply andb_true_iff in E. destruct E as [E1 E2]. apply Z.eqb_eq in E1.
        assert (x = l) by now apply (same_loan_id (loans d)).
        subst x. congruence. }
    unfold return_book, loans_update.
    destruct (loans_write_rows _ _ today now [] (loans d)) as [[t evs]|] eqn:E;
      [|reflexivity].
    apply loans_write_rows_inv in E. destruct E as [-> ->].
    rewrite (filter_open_loan_id _ _ Hnd Hl), Eo. cbn [bind app].
    cbn [map fire_book_status].
    rewrite (returned_trigger _ _ _ _ Eo), Hbook.
    destruct (books_set_status_blocked BookStatus.available now
                (with_loans
                   (loans_rewritten (fun x => (loan_id x =? loan_id l) && is_open x)
                      (set_returned (default_date today rd)) now (loans d)) d)
                b sid Hin Hty Hsh Hbl) as [e ->].
    reflexivity.
Qed.

Lemma full_shelf_blocks_circulation_witness :
  update_book_status 111 4 BookStatus.maintenance circulation_example
  = (false, circulation_example)
  /\ return_book 110 111 3 None circulation_example = (false, circulation_example)
  /\ create_loan 110 111 4 4 1 None None circulation_example = (None, circulation_example).
Proof.
  assert (shelf_blocked 3 (shelves circulation_example)) as Hbl.
  { intros s Hs. cbn in Hs. inversion Hs; subst. cbn. lia. }
  destruct (full_shelf_blocks_circulation 110 111 circulation_example
              (mkBook 4 BookType.physical (Some 3) BookStatus.loaned 0) 3)
    as [H1 [H2 H3]]; try reflexivity; try exact Hbl.
  - cbn. auto.
  - split; [apply H1|]. split.
    + apply (H3 (mkLoan 3 4 1 100 105 None LoanStatus.active 0 0) None).
      * exact circulation_example_loan_ids.
      * cbn. auto.
      * reflexivity.
    + apply H2.
Defined.

(** *** Renewing a loan *)

Lemma loan_status_eqb_eq (a b : LoanStatus.t) : LoanStatus.eqb a b = true <-> a = b.
Proof. destruct a, b; cbn; split; intros H; try reflexivity; discriminate. Qed.

(** The loan trigger writes nothing on an UPDATE that keeps loan_status. *)
Lemma status_kept_trigger (now : Z) (old new : loan) (d : db) :
  loan_status new = loan_status old ->
  update_book_status_on_loan_change now (TG_UPDATE old new) d = Ok d.
Proof.
  intros H. cbn. unfold is_open. rewrite H. destruct (loan_status old); reflexivity.
Qed.

Lemma fire_status_kept (now : Z) (set : loan -> loan) (ls : list loan) (d : db) :
  (forall l, loan_status (set l) = loan_status l) ->
  fire_book_status now
    (map (fun l => TG_UPDATE l (update_loans_updated_at now (set l))) ls) d = Ok d.
Proof.
  intros H. induction ls as [|l rest IH]; [reflexivity|].
  cbn [map fire_book_status].
  rewrite status_kept_trigger by (cbn; apply H). exact IH.
Qed.

Lemma open_loans_of_book_rewritten (b : Z) (wh : loan -> bool) (set : loan -> loan)
    (now : Z) (ls : list loan) :
  (forall l, is_open (set l) = is_open l /\ loan_book_id (set l) = loan_book_id l) ->
  open_loans_of_book b (loans_rewritten wh set now ls) = open_loans_of_book b ls.
Proof.
  intros H. induction ls as [|l rest IH]; [reflexivity|].
  unfold loans_rewritten in *. cbn [map]. rewrite !open_loans_of_book_cons, IH.
  destruct (wh l); [|reflexivity].
  destruct (H l) as [Ho Hb].
  change (is_open (update_loans_updated_at now (set l))) with (is_open (set l)).
  change (loan_book_id (update_loans_updated_at now (set l))) with (loan_book_id (set l)).
  now rewrite Ho, Hb.
Qed.

(** In a table with at most one open loan for every book, an open loan meets
    no other open loan of its book. *)
Lemma unique_active_book_others (pre post : list loan) (l : loan) :
  unique_active_book (pre ++ l :: post) -> is_open l = true ->
  open_loans_of_book (loan_book_id l) (pre ++ post) = 0%nat.
Proof.
  intros Hu Ho. specialize (Hu (loan_book_id l)).
  rewrite open_loans_of_book_app, open_loans_of_book_cons in Hu.
  rewrite Ho, Z.eqb_refl in Hu. cbn in Hu.
  rewrite open_loans_of_book_app. lia.
Qed.

Lemma loans_check_parts (today : Z) (l : loan) :
  loans_check today l = true ->
  loan_date l <= today
  /\ loan_date l < estimated_return_date l
  /\ match actual_return_date l with Some a => loan_date l <= a | None => True end
  /\ 0 <= renewal_count l
  /\ (loan_status l = LoanStatus.returned -> actual_return_date l <> None)
  /\ (loan_status l = LoanStatus.active -> actual_return_date l = None)
  /\ estimated_return_date l <= loan_date l + 365.
Proof.
  unfold loans_check. intros H.
  repeat (apply andb_true_iff in H; destruct H as [H ?]).
  repeat split.
  - now apply Z.leb_le.
  - now apply Z.ltb_lt.
  - destruct (actual_return_date l); [now apply Z.leb_le | exact I].
  - now apply Z.leb_le.
  - intros Hs. rewrite Hs in *. destruct (actual_return_date l); [discriminate|].
    cbn in *. discriminate.
  - intros Hs. rewrite Hs in *. destruct (actual_return_date l); [|reflexivity].
    cbn in *. discriminate.
  - now apply Z.leb_le.
Qed.

(** X12.  renew_loan, for a stored loan on a loans table with unique ids, at
    most one open loan for each book and a row that satisfies the CHECKs.
    It returns False, and nothing changes, when the loan is not active (an
    overdue loan cannot be renewed) and when the new date is not after
    loan_date or more than 365 days after it.  Otherwise it returns True:
    the row gets the new estimated_return_date, renewal_count + 1 and the
    time of the statement; it stays active, the other loans and the other
    tables are as before.  There is no limit on the number of renewals. *)
Theorem renew_loan_spec (today now id nd : Z) (d : db) (l : loan) :
  NoDup (map loan_id (loans d)) -> In l (loans d) -> loan_id l = id ->
  loans_check today l = true ->
  unique_active_book (loans d) ->
  (loan_status l <> LoanStatus.active -> renew_loan today now id nd d = (false, d))
  /\ (loan_status l = LoanStatus.active ->
      nd <= loan_date l \/ loan_date l + 365 < nd ->
      renew_loan today now id nd d = (false, d))
  /\ (loan_status l = LoanStatus.active ->
      loan_date l < nd <= loan_date l + 365 ->
      renew_loan today now id nd d
      = (true, with_loans (map (fun x => if loan_id x =? id then renewed nd now x else x)
                             (loans d)) d)
      /\ renewed nd now l
         = mkLoan id (loan_book_id l) (loan_student_id l) (loan_date l) nd None
                  LoanStatus.active (renewal_count l + 1) now).
Proof.
  intros Hnd Hin Hid Hck Hu. subst id.
  set (wh := fun x => (loan_id x =? loan_id l)
                      && LoanStatus.eqb (loan_status x) LoanStatus.active).
  assert (forall x, In x (loans d) -> wh x = true -> x = l) as Hsel.
  { intros x Hx Hw. apply andb_true_iff in Hw. destruct Hw as [Hw _].
    apply Z.eqb_eq in Hw. now apply (same_loan_id (loans d)). }
  destruct (loans_check_parts _ _ Hck) as [C1 [C2 [C3 [C4 [C5 [C6 C7]]]]]].
  split; [|split].
  - intros Hs. unfold renew_loan. fold wh. rewrite loans_update_none; [reflexivity|].
    intros x Hx. destruct (wh x) eqn:E; [|reflexivity].
    pose proof (Hsel x Hx E). subst x. unfold wh in E.
    apply andb_true_iff in E. destruct E as [_ E]. apply loan_status_eqb_eq in E.
    contradiction.
  - intros Hs Hout. unfold renew_loan, loans_update. fold wh.
    destruct (loans_write_rows_raise wh (set_renewed nd) today now [] (loans d))
      as [e ->]; [|reflexivity].
    exists l. split; [assumption|]. split.
    + unfold wh. rewrite Z.eqb_refl, Hs. reflexivity.
    + unfold loans_check. cbn.
      destruct Hout as [Ho|Ho].
      * assert ((loan_date l <? nd) = false) as -> by (apply Z.ltb_ge; lia).
        now rewrite andb_false_r.
      * assert ((nd <=? loan_date l + 365) = false) as -> by (apply Z.leb_gt; lia).
        now rewrite andb_false_r.
  - intros Hs Hrange. split.
    + unfold renew_loan, loans_update. fold wh.
      rewrite loans_write_rows_ok.
      * cbn [bind app].
        rewrite fire_status_kept by reflexivity. cbn [bind].
        assert (filter wh (loans d) = [l]) as ->.
        { unfold wh. rewrite filter_andb, (filter_loan_id _ _ Hnd Hin). cbn.
          now rewrite Hs. }
        cbn [map List.length Z.of_nat Z.ltb Z.compare Pos.of_succ_nat]. f_equal. f_equal.
        unfold loans_rewritten. apply map_ext_in. intros x Hx. unfold wh.
        destruct (loan_id x =? loan_id l) eqn:E; [|reflexivity].
        apply Z.eqb_eq in E.
        assert (x = l) by now apply (same_loan_id (loans d)).
        subst x. rewrite Hs. reflexivity.
      * intros pre x post Heq Hx.
        assert (In x (loans d)) as Hxin by (rewrite Heq; apply in_elt).
        pose proof (Hsel x Hxin Hx). subst x. split.
        -- unfold loans_check. cbn. rewrite Hs, (C6 Hs). cbn.
           repeat (apply andb_true_iff; split); try reflexivity.
           ++ apply Z.leb_le. lia.
           ++ apply Z.ltb_lt. lia.
           ++ apply Z.leb_le. lia.
           ++ apply Z.leb_le. lia.
        -- apply no_conflict_iff. right. cbn [app].
           change (loan_book_id (update_loans_updated_at now (set_renewed nd l)))
             with (loan_book_id l).
           rewrite open_loans_of_book_app, open_loans_of_book_rewritten
             by (intros y; split; reflexivity).
           rewrite <- open_loans_of_book_app.
           apply unique_active_book_others; [now rewrite <- Heq|].
           apply is_open_iff. now left.
    + unfold renewed. rewrite Hs, (C6 Hs). reflexivity.
Qed.

Lemma renew_loan_spec_witness :
  renew_loan 110 111 1 120 circulation_example
  = (true, with_loans [mkLoan 1 1 1 100 120 None LoanStatus.active 1 111;
                       mkLoan 2 2 1 80 87 (Some 85) LoanStatus.returned 0 0;
                       mkLoan 3 4 1 100 105 None LoanStatus.active 0 0]
                      circulation_example)
  /\ renew_loan 110 111 1 100 circulation_example = (false, circulation_example)
  /\ renew_loan 110 111 1 466 circulation_example = (false, circulation_example)
  /\ renew_loan 110 111 2 120 circulation_example = (false, circulation_example).
Proof.
  pose proof circulation_example_loans_check as Hck. rewrite Forall_forall in Hck.
  split; [|split; [|split]].
  - destruct (renew_loan_spec 110 111 1 120 circulation_example
                (mkLoan 1 1 1 100 114 None LoanStatus.active 0 0)
                circulation_example_loan_ids (or_introl eq_refl) eq_refl
                (Hck _ (or_introl eq_refl)) circulation_example_unique) as [_ [_ H]].
    destruct H as [H _]; [reflexivity | cbn; lia | exact H].
  - destruct (renew_loan_spec 110 111 1 100 circulation_example
                (mkLoan 1 1 1 100 114 None LoanStatus.active 0 0)
                circulation_example_loan_ids (or_introl eq_refl) eq_refl
                (Hck _ (or_introl eq_refl)) circulation_example_unique) as [_ [H _]].
    apply H; [reflexivity | cbn; lia].
  - destruct (renew_loan_spec 110 111 1 466 circulation_example
                (mkLoan 1 1 1 100 114 None LoanStatus.active 0 0)
                circulation_example_loan_ids (or_introl eq_refl) eq_refl
                (Hck _ (or_introl eq_refl)) circulation_example_unique) as [_ [H _]].
    apply H; [reflexivity | cbn; lia].
  - destruct (renew_loan_spec 110 111 2 120 circulation_example
                (mkLoan 2 2 1 80 87 (Some 85) LoanStatus.returned 0 0)
                circulation_example_loan_ids (or_intror (or_introl eq_refl)) eq_refl
                (Hck _ (or_intror (or_introl eq_refl))) circulation_example_unique) as [H _].
    apply H. discriminate.
Defined.

(** *** LoanRepository.update_status *)

(** X13.  LoanRepository.update_status cannot return a loan and cannot
    reactivate a returned one.  Setting 'returned' on a loan without an
    actual_return_date is rejected by chk_returned_loan_has_return_date, and
    setting 'active' on a loan with one by chk_active_loan_no_return_date:
    the method returns False and nothing changes.  On a stored row that
    satisfies the CHECKs this covers every active loan and every returned
    loan. *)
Theorem update_status_refused (today now id : Z) (d : db) (l : loan) :
  In l (loans d) -> loan_id l = id ->
  (actual_return_date l = None ->
   loan_repository_update_status today now id LoanStatus.returned d = (false, d))
  /\ (actual_return_date l <> None ->
      loan_repository_update_status today now id LoanStatus.active d = (false, d))
  /\ (loans_check today l = true -> loan_status l = LoanStatus.active ->
      loan_repository_update_status today now id LoanStatus.returned d = (false, d))
  /\ (loans_check today l = true -> loan_status l = LoanStatus.returned ->
      loan_repository_update_status today now id LoanStatus.active d = (false, d)).
Proof.
  intros Hin Hid. subst id.
  assert (forall st,
            loans_check today (update_loans_updated_at now (set_loan_status st l)) = false ->
            loan_repository_update_status today now (loan_id l) st d = (false, d)) as Hraise.
  { intros st Hck. unfold loan_repository_update_status, loans_update.
    destruct (loans_write_rows_raise (fun x => loan_id x =? loan_id l) (set_loan_status st)
                today now [] (loans d)) as [e ->]; [|reflexivity].
    exists l. split; [assumption|]. split; [apply Z.eqb_refl | assumption]. }
  assert (actual_return_date l = None ->
          loan_repository_update_status today now (loan_id l) LoanStatus.returned d
          = (false, d)) as H1.
  { intros Hn. apply Hraise. unfold loans_check. cbn. rewrite Hn. cbn.
    now rewrite !andb_false_r. }
  assert (actual_return_date l <> None ->
          loan_repository_update_status today now (loan_id l) LoanStatus.active d
          = (false, d)) as H2.
  { intros Hn. apply Hraise. unfold loans_check. cbn.
    destruct (actual_return_date l); [|contradiction]. cbn.
    now rewrite !andb_false_r. }
  split; [exact H1|]. split; [exact H2|]. split.
  - intros Hck Hs. apply H1. destruct (loans_check_parts _ _ Hck) as [_ [_ [_ [_ [_ [C6 _]]]]]].
    now apply C6.
  - intros Hck Hs. apply H2. destruct (loans_check_parts _ _ Hck) as [_ [_ [_ [_ [C5 _]]]]].
    now apply C5.
Qed.

Lemma update_status_refused_witness :
  loan_repository_update_status 110 111 1 LoanStatus.returned circulation_example
  = (false, circulation_example)
  /\ loan_repository_update_status 110 111 2 LoanStatus.active circulation_example
     = (false, circulation_example).
Proof.
  split.
  - destruct (update_status_refused 110 111 1 circulation_example
                (mkLoan 1 1 1 100 114 None LoanStatus.active 0 0)
                (or_introl eq_refl) eq_refl) as [H _].
    apply H. reflexivity.
  - destruct (update_status_refused 110 111 2 circulation_example
                (mkLoan 2 2 1 80 87 (Some 85) LoanStatus.returned 0 0)
                (or_intror (or_introl eq_refl)) eq_refl) as [_ [H _]].
    apply H. discriminate.
Defined.

Lemma filter_loan_id_eq (ls : list loan) (l : loan) :
  NoDup (map loan_id ls) -> In l ls ->
  forall x, In x ls -> (loan_id x =? loan_id l) = true -> x = l.
Proof.
  intros Hnd Hl x Hx E. apply Z.eqb_eq in E. now apply (same_loan_id ls).
Qed.

(** The UPDATE of LoanRepository.update_status on a stored loan whose new row
    passes the CHECKs and the unique index: the trigger's statement on books
    decides. *)
Lemma update_status_pass (today now : Z) (st : LoanStatus.t) (d : db) (l : loan) :
  NoDup (map loan_id (loans d)) -> In l (loans d) ->
  loans_check today (update_loans_updated_at now (set_loan_status st l)) = true ->
  (is_open (set_loan_status st l) = true ->
   forall pre post, loans d = pre ++ l :: post ->
                    open_loans_of_book (loan_book_id l) (pre ++ post) = 0%nat) ->
  loans_update (fun x => loan_id x =? loan_id l) (set_loan_status st) today now d
  = (d' <- update_book_status_on_loan_change now
             (TG_UPDATE l (update_loans_updated_at now (set_loan_status st l)))
             (with_loans (loans_rewritten (fun x => loan_id x =? loan_id l)
                            (set_loan_status st) now (loans d)) d) ;;
     Ok (1, d')).
Proof.
  intros Hnd Hin Hck Hidx. unfold loans_update.
  rewrite loans_write_rows_ok.
  - rewrite (filter_loan_id _ _ Hnd Hin). cbn [bind app map fire_book_status].
    destruct (update_book_status_on_loan_change now _ _); reflexivity.
  - intros pre x post Heq Hx.
    assert (In x (loans d)) as Hxin by (rewrite Heq; apply in_elt).
    pose proof (filter_loan_id_eq _ _ Hnd Hin x Hxin Hx). subst x.
    split; [assumption|].
    apply no_conflict_iff.
    destruct (is_open (update_loans_updated_at now (set_loan_status st l))) eqn:Eo;
      [right | now left].
    cbn [app].
    change (loan_book_id (update_loans_updated_at now (set_loan_status st l)))
      with (loan_book_id l).
    rewrite open_loans_of_book_app.
    assert (loans_rewritten (fun x => loan_id x =? loan_id l) (set_loan_status st) now pre
            = pre) as ->.
    { apply loans_rewritten_none. intros y Hy.
      destruct (loan_id y =? loan_id l) eqn:E; [|reflexivity].
      exfalso. apply Z.eqb_eq in E.
      rewrite Heq, map_app in Hnd. cbn in Hnd.
      apply NoDup_remove_2 in Hnd. apply Hnd. apply in_or_app. left.
      rewrite <- E. now apply in_map. }
    rewrite <- open_loans_of_book_app. now apply Hidx.
Qed.

(** X14.  LoanRepository.update_status(id, 'lost') on an open loan whose
    book is writable returns True: the loan gets status lost, every row of
    its book gets status lost, nothing else changes.  Afterwards
    LoansTableManager.create_loan returns None for that book, on any day
    and for any student. *)
Theorem update_status_lost (today now id : Z) (d : db) (l : loan) :
  NoDup (map loan_id (loans d)) -> In l (loans d) -> loan_id l = id ->
  loans_check today l = true ->
  loan_status l = LoanStatus.active \/ loan_status l = LoanStatus.overdue ->
  book_row_writable d (loan_book_id l) ->
  loan_repository_update_status today now id LoanStatus.lost d
  = (true, after_status id LoanStatus.lost (loan_book_id l) BookStatus.lost now d)
  /\ (forall b, In b (books (after_status id LoanStatus.lost (loan_book_id l)
                                BookStatus.lost now d)) ->
                book_id b = loan_book_id l -> status b = BookStatus.lost)
  /\ (forall today' now' new_id student_id_arg loan_date est,
        create_loan today' now' new_id (loan_book_id l) student_id_arg loan_date est
          (after_status id LoanStatus.lost (loan_book_id l) BookStatus.lost now d)
        = (None, after_status id LoanStatus.lost (loan_book_id l) BookStatus.lost now d)).
Proof.
  intros Hnd Hin Hid Hck Ho Hw. subst id.
  assert (forall b, In b (books (after_status (loan_id l) LoanStatus.lost (loan_book_id l)
                                   BookStatus.lost now d)) ->
                    book_id b = loan_book_id l -> status b = BookStatus.lost) as Hlost.
  { cbn. intros b Hb Hbid. now apply (books_with_status_spec _ _ _ _ _ Hb). }
  split; [|split; [exact Hlost|]].
  - unfold loan_repository_update_status.
    rewrite update_status_pass; try assumption.
    + cbn [update_book_status_on_loan_change loan_status update_loans_updated_at
             set_loan_status LoanStatus.eqb negb andb is_open loan_book_id].
      assert (negb (LoanStatus.eqb (loan_status l) LoanStatus.lost) = true) as ->
        by (destruct Ho as [-> | ->]; reflexivity).
      assert (LoanStatus.eqb (loan_status l) LoanStatus.returned = false) as ->
        by (destruct Ho as [-> | ->]; reflexivity).
      cbn [negb andb bind].
      rewrite books_set_status_ok by exact Hw.
      reflexivity.
    + destruct (loans_check_parts _ _ Hck) as [C1 [C2 [C3 [C4 [C5 [C6 C7]]]]]].
      unfold loans_check. cbn.
      repeat (apply andb_true_iff; split); try reflexivity.
      * now apply Z.leb_le.
      * now apply Z.ltb_lt.
      * destruct (actual_return_date l); [now apply Z.leb_le | reflexivity].
      * now apply Z.leb_le.
      * now apply Z.leb_le.
    + cbn. discriminate.
  - intros today' now' new_id s ld est. apply create_loan_refused.
Qed.

Lemma update_status_lost_witness :
  loan_repository_update_status 110 111 1 LoanStatus.lost circulation_example
  = (true, after_status 1 LoanStatus.lost 1 BookStatus.lost 111 circulation_example)
  /\ find_book 1 (books (after_status 1 LoanStatus.lost 1 BookStatus.lost 111
                           circulation_example))
     = Some (mkBook 1 BookType.physical (Some 1) BookStatus.lost 111)
  /\ create_loan 112 113 4 1 1 None None
       (after_status 1 LoanStatus.lost 1 BookStatus.lost 111 circulation_example)
     = (None, after_status 1 LoanStatus.lost 1 BookStatus.lost 111 circulation_example).
Proof.
  pose proof circulation_example_loans_check as Hck. rewrite Forall_forall in Hck.
  destruct (update_status_lost 110 111 1 circulation_example
              (mkLoan 1 1 1 100 114 None LoanStatus.active 0 0)
              circulation_example_loan_ids (or_introl eq_refl) eq_refl
              (Hck _ (or_introl eq_refl)) (or_introl eq_refl)
              circulation_example_book_1_writable) as [H1 [_ H3]].
  split; [exact H1|]. split; [reflexivity|]. apply H3.
Defined.

(** X15.  LoanRepository.update_status(id, 'overdue') reopens a returned
    loan without the checks of loan creation: when no other loan of the book
    is open and the book is writable, it returns True, the loan is overdue
    again, the book is loaned, and the student holds one open loan more than
    before, whatever the student's status and however many loans the
    student holds. *)
Theorem update_status_reopens (today now id : Z) (d : db) (l : loan) :
  NoDup (map loan_id (loans d)) -> In l (loans d) -> loan_id l = id ->
  loans_check today l = true ->
  loan_status l = LoanStatus.returned ->
  open_loans_of_book (loan_book_id l) (loans d) = 0%nat ->
  book_row_writable d (loan_book_id l) ->
  loan_repository_update_status today now id LoanStatus.overdue d
  = (true, after_status id LoanStatus.overdue (loan_book_id l) BookStatus.loaned now d)
  /\ active_loans_of_student (loan_student_id l)
       (loans (after_status id LoanStatus.overdue (loan_book_id l) BookStatus.loaned now d))
     = active_loans_of_student (loan_student_id l) (loans d) + 1.
Proof.
  intros Hnd Hin Hid Hck Hs Hzero Hw. subst id.
  split.
  - unfold loan_repository_update_status.
    rewrite update_status_pass; try assumption.
    + cbn [update_book_status_on_loan_change loan_status update_loans_updated_at
             set_loan_status LoanStatus.eqb negb andb is_open loan_book_id].
      rewrite Hs. cbn [LoanStatus.eqb negb andb bind].
      rewrite books_set_status_ok by exact Hw.
      reflexivity.
    + destruct (loans_check_parts _ _ Hck) as [C1 [C2 [C3 [C4 [C5 [C6 C7]]]]]].
      unfold loans_check. cbn.
      repeat (apply andb_true_iff; split); try reflexivity.
      * now apply Z.leb_le.
      * now apply Z.ltb_lt.
      * destruct (actual_return_date l); [now apply Z.leb_le | reflexivity].
      * now apply Z.leb_le.
      * now apply Z.leb_le.
    + intros _ pre post Heq. rewrite Heq in Hzero.
      rewrite open_loans_of_book_app, open_loans_of_book_cons in Hzero.
      rewrite open_loans_of_book_app. lia.
  - cbn [loans after_status with_books with_loans].
    apply in_split in Hin. destruct Hin as [pre [post Heq]].
    rewrite Heq in *. clear Heq.
    unfold active_loans_of_student, loans_rewritten.
    rewrite map_app, !filter_app, !length_app. cbn [map filter].
    rewrite Z.eqb_refl.
    assert (forall xs, ~ In (loan_id l) (map loan_id xs) ->
              map (fun x => if loan_id x =? loan_id l
                            then update_loans_updated_at now
                                   (set_loan_status LoanStatus.overdue x) else x) xs = xs)
      as Hsame.
    { intros xs Hn. rewrite <- (map_id xs) at 2. apply map_ext_in. intros x Hx.
      destruct (loan_id x =? loan_id l) eqn:E; [|reflexivity].
      apply Z.eqb_eq in E. exfalso. apply Hn. rewrite <- E. now apply in_map. }
    rewrite map_app in Hnd. cbn in Hnd.
    pose proof (NoDup_remove_2 _ _ _ Hnd) as Hn.
    rewrite !Hsame by (intros H; apply Hn; apply in_or_app; auto).
    cbn [loan_student_id update_loans_updated_at set_loan_status is_open loan_status].
    rewrite Z.eqb_refl.
    assert (is_open l = false) as -> by (unfold is_open; now rewrite Hs).
    cbn [andb List.length]. lia.
Qed.

Lemma update_status_reopens_witness :
  active_loans_of_student 1 (loans reopen_example) = 5
  /\ loan_repository_update_status 110 111 6 LoanStatus.overdue reopen_example
     = (true, after_status 6 LoanStatus.overdue 6 BookStatus.loaned 111 reopen_example)
  /\ active_loans_of_student 1
       (loans (after_status 6 LoanStatus.overdue 6 BookStatus.loaned 111 reopen_example))
     = 6.
Proof.
  destruct (update_status_reopens 110 111 6 reopen_example
              (mkLoan 6 6 1 90 97 (Some 95) LoanStatus.returned 0 0)) as [H1 H2];
    try reflexivity.
  - cbn. repeat constructor; cbn; intuition lia.
  - cbn. auto 10.
  - intros b Hb Hid. cbn in Hb.
    repeat (destruct Hb as [Hb|Hb]; [subst b; split; reflexivity|]). contradiction.
  - split; [reflexivity|]. split; [exact H1|].
    etransitivity; [exact H2 | reflexivity].
Defined.

(** *** The loan limit *)

Lemma loans_update_loans (wh : loan -> bool) (set : loan -> loan) (today now : Z)
    (d d' : db) (n : Z) :
  loans_update wh set today now d = Ok (n, d') ->
  loans d' = loans_rewritten wh set now (loans d).
Proof.
  unfold loans_update. intros H.
  destruct (loans_write_rows wh set today now [] (loans d)) as [[t evs]|] eqn:E;
    [|discriminate].
  cbn [bind] in H.
  destruct (fire_book_status now evs (with_loans t d)) as [d1|] eqn:F; [|discriminate].
  cbn [bind] in H. inversion H; subst.
  rewrite (fire_book_status_loans _ _ _ _ F). cbn.
  apply loans_write_rows_inv in E. now destruct E as [-> _].
Qed.

Lemma loans_delete_loans (wh : loan -> bool) (now : Z) (d d' : db) (n : Z) :
  loans_delete wh now d = Ok (n, d') ->
  loans d' = filter (fun l => negb (wh l)) (loans d).
Proof.
  unfold loans_delete. intros H.
  destruct (fire_book_status now _ _) as [d1|] eqn:F; [|discriminate].
  cbn [bind] in H. inversion H; subst.
  now rewrite (fire_book_status_loans _ _ _ _ F).
Qed.

Lemma active_loans_of_student_cons (s : Z) (l : loan) (ls : list loan) :
  active_loans_of_student s (l :: ls)
  = (if (loan_student_id l =? s) && is_open l then 1 else 0) + active_loans_of_student s ls.
Proof.
  unfold active_loans_of_student. cbn [filter].
  destruct ((loan_student_id l =? s) && is_open l); cbn [List.length]; lia.
Qed.

Lemma active_loans_of_student_app (s : Z) (xs ys : list loan) :
  active_loans_of_student s (xs ++ ys)
  = active_loans_of_student s xs + active_loans_of_student s ys.
Proof.
  unfold active_loans_of_student. rewrite filter_app, length_app. lia.
Qed.

Lemma active_loans_of_student_nonneg (s : Z) (ls : list loan) :
  0 <= active_loans_of_student s ls.
Proof. unfold active_loans_of_student. lia. Qed.

Lemma active_loans_of_student_filter (s : Z) (f : loan -> bool) (ls : list loan) :
  active_loans_of_student s (filter f ls) <= active_loans_of_student s ls.
Proof.
  induction ls as [|l rest IH]; [reflexivity|].
  cbn [filter]. destruct (f l); rewrite !active_loans_of_student_cons;
    destruct ((loan_student_id l =? s) && is_open l); lia.
Qed.

(** An UPDATE that opens no loan and moves none to another student adds to
    no student's open loans. *)
Lemma active_loans_of_student_rewritten (s : Z) (wh : loan -> bool) (set : loan -> loan)
    (now : Z) (ls : list loan) :
  (forall l, loan_student_id (set l) = loan_student_id l
             /\ (is_open (set l) = true -> is_open l = true)) ->
  active_loans_of_student s (loans_rewritten wh set now ls) <= active_loans_of_student s ls.
Proof.
  intros H. induction ls as [|l rest IH]; [reflexivity|].
  unfold loans_rewritten in *. cbn [map]. rewrite !active_loans_of_student_cons.
  destruct (wh l); [|lia].
  destruct (H l) as [Hs Ho].
  change (loan_student_id (update_loans_updated_at now (set l)))
    with (loan_student_id (set l)).
  change (is_open (update_loans_updated_at now (set l))) with (is_open (set l)).
  rewrite Hs.
  destruct (loan_student_id l =? s); cbn [andb]; [|lia].
  destruct (is_open (set l)); [rewrite Ho by reflexivity|destruct (is_open l)]; lia.
Qed.

Lemma loans_update_limit (wh : loan -> bool) (set : loan -> loan) (today now : Z)
    (d d' : db) (n : Z) :
  (forall l, loan_student_id (set l) = loan_student_id l
             /\ (is_open (set l) = true -> is_open l = true)) ->
  loans_update wh set today now d = Ok (n, d') ->
  within_loan_limit (loans d) -> within_loan_limit (loans d').
Proof.
  intros Hset H Hlim s. rewrite (loans_update_loans _ _ _ _ _ _ _ H).
  pose proof (active_loans_of_student_rewritten s wh set now (loans d) Hset).
  specialize (Hlim s). lia.
Qed.

Lemma loans_delete_limit (wh : loan -> bool) (now : Z) (d d' : db) (n : Z) :
  loans_delete wh now d = Ok (n, d') ->
  within_loan_limit (loans d) -> within_loan_limit (loans d').
Proof.
  intros H Hlim s. rewrite (loans_delete_loans _ _ _ _ _ H).
  pose proof (active_loans_of_student_filter s (fun l => negb (wh l)) (loans d)).
  specialize (Hlim s). lia.
Qed.

Lemma exec_loan_limit (op : operation) (d : db) :
  keeps_loan_limit op ->
  within_loan_limit (loans d) -> within_loan_limit (loans (exec op d)).
Proof.
  intros Hk Hu. destruct op; cbn [exec].
  - rewrite create_loan_refused. exact Hu.
  - rewrite loan_repository_create_loan_refused. exact Hu.
  - unfold return_book.
    destruct (loans_update _ _ today now d) as [[n d']|] eqn:E; [|exact Hu].
    refine (loans_update_limit _ _ _ _ _ _ _ _ E Hu).
    intros l. split; [reflexivity | discriminate].
  - unfold renew_loan.
    destruct (loans_update _ _ today now d) as [[n d']|] eqn:E; [|exact Hu].
    refine (loans_update_limit _ _ _ _ _ _ _ _ E Hu).
    intros l. split; [reflexivity | auto].
  - unfold loan_repository_update_status.
    destruct (loans_update _ _ today now d) as [[n d']|] eqn:E; [|exact Hu].
    refine (loans_update_limit _ _ _ _ _ _ _ _ E Hu).
    intros l. split; [reflexivity|].
    cbn in Hk. destruct Hk as [-> | ->]; discriminate.
  - unfold update_overdue_loans, pg_update_overdue_loans.
    destruct (loans_update _ _ today now d) as [[n d']|] eqn:E; [|exact Hu].
    apply loans_update_loans in E. cbn [snd]. rewrite E. intros s.
    unfold active_loans_of_student.
    assert (forall ls,
              List.length (filter (fun l => (loan_student_id l =? s) && is_open l)
                             (loans_rewritten (is_past_due today)
                                (set_loan_status LoanStatus.overdue) now ls))
              = List.length (filter (fun l => (loan_student_id l =? s) && is_open l) ls))
      as Hlen.
    { induction ls as [|l rest IH]; [reflexivity|].
      unfold loans_rewritten in *. cbn [map filter].
      destruct (is_past_due today l) eqn:Ep.
      - apply is_past_due_active in Ep. destruct Ep as [Hs _].
        change (is_open (update_loans_updated_at now
                           (set_loan_status LoanStatus.overdue l))) with true.
        change (loan_student_id (update_loans_updated_at now
                                   (set_loan_status LoanStatus.overdue l)))
          with (loan_student_id l).
        assert (is_open l = true) as -> by (unfold is_open; now rewrite Hs).
        destruct (loan_student_id l =? s); cbn [andb List.length]; now rewrite IH.
      - destruct ((loan_student_id l =? s) && is_open l); cbn [List.length]; now rewrite IH. }
    rewrite Hlen. apply Hu.
  - unfold book_repository_create.
    destruct (books_insert now _ d) as [d'|] eqn:E; [|exact Hu].
    cbn. now rewrite (books_insert_loans _ _ _ _ E).
  - unfold book_repository_update.
    destruct (bd_book_type bd), (bd_shelf_id bd), (bd_status bd); try exact Hu;
      (destruct (books_update _ _ now d) as [[n d']|] eqn:E; [|exact Hu];
       cbn; now rewrite (books_update_loans _ _ _ _ _ _ E)).
  - unfold move_book_to_shelf.
    destruct (books_update _ _ now d) as [[n d']|] eqn:E; [|exact Hu].
    cbn. now rewrite (books_update_loans _ _ _ _ _ _ E).
  - unfold update_book_status, books_set_status.
    destruct (books_update _ _ now d) as [[n d']|] eqn:E; [|exact Hu].
    cbn. now rewrite (books_update_loans _ _ _ _ _ _ E).
  - unfold book_repository_delete, books_delete.
    destruct (loans_delete _ now _) as [[k d2]|] eqn:E; [|exact Hu].
    cbn [bind].
    destruct (fire_shelf_count now _ (shelves d2)) as [ss|]; [|exact Hu].
    cbn. exact (loans_delete_limit _ _ _ _ _ E Hu).
  - unfold student_repository_delete.
    destruct (loans_delete _ now _) as [[n d']|] eqn:E; [|exact Hu].
    exact (loans_delete_limit _ _ _ _ _ E Hu).
  - unfold update_book_count.
    destruct (update_shelf_book_count now sid count_change (shelves d)); exact Hu.
  - unfold fix_capacity_counts.
    destruct (shelves_update _ _ now (shelves d)) as [[n ss]|]; exact Hu.
Qed.

(** X16.  The loan limit is an invariant of every operation but a
    LoanRepository.update_status to 'active' or 'overdue': starting from a
    loans table where no student holds more than 5 open loans, after any
    sequence of the other operations no student holds more than 5. *)
Theorem loan_limit_kept (ops : list operation) (d : db) :
  Forall keeps_loan_limit ops ->
  within_loan_limit (loans d) ->
  forall s, active_loans_of_student s (loans (run ops d)) <= 5.
Proof.
  revert d. induction ops as [|op rest IH]; intros d Hk Hu; [exact Hu|].
  inversion Hk as [|? ? Hop Hrest]; subst.
  cbn [run fold_left]. apply IH; [assumption|]. now apply exec_loan_limit.
Qed.

Lemma loan_limit_kept_witness :
  Forall (fun s => active_loans_of_student s
                     (loans (run [ReturnBook 110 111 1 None;
                                  CreateLoan 110 112 7 6 1 None None;
                                  CreateLoan 110 113 8 1 1 None None;
                                  UpdateLoanStatus 110 114 2 LoanStatus.lost;
                                  RenewLoan 110 115 4 120]
                                 limit_example)) <= 5)
         [1; 2].
Proof.
  assert (within_loan_limit (loans limit_example)) as Hlim.
  { intros s. unfold active_loans_of_student.
    pose proof (filter_length_le (fun l => (loan_student_id l =? s) && is_open l)
                  (loans limit_example)) as Hle.
    cbn [limit_example loans List.length] in Hle. cbn [limit_example loans]. lia. }
  apply Forall_forall. intros s _.
  apply (loan_limit_kept _ limit_example); [|exact Hlim].
  repeat (constructor; [cbn; auto|]). constructor.
Defined.

(** *** The loans table never grows *)

Lemma no_loan_added_same (x y : db) : loans y = loans x -> no_loan_added x y.
Proof.
  intros H. unfold no_loan_added. rewrite H. split; [apply incl_refl | lia].
Qed.

Lemma no_loan_added_trans (x y z : db) :
  no_loan_added x y -> no_loan_added y z -> no_loan_added x z.
Proof.
  intros [H1 L1] [H2 L2]. split; [exact (incl_tran H2 H1) | lia].
Qed.

Lemma no_loan_added_rewritten (wh : loan -> bool) (set : loan -> loan) (now : Z) (x y : db) :
  (forall l, loan_id (set l) = loan_id l) ->
  loans y = loans_rewritten wh set now (loans x) -> no_loan_added x y.
Proof.
  intros Hset H. unfold no_loan_added. rewrite H. unfold loans_rewritten.
  rewrite map_map, length_map.
  assert (map (fun l => loan_id (if wh l then update_loans_updated_at now (set l) else l))
              (loans x)
          = map loan_id (loans x)) as ->.
  { apply map_ext. intros l. destruct (wh l); [cbn; apply Hset | reflexivity]. }
  split; [apply incl_refl | lia].
Qed.

Lemma no_loan_added_filter (f : loan -> bool) (x y : db) :
  loans y = filter f (loans x) -> no_loan_added x y.
Proof.
  intros H. unfold no_loan_added. rewrite H. split.
  - intros k Hk. apply in_map_iff in Hk. destruct Hk as [l [Hl Hin]].
    apply filter_In in Hin. apply in_map_iff. exists l. tauto.
  - apply filter_length_le.
Qed.

Lemma exec_no_loan_added (op : operation) (d : db) : no_loan_added d (exec op d).
Proof.
  destruct op; cbn [exec].
  - rewrite create_loan_refused. now apply no_loan_added_same.
  - rewrite loan_repository_create_loan_refused. now apply no_loan_added_same.
  - unfold return_book.
    destruct (loans_update _ _ today now d) as [[n d']|] eqn:E;
      [|now apply no_loan_added_same].
    apply loans_update_loans in E.
    refine (no_loan_added_rewritten _ _ _ _ _ _ E). reflexivity.
  - unfold renew_loan.
    destruct (loans_update _ _ today now d) as [[n d']|] eqn:E;
      [|now apply no_loan_added_same].
    apply loans_update_loans in E.
    refine (no_loan_added_rewritten _ _ _ _ _ _ E). reflexivity.
  - unfold loan_repository_update_status.
    destruct (loans_update _ _ today now d) as [[n d']|] eqn:E;
      [|now apply no_loan_added_same].
    apply loans_update_loans in E.
    refine (no_loan_added_rewritten _ _ _ _ _ _ E). reflexivity.
  - unfold update_overdue_loans, pg_update_overdue_loans.
    destruct (loans_update _ _ today now d) as [[n d']|] eqn:E;
      [|now apply no_loan_added_same].
    apply loans_update_loans in E.
    refine (no_loan_added_rewritten _ _ _ _ _ _ E). reflexivity.
  - unfold book_repository_create.
    destruct (books_insert now _ d) as [d'|] eqn:E; [|now apply no_loan_added_same].
    apply no_loan_added_same. exact (books_insert_loans _ _ _ _ E).
  - unfold book_repository_update.
    destruct (bd_book_type bd), (bd_shelf_id bd), (bd_status bd);
      try (now apply no_loan_added_same);
      (destruct (books_update _ _ now d) as [[n d']|] eqn:E;
       [|now apply no_loan_added_same];
       apply no_loan_added_same; exact (books_update_loans _ _ _ _ _ _ E)).
  - unfold move_book_to_shelf.
    destruct (books_update _ _ now d) as [[n d']|] eqn:E; [|now apply no_loan_added_same].
    apply no_loan_added_same. exact (books_update_loans _ _ _ _ _ _ E).
  - unfold update_book_status, books_set_status.
    destruct (books_update _ _ now d) as [[n d']|] eqn:E; [|now apply no_loan_added_same].
    apply no_loan_added_same. exact (books_update_loans _ _ _ _ _ _ E).
  - unfold book_repository_delete, books_delete.
    destruct (loans_delete _ now _) as [[k d2]|] eqn:E; [|now apply no_loan_added_same].
    cbn [bind].
    destruct (fire_shelf_count now _ (shelves d2)) as [ss|]; [|now apply no_loan_added_same].
    apply loans_delete_loans in E. exact (no_loan_added_filter _ _ _ E).
  - unfold student_repository_delete.
    destruct (loans_delete _ now _) as [[n d']|] eqn:E; [|now apply no_loan_added_same].
    apply loans_delete_loans in E. exact (no_loan_added_filter _ _ _ E).
  - unfold update_book_count.
    destruct (update_shelf_book_count now sid count_change (shelves d));
      now apply no_loan_added_same.
  - unfold fix_capacity_counts.
    destruct (shelves_update _ _ now (shelves d)) as [[n ss]|];
      now apply no_loan_added_same.
Qed.

(** X3.  No operation stores a new loan.  Every INSERT INTO loans fires
    validate_loan_creation, which raises on its first statement, so both
    create_loan methods leave the table as it is; the other operations
    rewrite or delete rows of loans.  After any sequence of operations every
    loan_id is one that was there before and the table holds no more rows
    than before; from a table without loans none is ever stored. *)
Theorem no_operation_adds_a_loan (ops : list operation) (d : db) :
  incl (map loan_id (loans (run ops d))) (map loan_id (loans d))
  /\ (List.length (loans (run ops d)) <= List.length (loans d))%nat
  /\ (loans d = [] -> loans (run ops d) = []).
Proof.
  assert (no_loan_added d (run ops d)) as [Hincl Hlen].
  { revert d. induction ops as [|op rest IH]; intros d;
      [now apply no_loan_added_same|].
    cbn [run fold_left].
    exact (no_loan_added_trans _ _ _ (exec_no_loan_added op d) (IH (exec op d))). }
  split; [exact Hincl|]. split; [exact Hlen|].
  intros Hnil. rewrite Hnil in Hlen. cbn in Hlen.
  destruct (loans (run ops d)); [reflexivity | cbn in Hlen; lia].
Qed.

(** *** The overdue report *)

(** The sweep completes on a table that satisfies its CHECKs and its unique
    index. *)
Lemma pg_update_overdue_loans_ok (today now : Z) (d : db) :
  Forall (fun l => loans_check today l = true) (loans d) ->
  unique_active_book (loans d) ->
  pg_update_overdue_loans today now d
  = Ok (Z.of_nat (List.length (filter (is_past_due today) (loans d))),
        with_loans (loans_rewritten (is_past_due today)
                      (set_loan_status LoanStatus.overdue) now (loans d)) d).
Proof.
  intros Hck Huniq. unfold pg_update_overdue_loans, loans_update.
  rewrite loans_write_rows_ok.
  - cbn [bind app].
    rewrite (fire_overdue_triggers today)
      by (intros l Hl; apply filter_In in Hl; tauto).
    cbn [bind]. rewrite length_map. reflexivity.
  - intros pre l post Heq Hp. split.
    + apply loans_check_overdue; [|assumption].
      rewrite Forall_forall in Hck. apply Hck. rewrite Heq. apply in_elt.
    + apply no_conflict_iff. right. cbn [app].
      change (loan_book_id (update_loans_updated_at now
                              (set_loan_status LoanStatus.overdue l)))
        with (loan_book_id l).
      rewrite open_loans_of_book_app, open_loans_after_sweep.
      rewrite <- open_loans_of_book_app.
      apply unique_active_book_others; [now rewrite <- Heq|].
      destruct (is_past_due_active _ _ Hp) as [Hs _].
      apply is_open_iff. now left.
Qed.

Lemma insert_by_estimated_return_date_perm (r : overdue_row) (rs : list overdue_row) :
  Permutation (insert_by_estimated_return_date r rs) (r :: rs).
Proof.
  induction rs as [|x rest IH]; [reflexivity|].
  cbn. destruct (_ <=? _); [reflexivity|].
  rewrite IH. apply perm_swap.
Qed.

Lemma get_overdue_loans_perm (today : Z) (d : db) :
  Permutation (get_overdue_loans today d)
    (map (fun j => mkOverdueRow (fst (fst j)) (snd (fst j)) (snd j)
                     (today - estimated_return_date (fst (fst j))))
       (filter (fun j => reported_overdue today (fst (fst j)))
          (loans_join_books_students d))).
Proof.
  unfold get_overdue_loans.
  induction (map _ _) as [|x rest IH]; [reflexivity|].
  cbn. rewrite insert_by_estimated_return_date_perm. now constructor.
Qed.

Lemma get_overdue_loans_sorted (today : Z) (d : db) :
  Sorted (fun a b => estimated_return_date (or_loan a) <= estimated_return_date (or_loan b))
    (get_overdue_loans today d).
Proof.
  unfold get_overdue_loans.
  induction (map _ _) as [|x rest IH]; [constructor|].
  cbn [fold_right]. revert IH. generalize (fold_right insert_by_estimated_return_date [] rest).
  intros rs Hs. induction rs as [|y rs' IHrs].
  - cbn. repeat constructor.
  - cbn. destruct (_ <=? _) eqn:E.
    + constructor; [assumption|]. constructor. now apply Z.leb_le.
    + apply Z.leb_gt in E. inversion Hs as [|? ? Hrest Hhd]; subst.
      constructor; [now apply IHrs|].
      destruct rs' as [|z rs'']; cbn.
      * constructor. lia.
      * destruct (_ <=? _); constructor; [lia|]. now inversion Hhd.
Qed.

Lemma swept_reported (today now : Z) (l : loan) :
  reported_overdue today (swept today now l) = reported_overdue today l.
Proof.
  unfold swept. destruct (is_past_due today l) eqn:E; [|reflexivity].
  destruct (is_past_due_active _ _ E) as [Hs [_ Hlt]].
  unfold reported_overdue. cbn. rewrite Hs. cbn. symmetry. now apply Z.ltb_lt.
Qed.

Lemma swept_columns (today now : Z) (l : loan) :
  loan_id (swept today now l) = loan_id l
  /\ loan_book_id (swept today now l) = loan_book_id l
  /\ loan_student_id (swept today now l) = loan_student_id l
  /\ estimated_return_date (swept today now l) = estimated_return_date l.
Proof. unfold swept. destruct (is_past_due today l); repeat split; reflexivity. Qed.

Lemma join_after_sweep (today now : Z) (d : db) :
  loans_join_books_students
    (with_loans (loans_rewritten (is_past_due today)
                   (set_loan_status LoanStatus.overdue) now (loans d)) d)
  = map (fun j => (swept today now (fst (fst j)), snd (fst j), snd j))
        (loans_join_books_students d).
Proof.
  unfold loans_join_books_students. cbn [loans books students with_loans].
  unfold loans_rewritten. fold (swept today now).
  generalize (books d) as bs. generalize (students d) as ss. intros ss bs.
  induction (loans d) as [|l rest IH]; [reflexivity|].
  cbn [map flat_map]. rewrite map_app, IH. f_equal. clear IH.
  destruct (swept_columns today now l) as [_ [Hb [Hs _]]].
  rewrite Hb, Hs.
  induction bs as [|b bs' IHb]; [reflexivity|].
  cbn [flat_map]. rewrite map_app, IHb. f_equal. clear IHb.
  destruct (loan_book_id l =? book_id b); [|reflexivity].
  induction ss as [|s ss' IHs]; [reflexivity|].
  cbn [flat_map]. rewrite map_app, IHs. f_equal.
  destruct (loan_student_id l =? student_id s); reflexivity.
Qed.

Lemma join_loan_stored (d : db) (j : loan * book * student) :
  In j (loans_join_books_students d) -> In (fst (fst j)) (loans d).
Proof.
  unfold loans_join_books_students. intros H.
  apply in_flat_map in H. destruct H as [l [Hl H]].
  apply in_flat_map in H. destruct H as [b [Hb H]].
  destruct (loan_book_id l =? book_id b); [|contradiction].
  apply in_flat_map in H. destruct H as [s [Hs H]].
  destruct (loan_student_id l =? student_id s); [|contradiction].
  destruct H as [<-|[]]. exact Hl.
Qed.

Lemma filter_map_comm {A B} (f : A -> B) (p : B -> bool) (xs : list A) :
  filter p (map f xs) = map f (filter (fun x => p (f x)) xs).
Proof.
  induction xs as [|x rest IH]; [reflexivity|].
  cbn. destruct (p (f x)); cbn; now rewrite IH.
Qed.

(** X17.  The overdue report and the overdue sweep.  On a loans table that
    satisfies its CHECKs and its unique index, get_overdue_loans lists after
    update_overdue_loans the same loans (with the same book, student, due
    date and days_overdue) as before it; after the sweep every listed loan
    has status overdue.  A loan listed while still active is at least one
    day overdue, and the list is in the order of estimated_return_date. *)
Theorem overdue_report_after_sweep (today now : Z) (d : db) :
  Forall (fun l => loans_check today l = true) (loans d) ->
  unique_active_book (loans d) ->
  Permutation
    (map overdue_key (get_overdue_loans today (snd (update_overdue_loans today now d))))
    (map overdue_key (get_overdue_loans today d))
  /\ (forall r, In r (get_overdue_loans today (snd (update_overdue_loans today now d))) ->
                loan_status (or_loan r) = LoanStatus.overdue)
  /\ (forall r, In r (get_overdue_loans today d) ->
                loan_status (or_loan r) = LoanStatus.active -> 1 <= or_days_overdue r)
  /\ Sorted (fun a b => estimated_return_date (or_loan a) <= estimated_return_date (or_loan b))
       (get_overdue_loans today (snd (update_overdue_loans today now d))).
Proof.
  intros Hck Hu.
  unfold update_overdue_loans. rewrite pg_update_overdue_loans_ok by assumption.
  cbn [snd].
  set (d' := with_loans (loans_rewritten (is_past_due today)
                           (set_loan_status LoanStatus.overdue) now (loans d)) d).
  assert (filter (fun j => reported_overdue today (fst (fst j)))
            (loans_join_books_students d')
          = map (fun j => (swept today now (fst (fst j)), snd (fst j), snd j))
              (filter (fun j => reported_overdue today (fst (fst j)))
                 (loans_join_books_students d))) as Hrows.
  { unfold d'. rewrite join_after_sweep, filter_map_comm.
    f_equal. apply filter_ext. intros j. cbn [fst snd]. apply swept_reported. }
  split; [|split; [|split]].
  - rewrite (get_overdue_loans_perm today d'), (get_overdue_loans_perm today d).
    rewrite Hrows, !map_map.
    assert (forall xs : list (loan * book * student),
              map (fun x => overdue_key
                     (mkOverdueRow
                        (fst (fst (swept today now (fst (fst x)), snd (fst x), snd x)))
                        (snd (fst (swept today now (fst (fst x)), snd (fst x), snd x)))
                        (snd (swept today now (fst (fst x)), snd (fst x), snd x))
                        (today - estimated_return_date
                                   (fst (fst (swept today now (fst (fst x)),
                                              snd (fst x), snd x)))))) xs
              = map (fun x => overdue_key
                       (mkOverdueRow (fst (fst x)) (snd (fst x)) (snd x)
                          (today - estimated_return_date (fst (fst x))))) xs) as Hkeys.
    { intros xs. apply map_ext. intros x. cbn [fst snd]. unfold overdue_key.
      cbn [or_loan or_book or_student or_days_overdue].
      destruct (swept_columns today now (fst (fst x))) as [-> [_ [_ ->]]]. reflexivity. }
    rewrite Hkeys. reflexivity.
  - intros r Hr.
    apply (Permutation_in _ (get_overdue_loans_perm today d')) in Hr.
    rewrite Hrows, map_map in Hr. apply in_map_iff in Hr.
    destruct Hr as [j [<- Hj]]. cbn [fst snd or_loan].
    apply filter_In in Hj. destruct Hj as [Hj Hrep].
    apply join_loan_stored in Hj.
    rewrite Forall_forall in Hck. specialize (Hck _ Hj).
    unfold swept. destruct (is_past_due today (fst (fst j))) eqn:Ep; [reflexivity|].
    unfold reported_overdue in Hrep. apply orb_true_iff in Hrep.
    destruct Hrep as [Hrep|Hrep]; [now apply loan_status_eqb_eq|].
    apply andb_true_iff in Hrep. destruct Hrep as [Hs Hlt]. exfalso.
    apply loan_status_eqb_eq in Hs.
    destruct (loans_check_parts _ _ Hck) as [_ [_ [_ [_ [_ [C6 _]]]]]].
    unfold is_past_due in Ep. rewrite Hs, (C6 Hs), Hlt in Ep. discriminate.
  - intros r Hr Hs.
    apply (Permutation_in _ (get_overdue_loans_perm today d)) in Hr.
    apply in_map_iff in Hr. destruct Hr as [j [<- Hj]].
    cbn [or_loan or_days_overdue] in *.
    apply filter_In in Hj. destruct Hj as [_ Hrep].
    unfold reported_overdue in Hrep. rewrite Hs in Hrep. cbn in Hrep.
    apply Z.ltb_lt in Hrep. lia.
  - apply get_overdue_loans_sorted.
Qed.

Lemma overdue_report_after_sweep_witness :
  map overdue_key (get_overdue_loans 110 circulation_example) = [(3, 4, 1, 105, 5)]
  /\ Permutation
       (map overdue_key
          (get_overdue_loans 110 (snd (update_overdue_loans 110 111 circulation_example))))
       [(3, 4, 1, 105, 5)]
  /\ Forall (fun r => loan_status (or_loan r) = LoanStatus.overdue)
       (get_overdue_loans 110 (snd (update_overdue_loans 110 111 circulation_example))).
Proof.
  destruct (overdue_report_after_sweep 110 111 circulation_example
              circulation_example_loans_check circulation_example_unique)
    as [H1 [H2 _]].
  split; [reflexivity|]. split; [exact H1|].
  apply Forall_forall. exact H2.
Defined.

(** *** Making a digital book physical *)

Lemma shelves_adjusted_twice (now id n m : Z) (ss : list shelf) :
  shelves_adjusted now id m (shelves_adjusted now id n ss) = shelves_adjusted now id m ss.
Proof.
  unfold shelves_adjusted. rewrite map_map. apply map_ext. intros r.
  destruct (shelf_id r =? id) eqn:E; cbn [shelf_id adjusted]; rewrite E; reflexivity.
Qed.

(** X18.  BookRepository.update that turns a stored digital book into a
    physical book on shelf [n]: the trigger adds one to the shelf in its
    "shelf changed" block and one more in its "book type changed" block.
    The update succeeds exactly when the shelf has two free places, and then
    the count of the shelf goes up by two while the number of physical books
    on it goes up by one; with fewer than two free places it is refused and
    nothing changes. *)
Theorem make_physical_counts_twice (now id n : Z) (st : option BookStatus.t) (d : db)
    (b : book) (s : shelf) :
  shelves_stored (shelves d) ->
  NoDup (map book_id (books d)) -> In b (books d) -> book_id b = id ->
  book_type b = BookType.digital -> book_shelf_id b = None ->
  find_shelf n (shelves d) = Some s ->
  (current_book_count s + 2 <= total_capacity s ->
   book_repository_update now id (mkBookData (Some BookType.physical) (Some (Some n)) st) d
   = (true,
      with_shelves (shelves_adjusted now n (current_book_count s + 2) (shelves d))
        (with_books
           (books_updated now id (mkBookData (Some BookType.physical) (Some (Some n)) st)
              (books d)) d))
   /\ count_physical_books n
        (books_updated now id (mkBookData (Some BookType.physical) (Some (Some n)) st)
           (books d))
      = count_physical_books n (books d) + 1)
  /\ (total_capacity s < current_book_count s + 2 ->
      book_repository_update now id (mkBookData (Some BookType.physical) (Some (Some n)) st) d
      = (false, d)).
Proof.
  intros Hst Hnd Hin Hid Hty Hsh Hs. subst id.
  pose proof (shelves_stored_count _ _ _ Hst Hs) as Hc.
  set (bd := mkBookData (Some BookType.physical) (Some (Some n)) st).
  assert (filter (fun x => book_id x =? book_id b) (books d) = [b]) as Hf
    by now apply filter_book_id.
  assert (forall x, In x (books d) -> (book_id x =? book_id b) = true -> x = b) as Hsel.
  { intros x Hx E.
    assert (In x (filter (fun y => book_id y =? book_id b) (books d))) as Hxf
      by (apply filter_In; auto).
    rewrite Hf in Hxf. destruct Hxf as [Hxf|[]]. now symmetry. }
  assert (update_shelf_count_on_book_change now
            (TG_UPDATE b (update_books_updated_at now (apply_book_data bd b))) (shelves d)
          = (ss1 <- update_shelf_book_count now n 1 (shelves d) ;;
             update_shelf_book_count now n 1 ss1)) as Htrig.
  { cbn [update_shelf_count_on_book_change].
    cbn [book_shelf_id book_type update_books_updated_at apply_book_data bd
           bd_book_type bd_shelf_id].
    rewrite Hsh, Hty. cbn [opt_Z_eqb negb andb BookType.eqb bind].
    destruct (update_shelf_book_count now n 1 (shelves d)); reflexivity. }
  split.
  - intros Hfit. split.
    + unfold book_repository_update. cbn [bd_book_type].
      fold bd. unfold books_update.
      rewrite books_write_rows_ok.
      * rewrite Hf. cbn [map bind fire_shelf_count]. rewrite Htrig.
        rewrite (update_shelf_book_count_adjusted now n 1 _ s Hst Hs) by lia.
        cbn [bind].
        rewrite (update_shelf_book_count_adjusted now n 1 _
                   (adjusted now (current_book_count s + 1) s)).
        -- cbn [bind List.length current_book_count adjusted].
           rewrite shelves_adjusted_twice.
           replace (current_book_count s + 1 + 1) with (current_book_count s + 2) by lia.
           reflexivity.
        -- apply (shelves_stored_adjusted now n _ _ s Hst Hs). lia.
        -- now apply find_shelf_adjusted_same.
        -- cbn. lia.
      * intros x Hx Hw. rewrite (Hsel x Hx Hw).
        unfold validate_book_shelf_placement, books_check, check_shelf_capacity.
        cbn. rewrite Hs. cbn.
        assert ((current_book_count s <? total_capacity s) = true) as ->
          by (apply Z.ltb_lt; lia).
        split; reflexivity.
    + unfold books_updated.
      rewrite (count_physical_books_rewritten n (fun x => book_id x =? book_id b)
                 (fun x => update_books_updated_at now (apply_book_data bd x))).
      rewrite Hf. cbn [map events_delta fold_right event_delta].
      unfold on_shelf_Z, on_shelf, is_physical. cbn. rewrite Hsh, Hty, Z.eqb_refl. cbn. lia.
  - intros Hover. unfold book_repository_update. cbn [bd_book_type].
    fold bd. unfold books_update.
    destruct (books_write_rows _ _ now (shelves d) (books d)) as [[bs evs]|] eqn:E;
      [|reflexivity].
    apply books_write_rows_inv in E. destruct E as [-> ->].
    rewrite Hf. cbn [map bind fire_shelf_count]. rewrite Htrig.
    destruct (Z.le_gt_cases (current_book_count s + 1) (total_capacity s)) as [Hle|Hgt].
    + rewrite (update_shelf_book_count_adjusted now n 1 _ s Hst Hs) by lia.
      cbn [bind]. unfold update_shelf_book_count.
      rewrite (find_shelf_adjusted_same now n _ _ s Hs). cbn zeta.
      cbn [current_book_count total_capacity adjusted].
      assert ((current_book_count s + 1 + 1 <? 0) = false) as -> by (apply Z.ltb_ge; lia).
      assert ((current_book_count s + 1 + 1 >? total_capacity s) = true) as ->
        by (apply Z.gtb_lt; lia).
      reflexivity.
    + unfold update_shelf_book_count at 1. rewrite Hs. cbn zeta.
      assert ((current_book_count s + 1 <? 0) = false) as -> by (apply Z.ltb_ge; lia).
      assert ((current_book_count s + 1 >? total_capacity s) = true) as ->
        by (apply Z.gtb_lt; lia).
      reflexivity.
Qed.

Lemma make_physical_counts_twice_witness :
  book_repository_update 111 2 (mkBookData (Some BookType.physical) (Some (Some 1)) None)
    circulation_example
  = (true,
     with_shelves [mkShelf 1 "A1" 10 3 111; mkShelf 2 "B2" 2 1 0; mkShelf 3 "C3" 1 1 0]
       (with_books [mkBook 1 BookType.physical (Some 1) BookStatus.loaned 0;
                    mkBook 2 BookType.physical (Some 1) BookStatus.available 111;
                    mkBook 3 BookType.physical (Some 2) BookStatus.available 0;
                    mkBook 4 BookType.physical (Some 3) BookStatus.loaned 0]
          circulation_example))
  /\ book_repository_update 111 2 (mkBookData (Some BookType.physical) (Some (Some 2)) None)
       circulation_example
     = (false, circulation_example).
Proof.
  split.
  - destruct (make_physical_counts_twice 111 2 1 None circulation_example
                (mkBook 2 BookType.digital None BookStatus.available 0)
                (mkShelf 1 "A1" 10 1 0)
                circulation_example_shelves_stored circulation_example_book_ids
                (or_intror (or_introl eq_refl)) eq_refl eq_refl eq_refl eq_refl) as [H _].
    destruct H as [H _]; [cbn; lia | exact H].
  - destruct (make_physical_counts_twice 111 2 2 None circulation_example
                (mkBook 2 BookType.digital None BookStatus.available 0)
                (mkShelf 2 "B2" 2 1 0)
                circulation_example_shelves_stored circulation_example_book_ids
                (or_intror (or_introl eq_refl)) eq_refl eq_refl eq_refl eq_refl) as [_ H].
    apply H. cbn. lia.
Defined.

(** *** Moving a book: every case *)

(** X19.  move_book_to_shelf, case by case, on unique book ids and a
    shelves table that satisfies its constraints.  It returns False, and
    nothing changes, for an unknown book, for a digital book, and when the
    target shelf is missing or has no free place, also when the book already
    stands on that shelf.  A move to the shelf the book stands on, when that
    shelf has a free place, returns True and only stamps the row of the
    book.  A move to another shelf with a free place returns True, takes one
    from the old shelf and adds one to the new one, provided the old shelf
    records at least one book; when the old shelf is missing or records
    none, the move is refused. *)
Theorem move_book_to_shelf_spec (now id n : Z) (d : db) :
  shelves_stored (shelves d) ->
  NoDup (map book_id (books d)) ->
  (find_book id (books d) = None -> move_book_to_shelf now id n d = (false, d))
  /\ (forall b, find_book id (books d) = Some b ->
        (book_type b = BookType.digital -> move_book_to_shelf now id n d = (false, d))
        /\ (book_type b = BookType.physical -> shelf_blocked n (shelves d) ->
            move_book_to_shelf now id n d = (false, d))
        /\ (forall sn, book_type b = BookType.physical -> book_shelf_id b = Some n ->
              find_shelf n (shelves d) = Some sn ->
              current_book_count sn < total_capacity sn ->
              move_book_to_shelf now id n d
              = (true, with_books (books_moved now id n (books d)) d))
        /\ (forall o sn, book_type b = BookType.physical -> book_shelf_id b = Some o ->
              o <> n ->
              find_shelf n (shelves d) = Some sn ->
              current_book_count sn < total_capacity sn ->
              (forall so, find_shelf o (shelves d) = Some so -> 1 <= current_book_count so ->
                 move_book_to_shelf now id n d
                 = (true,
                    with_shelves
                      (shelves_adjusted now n (current_book_count sn + 1)
                         (shelves_adjusted now o (current_book_count so - 1) (shelves d)))
                      (with_books (books_moved now id n (books d)) d)))
              /\ (shelf_count o (shelves d) = None \/ shelf_count o (shelves d) = Some 0 ->
                  move_book_to_shelf now id n d = (false, d)))).
Proof.
  intros Hst Hnd. split.
  - intros Hnone. unfold move_book_to_shelf.
    rewrite books_update_none; [reflexivity|].
    intros b Hb. rewrite (find_none _ _ Hnone b Hb). reflexivity.
  - intros b Hfind. unfold find_book in Hfind. apply find_some in Hfind.
    destruct Hfind as [Hin Hid]. apply Z.eqb_eq in Hid. subst id.
    assert (forall x, In x (books d) -> (book_id x =? book_id b) = true -> x = b) as Hsel.
    { intros x Hx E.
      assert (In x (filter (fun y => book_id y =? book_id b) (books d))) as Hxf
        by (apply filter_In; auto).
      rewrite (filter_book_id _ _ Hnd Hin) in Hxf. destruct Hxf as [Hxf|[]]. now symmetry. }
    split; [|split; [|split]].
    + intros Hty. unfold move_book_to_shelf.
      rewrite books_update_none; [reflexivity|].
      intros x Hx. destruct (book_id x =? book_id b) eqn:E; [|reflexivity].
      rewrite (Hsel x Hx E). unfold is_physical. now rewrite Hty.
    + intros Hty Hbl. unfold move_book_to_shelf, books_update.
      destruct (books_write_rows_raise
                  (fun x => (book_id x =? book_id b) && is_physical x)
                  (set_book_shelf_id (Some n)) now (shelves d) (books d)) as [e ->];
        [|reflexivity].
      exists b. split; [assumption|]. split.
      * unfold is_physical. now rewrite Z.eqb_refl, Hty.
      * now apply (validate_placement_blocked _ n).
    + intros sn Hty Hsh Hsn Hfree. unfold move_book_to_shelf, books_update.
      assert (is_physical b = true) as Hp by (unfold is_physical; now rewrite Hty).
      rewrite books_write_rows_ok.
      * rewrite filter_andb, (filter_book_id _ _ Hnd Hin).
        cbn [filter]. rewrite Hp. cbn [map bind fire_shelf_count].
        rewrite update_shelf_count_same_placement by (cbn; auto).
        cbn [bind List.length]. unfold books_moved.
        destruct d; reflexivity.
      * intros x Hx Hw. apply andb_true_iff in Hw. destruct Hw as [Hw _].
        rewrite (Hsel x Hx Hw).
        unfold validate_book_shelf_placement, books_check, check_shelf_capacity.
        cbn. rewrite Hty, Hsn. cbn.
        assert ((current_book_count sn <? total_capacity sn) = true) as ->
          by now apply Z.ltb_lt.
        split; reflexivity.
    + intros o sn Hty Hsh Hon Hsn Hfree. split.
      * intros so Hso Hc.
        now apply (move_book_to_shelf_ok now (book_id b) o n d b so sn).
      * intros Hold. unfold move_book_to_shelf, books_update.
        destruct (books_write_rows _ _ now (shelves d) (books d)) as [[bs evs]|] eqn:E;
          [|reflexivity].
        apply books_write_rows_inv in E. destruct E as [-> ->].
        assert (is_physical b = true) as Hp by (unfold is_physical; now rewrite Hty).
        rewrite filter_andb, (filter_book_id _ _ Hnd Hin).
        cbn [filter]. rewrite Hp. cbn [map bind fire_shelf_count].
        cbn [update_shelf_count_on_book_change].
        cbn [book_shelf_id book_type update_books_updated_at set_book_shelf_id].
        rewrite Hsh, Hty. cbn [opt_Z_eqb].
        assert ((o =? n) = false) as -> by now apply Z.eqb_neq.
        cbn [negb andb BookType.eqb].
        unfold update_shelf_book_count at 1. unfold shelf_count in Hold.
        destruct (find_shelf o (shelves d)) as [so|]; [|reflexivity].
        destruct Hold as [Hold|Hold]; [discriminate|]. inversion Hold as [Hz].
        cbn zeta. rewrite Hz. reflexivity.
Qed.

Lemma move_book_to_shelf_spec_witness :
  move_book_to_shelf 111 9 1 circulation_example = (false, circulation_example)
  /\ move_book_to_shelf 111 2 1 circulation_example = (false, circulation_example)
  /\ move_book_to_shelf 111 1 3 circulation_example = (false, circulation_example)
  /\ move_book_to_shelf 111 1 7 circulation_example = (false, circulation_example)
  /\ move_book_to_shelf 111 1 1 circulation_example
     = (true, with_books (books_moved 111 1 1 (books circulation_example))
                circulation_example).
Proof.
  pose proof (move_book_to_shelf_spec 111 9 1 circulation_example
                circulation_example_shelves_stored circulation_example_book_ids) as [H9 _].
  pose proof (move_book_to_shelf_spec 111 2 1 circulation_example
                circulation_example_shelves_stored circulation_example_book_ids) as [_ H2].
  pose proof (move_book_to_shelf_spec 111 1 3 circulation_example
                circulation_example_shelves_stored circulation_example_book_ids) as [_ H3].
  pose proof (move_book_to_shelf_spec 111 1 7 circulation_example
                circulation_example_shelves_stored circulation_example_book_ids) as [_ H7].
  pose proof (move_book_to_shelf_spec 111 1 1 circulation_example
                circulation_example_shelves_stored circulation_example_book_ids) as [_ H1].
  split; [apply H9; reflexivity|].
  split; [destruct (H2 _ eq_refl) as [Hd _]; apply Hd; reflexivity|].
  split.
  { destruct (H3 _ eq_refl) as [_ [Hb _]]. apply Hb; [reflexivity|].
    intros s Hs. cbn in Hs. inversion Hs; subst. cbn. lia. }
  split.
  { destruct (H7 _ eq_refl) as [_ [Hb _]]. apply Hb; [reflexivity|].
    intros s Hs. cbn in Hs. discriminate. }
  destruct (H1 _ eq_refl) as [_ [_ [H _]]].
  apply (H (mkShelf 1 "A1" 10 1 0)); try reflexivity.
Defined.

(** *** The status of a lent book *)

Lemma open_loans_of_book_in (b : Z) (ls : list loan) (l : loan) :
  In l ls -> is_open l = true -> loan_book_id l = b ->
  (1 <= open_loans_of_book b ls)%nat.
Proof.
  induction ls as [|x rest IH]; intros Hin Ho Hb; [easy|].
  rewrite open_loans_of_book_cons. destruct Hin as [->|Hin].
  - rewrite Ho, Hb, Z.eqb_refl. cbn. lia.
  - specialize (IH Hin Ho Hb). lia.
Qed.

(** With at most one open loan for every book, two open loans of a book are
    the same row. *)
Lemma unique_open_same (ls : list loan) (l l0 : loan) :
  unique_active_book ls -> In l ls -> In l0 ls ->
  is_open l = true -> is_open l0 = true -> loan_book_id l = loan_book_id l0 -> l = l0.
Proof.
  intros Hu Hl Hl0 Ho Ho0 Hb.
  apply in_split in Hl. destruct Hl as [pre [post ->]].
  pose proof (unique_active_book_others pre post l Hu Ho) as Hz.
  apply in_app_or in Hl0. destruct Hl0 as [H|[H|H]]; [exfalso|now symmetry|exfalso].
  - pose proof (open_loans_of_book_in (loan_book_id l) (pre ++ post) l0
                  (in_or_app _ _ _ (or_introl H)) Ho0 (eq_sym Hb)). lia.
  - pose proof (open_loans_of_book_in (loan_book_id l) (pre ++ post) l0
                  (in_or_app _ _ _ (or_intror H)) Ho0 (eq_sym Hb)). lia.
Qed.

Lemma books_update_inv (wh : book -> bool) (set : book -> book) (now : Z)
    (d d' : db) (n : Z) :
  books_update wh set now d = Ok (n, d') ->
  books d' = map (fun b => if wh b then update_books_updated_at now (set b) else b) (books d)
  /\ loans d' = loans d.
Proof.
  unfold books_update. intros H.
  destruct (books_write_rows wh set now (shelves d) (books d)) as [[bs evs]|] eqn:E;
    [|discriminate].
  apply books_write_rows_inv in E. destruct E as [-> ->].
  cbn [bind] in H.
  destruct (fire_shelf_count now _ (shelves d)) as [ss|]; [|discriminate].
  cbn [bind] in H. inversion H. split; reflexivity.
Qed.

Lemma books_insert_inv (now : Z) (new : book) (d d' : db) :
  books_insert now new d = Ok d' ->
  books d' = books d ++ [new] /\ fresh_book_id (book_id new) d /\ loans d' = loans d.
Proof.
  unfold books_insert. intros H.
  destruct (validate_book_shelf_placement new (shelves d)); [|discriminate].
  cbn [bind] in H.
  destruct (books_check new); [|discriminate].
  cbn [ensure bind] in H.
  destruct (existsb _ (books d)) eqn:E; [discriminate|].
  cbn [negb ensure bind] in H.
  destruct (update_shelf_count_on_book_change now _ (shelves d)) as [ss|]; [|discriminate].
  cbn [bind] in H. inversion H. cbn.
  split; [reflexivity|]. split; [now apply fresh_book_id_existsb | reflexivity].
Qed.

Lemma books_delete_inv (id now : Z) (d d' : db) (n : Z) :
  books_delete id now d = Ok (n, d') ->
  books d' = filter (fun b => negb (book_id b =? id)) (books d)
  /\ loans d' = filter (fun l => negb (loan_book_id l =? id)) (loans d).
Proof.
  unfold books_delete. rewrite books_delete_cascade. cbn [bind]. intros H.
  destruct (fire_shelf_count now _ _) as [ss|]; [|discriminate].
  cbn [bind] in H. inversion H. split; reflexivity.
Qed.

(** The AFTER triggers of loans, for deleted rows and for rows that an
    UPDATE has closed as returned: when they complete, they have made the
    books of the open ones available. *)
Lemma fire_released_inv (now : Z) (ev : loan -> tg_event loan) (gone : list loan)
    (d d' : db) :
  (forall l x, update_book_status_on_loan_change now (ev l) x
               = if is_open l
                 then ' (_, y) <- books_set_status (loan_book_id l)
                                    BookStatus.available now x ;; Ok y
                 else Ok x) ->
  fire_book_status now (map ev gone) d = Ok d' ->
  d' = with_books (books_released now gone (books d)) d.
Proof.
  intros Hev. revert d. induction gone as [|l rest IH]; intros d H.
  - cbn in H. inversion H. unfold books_released. cbn. rewrite map_id.
    now rewrite with_books_same.
  - cbn [map fire_book_status] in H. rewrite Hev in H.
    rewrite books_released_cons.
    destruct (is_open l).
    + destruct (books_set_status _ _ now d) as [[k d1]|] eqn:E; [|discriminate].
      apply books_set_status_inv in E. subst d1. cbn [bind] in H.
      apply IH in H. rewrite H. destruct d; reflexivity.
    + cbn [bind] in H. now apply IH.
Qed.

Lemma loans_delete_inv (wh : loan -> bool) (now : Z) (d d' : db) (n : Z) :
  loans_delete wh now d = Ok (n, d') ->
  loans d' = filter (fun l => negb (wh l)) (loans d)
  /\ books d' = books_released now (filter wh (loans d)) (books d).
Proof.
  unfold loans_delete. intros H.
  destruct (fire_book_status now _ _) as [d1|] eqn:F; [|discriminate].
  cbn [bind] in H. inversion H; subst.
  apply (fire_released_inv now TG_DELETE) in F; [|reflexivity].
  rewrite F. split; reflexivity.
Qed.

Lemma return_update_books (wh : loan -> bool) (today now rd : Z) (d d' : db) (n : Z) :
  (forall l, wh l = true -> is_open l = true) ->
  loans_update wh (set_returned rd) today now d = Ok (n, d') ->
  loans d' = loans_rewritten wh (set_returned rd) now (loans d)
  /\ books d' = books_released now (filter wh (loans d)) (books d).
Proof.
  intros Hwh H. split; [exact (loans_update_loans _ _ _ _ _ _ _ H)|].
  unfold loans_update in H.
  destruct (loans_write_rows _ _ today now [] (loans d)) as [[t evs]|] eqn:E; [|discriminate].
  apply loans_write_rows_inv in E. destruct E as [-> ->].
  cbn [bind] in H.
  destruct (fire_book_status now _ _) as [d1|] eqn:F; [|discriminate].
  cbn [bind] in H. inversion H; subst.
  assert (forall sel x, (forall l, In l sel -> is_open l = true) ->
            fire_book_status now
              (map (fun l => TG_UPDATE l (update_loans_updated_at now (set_returned rd l)))
                 sel) x = Ok d' ->
            d' = with_books (books_released now sel (books x)) x) as Hfire.
  { induction sel as [|l rest IH]; intros x Ho Hf.
    - cbn in Hf. inversion Hf. unfold books_released. cbn. rewrite map_id.
      now rewrite with_books_same.
    - cbn [map fire_book_status] in Hf.
      rewrite (returned_trigger _ _ _ _ (Ho l (or_introl eq_refl))) in Hf.
      rewrite books_released_cons, (Ho l (or_introl eq_refl)).
      destruct (books_set_status _ _ now x) as [[k x1]|] eqn:Es; [|discriminate].
      apply books_set_status_inv in Es. subst x1. cbn [bind] in Hf.
      apply IH in Hf; [|intros y Hy; apply Ho; now right].
      rewrite Hf. destruct x; reflexivity. }
  apply Hfire in F.
  - rewrite F. reflexivity.
  - intros l Hl. apply filter_In in Hl. now apply Hwh.
Qed.

(** An UPDATE that keeps open loans open fires no statement on books. *)
Lemma quiet_update_books (wh : loan -> bool) (set : loan -> loan) (today now : Z)
    (d d' : db) (n : Z) :
  (forall l, wh l = true -> is_open l = true /\ is_open (set l) = true) ->
  loans_update wh set today now d = Ok (n, d') ->
  loans d' = loans_rewritten wh set now (loans d) /\ books d' = books d.
Proof.
  intros Hwh H. split; [exact (loans_update_loans _ _ _ _ _ _ _ H)|].
  unfold loans_update in H.
  destruct (loans_write_rows _ _ today now [] (loans d)) as [[t evs]|] eqn:E; [|discriminate].
  apply loans_write_rows_inv in E. destruct E as [-> ->].
  cbn [bind] in H.
  assert (forall sel x, (forall l, In l sel -> wh l = true) ->
            fire_book_status now
              (map (fun l => TG_UPDATE l (update_loans_updated_at now (set l))) sel) x
            = Ok x) as Hfire.
  { induction sel as [|l rest IH]; intros x Hs; [reflexivity|].
    cbn [map fire_book_status].
    destruct (Hwh l (Hs l (or_introl eq_refl))) as [Ho Ho'].
    assert (update_book_status_on_loan_change now
              (TG_UPDATE l (update_loans_updated_at now (set l))) x = Ok x) as ->.
    { cbn. unfold is_open in *. cbn.
      destruct (loan_status l); try discriminate;
        destruct (loan_status (set l)); try discriminate; reflexivity. }
    cbn [bind]. apply IH. intros y Hy. apply Hs. now right. }
  rewrite Hfire in H by (intros l Hl; apply filter_In in Hl; tauto).
  cbn [bind] in H. inversion H. reflexivity.
Qed.

Lemma books_released_in (now : Z) (gone : list loan) (bs : list book) (b' : book) :
  In b' (books_released now gone bs) ->
  exists b, In b bs /\ book_id b' = book_id b
            /\ (b' = b
                \/ exists l0, In l0 gone /\ is_open l0 = true
                              /\ loan_book_id l0 = book_id b).
Proof.
  unfold books_released. intros H. apply in_map_iff in H. destruct H as [b [Hb Hin]].
  exists b. split; [assumption|].
  destruct (existsb _ gone) eqn:E.
  - subst b'. split; [reflexivity|]. right.
    apply existsb_exists in E. destruct E as [l0 [Hl0 H]].
    apply andb_true_iff in H. destruct H as [Ho Hid]. apply Z.eqb_eq in Hid.
    exists l0. auto.
  - subst b'. split; [reflexivity | now left].
Qed.

Lemma books_released_ids (now : Z) (gone : list loan) (bs : list book) :
  map book_id (books_released now gone bs) = map book_id bs.
Proof.
  unfold books_released. rewrite map_map. apply map_ext. intros b.
  destruct (existsb _ gone); reflexivity.
Qed.

Lemma loans_reference_books_ids (x y : db) :
  (forall l, In l (loans y) -> exists l0, In l0 (loans x) /\ loan_book_id l = loan_book_id l0) ->
  (forall b, In b (books x) -> exists b', In b' (books y) /\ book_id b' = book_id b) ->
  loans_reference_books x -> loans_reference_books y.
Proof.
  intros Hl Hb Hfk l Hin.
  destruct (Hl l Hin) as [l0 [Hl0 Heq]].
  destruct (Hfk l0 Hl0) as [b [Hbin Hid]].
  destruct (Hb b Hbin) as [b' [Hb' Hid']].
  exists b'. split; [assumption | congruence].
Qed.

Lemma in_map_ids (xs ys : list book) (b : book) :
  map book_id ys = map book_id xs -> In b xs ->
  exists b', In b' ys /\ book_id b' = book_id b.
Proof.
  intros Hm Hin. apply (in_map book_id) in Hin. rewrite <- Hm in Hin.
  apply in_map_iff in Hin. destruct Hin as [b' [Hid Hb']]. exists b'. auto.
Qed.

Lemma loans_rewritten_in (wh : loan -> bool) (set : loan -> loan) (now : Z)
    (ls : list loan) (l' : loan) :
  In l' (loans_rewritten wh set now ls) ->
  exists l, In l ls
            /\ ((wh l = true /\ l' = update_loans_updated_at now (set l))
                \/ (wh l = false /\ l' = l)).
Proof.
  unfold loans_rewritten. intros H. apply in_map_iff in H. destruct H as [l [Hl Hin]].
  exists l. split; [assumption|]. destruct (wh l); [left | right]; auto.
Qed.

(** Removing the loans that [gone] holds and releasing their books. *)
Lemma released_consistent (now : Z) (wh : loan -> bool) (d d' : db) :
  loans d' = filter (fun l => negb (wh l)) (loans d) ->
  books d' = books_released now (filter wh (loans d)) (books d) ->
  circulation_consistent d -> circulation_consistent d'.
Proof.
  intros Hl Hb [Hfk [Hu Hlent]]. split; [|split].
  - apply (loans_reference_books_ids d); [| |assumption].
    + intros l Hin. rewrite Hl in Hin. apply filter_In in Hin. exists l. tauto.
    + intros b Hin. apply (in_map_ids (books d)); [|assumption].
      rewrite Hb. apply books_released_ids.
  - rewrite Hl. now apply unique_active_book_filter.
  - intros l b' Hin Ho Hbin Hid.
    rewrite Hl in Hin. apply filter_In in Hin. destruct Hin as [Hin Hw].
    apply negb_true_iff in Hw.
    rewrite Hb in Hbin. apply books_released_in in Hbin.
    destruct Hbin as [b [Hb0 [Hbid [->|[l0 [Hl0 [Ho0 Hk]]]]]]].
    + now apply (Hlent l b).
    + exfalso. apply filter_In in Hl0. destruct Hl0 as [Hl0 Hw0].
      assert (l = l0) by (apply (unique_open_same (loans d)); auto; congruence).
      subst l0. congruence.
Qed.

Lemma rewritten_consistent (wh : loan -> bool) (set : loan -> loan) (now : Z) (d d' : db) :
  (forall l, wh l = true -> is_open l = true /\ is_open (set l) = true) ->
  (forall l, loan_book_id (set l) = loan_book_id l) ->
  loans d' = loans_rewritten wh set now (loans d) ->
  books d' = books d ->
  unique_active_book (loans d') ->
  circulation_consistent d -> circulation_consistent d'.
Proof.
  intros Hwh Hbk Hl Hb Hu' [Hfk [Hu Hlent]]. split; [|split; [assumption|]].
  - apply (loans_reference_books_ids d); [| |assumption].
    + intros l Hin. rewrite Hl in Hin. apply loans_rewritten_in in Hin.
      destruct Hin as [l0 [Hl0 [[_ ->]|[_ ->]]]]; exists l0; split; auto. apply Hbk.
    + intros b Hin. exists b. rewrite Hb. auto.
  - intros l' b Hin Ho Hbin Hid. rewrite Hb in Hbin.
    rewrite Hl in Hin. apply loans_rewritten_in in Hin.
    destruct Hin as [l [Hl0 [[Hw ->]|[Hw ->]]]].
    + apply (Hlent l b); try assumption; [now apply Hwh|].
      rewrite Hid. apply Hbk.
    + now apply (Hlent l b).
Qed.

Lemma books_rewritten_consistent (wh : book -> bool) (set : book -> book) (now : Z)
    (d d' : db) :
  (forall b, book_id (set b) = book_id b /\ status (set b) = status b) ->
  books d' = map (fun b => if wh b then update_books_updated_at now (set b) else b) (books d) ->
  loans d' = loans d ->
  circulation_consistent d -> circulation_consistent d'.
Proof.
  intros Hset Hb Hl [Hfk [Hu Hlent]]. split; [|split].
  - apply (loans_reference_books_ids d); [| |assumption].
    + intros l Hin. rewrite Hl in Hin. exists l. auto.
    + intros b Hin. apply (in_map_ids (books d)); [|assumption].
      rewrite Hb, map_map. apply map_ext. intros x.
      destruct (wh x); [apply Hset | reflexivity].
  - now rewrite Hl.
  - intros l b' Hin Ho Hbin Hid. rewrite Hl in Hin.
    rewrite Hb in Hbin. apply in_map_iff in Hbin. destruct Hbin as [b [Hb' Hb0]].
    destruct (Hset b) as [Hi Hs].
    destruct (wh b); subst b'.
    + cbn [status update_books_updated_at]. rewrite Hs.
      apply (Hlent l b); try assumption. cbn in Hid. congruence.
    + now apply (Hlent l b).
Qed.

Lemma exec_circulation_consistent (op : operation) (d : db) :
  keeps_lending op ->
  circulation_consistent d -> circulation_consistent (exec op d).
Proof.
  intros Hk Hc. destruct op; cbn [exec]; cbn in Hk; try contradiction.
  - rewrite create_loan_refused. exact Hc.
  - rewrite loan_repository_create_loan_refused. exact Hc.
  - unfold return_book.
    destruct (loans_update _ _ today now d) as [[n d']|] eqn:E; [|exact Hc].
    cbn [snd].
    pose proof (loans_update_unique _ _ _ _ _ _ _ E (proj1 (proj2 Hc))) as Hu'.
    apply return_update_books in E;
      [|intros l Hl; apply andb_true_iff in Hl; tauto].
    destruct E as [El Eb]. destruct Hc as [Hfk [Hu Hlent]].
    split; [|split; [exact Hu'|]].
    + apply (loans_reference_books_ids d); [| |assumption].
      * intros l Hin. rewrite El in Hin. apply loans_rewritten_in in Hin.
        destruct Hin as [l0 [Hl0 [[_ ->]|[_ ->]]]]; exists l0; split; auto.
      * intros b Hin. apply (in_map_ids (books d)); [|assumption].
        rewrite Eb. apply books_released_ids.
    + intros l' b' Hin Ho Hbin Hid.
      rewrite El in Hin. apply loans_rewritten_in in Hin.
      destruct Hin as [l [Hl0 [[Hw ->]|[Hw ->]]]]; [discriminate|].
      rewrite Eb in Hbin. apply books_released_in in Hbin.
      destruct Hbin as [b [Hb0 [Hbid [->|[l0 [Hl0' [Ho0 Hk0]]]]]]].
      * now apply (Hlent l b).
      * exfalso. apply filter_In in Hl0'. destruct Hl0' as [Hl0' Hw0].
        assert (l = l0) by (apply (unique_open_same (loans d)); auto; congruence).
        subst l0. congruence.
  - unfold renew_loan.
    destruct (loans_update _ _ today now d) as [[n d']|] eqn:E; [|exact Hc].
    cbn [snd].
    pose proof (loans_update_unique _ _ _ _ _ _ _ E (proj1 (proj2 Hc))) as Hu'.
    assert (forall l, (loan_id l =? id) && LoanStatus.eqb (loan_status l) LoanStatus.active
                      = true ->
                      is_open l = true /\ is_open (set_renewed new_return_date l) = true)
      as Hwh.
    { intros l Hl. apply andb_true_iff in Hl. destruct Hl as [_ Hs].
      apply loan_status_eqb_eq in Hs. unfold is_open. cbn. rewrite Hs. auto. }
    apply quiet_update_books in E; [|exact Hwh]. destruct E as [El Eb].
    now apply (rewritten_consistent _ _ now d d' Hwh).
  - unfold update_overdue_loans, pg_update_overdue_loans.
    destruct (loans_update _ _ today now d) as [[n d']|] eqn:E; [|exact Hc].
    cbn [snd].
    pose proof (loans_update_unique _ _ _ _ _ _ _ E (proj1 (proj2 Hc))) as Hu'.
    assert (forall l, is_past_due today l = true ->
                      is_open l = true
                      /\ is_open (set_loan_status LoanStatus.overdue l) = true) as Hwh.
    { intros l Hl. destruct (is_past_due_active _ _ Hl) as [Hs _].
      unfold is_open. cbn. rewrite Hs. auto. }
    apply quiet_update_books in E; [|exact Hwh]. destruct E as [El Eb].
    now apply (rewritten_consistent _ _ now d d' Hwh).
  - unfold book_repository_create.
    destruct (books_insert now _ d) as [d'|] eqn:E; [|exact Hc].
    cbn [snd]. apply books_insert_inv in E. destruct E as [Eb [Hfresh El]].
    destruct Hc as [Hfk [Hu Hlent]]. split; [|split].
    + apply (loans_reference_books_ids d); [| |assumption].
      * intros l Hin. rewrite El in Hin. exists l. auto.
      * intros b Hin. exists b. rewrite Eb. split; [apply in_or_app; now left | reflexivity].
    + now rewrite El.
    + intros l b Hin Ho Hbin Hid. rewrite El in Hin. rewrite Eb in Hbin.
      apply in_app_or in Hbin. destruct Hbin as [Hbin|[<-|[]]].
      * now apply (Hlent l b).
      * exfalso. destruct (Hfk l Hin) as [b0 [Hb0 Hid0]].
        apply (Hfresh b0 Hb0). cbn in Hid |- *. congruence.
  - unfold book_repository_update.
    assert (forall b, book_id (apply_book_data bd b) = book_id b
                      /\ status (apply_book_data bd b) = status b) as Hset
      by (intros b; unfold apply_book_data; rewrite Hk; split; reflexivity).
    destruct (bd_book_type bd), (bd_shelf_id bd), (bd_status bd); try exact Hc;
      (destruct (books_update _ _ now d) as [[n d']|] eqn:E; [|exact Hc];
       cbn [snd]; apply books_update_inv in E; destruct E as [Eb El];
       now apply (books_rewritten_consistent _ _ now d d' Hset) in Eb).
  - unfold move_book_to_shelf.
    destruct (books_update _ _ now d) as [[n d']|] eqn:E; [|exact Hc].
    cbn [snd]. apply books_update_inv in E. destruct E as [Eb El].
    apply (books_rewritten_consistent _ _ now d d') in Eb; try assumption.
    intros b. split; reflexivity.
  - unfold book_repository_delete.
    destruct (books_delete id now d) as [[n d']|] eqn:E; [|exact Hc].
    cbn [snd]. apply books_delete_inv in E. destruct E as [Eb El].
    destruct Hc as [Hfk [Hu Hlent]]. split; [|split].
    + intros l Hin. rewrite El in Hin. apply filter_In in Hin. destruct Hin as [Hin Hne].
      destruct (Hfk l Hin) as [b [Hb Hid]]. exists b. split; [|assumption].
      rewrite Eb. apply filter_In. split; [assumption|]. now rewrite Hid.
    + rewrite El. now apply unique_active_book_filter.
    + intros l b Hin Ho Hbin Hid.
      rewrite El in Hin. apply filter_In in Hin.
      rewrite Eb in Hbin. apply filter_In in Hbin.
      apply (Hlent l b); tauto.
  - unfold student_repository_delete.
    destruct (loans_delete _ now _) as [[n d']|] eqn:E; [|exact Hc].
    cbn [snd]. apply loans_delete_inv in E. destruct E as [El Eb].
    cbn [loans books with_students] in El, Eb.
    apply (released_consistent now (fun l => loan_student_id l =? id) d d'); assumption.
  - unfold update_book_count.
    destruct (update_shelf_book_count now sid count_change (shelves d)); exact Hc.
  - unfold fix_capacity_counts.
    destruct (shelves_update _ _ now (shelves d)) as [[n ss]|]; exact Hc.
Qed.

(** X20.  The status of a lent book.  Start from a database where every
    loan refers to a stored book, no book has two open loans and every book
    with an open loan has status loaned.  After any sequence of operations
    other than the direct writes of a status (update_book_status,
    BookRepository.update with a status, LoanRepository.update_status) every
    book with an open loan still has status loaned. *)
Theorem lent_books_stay_loaned (ops : list operation) (d : db) :
  Forall keeps_lending ops ->
  circulation_consistent d ->
  forall l b, In l (loans (run ops d)) -> is_open l = true ->
              In b (books (run ops d)) -> book_id b = loan_book_id l ->
              status b = BookStatus.loaned.
Proof.
  intros Hk Hc.
  assert (circulation_consistent (run ops d)) as [_ [_ H]]; [|exact H].
  revert d Hk Hc. induction ops as [|op rest IH]; intros d Hk Hc; [exact Hc|].
  inversion Hk as [|? ? Hop Hrest]; subst.
  cbn [run fold_left]. apply IH; [assumption|]. now apply exec_circulation_consistent.
Qed.

Lemma circulation_example_lent : circulation_consistent circulation_example.
Proof.
  split; [exact circulation_example_references|].
  split; [exact circulation_example_unique|].
  intros l b Hl Ho Hb Hid. cbn in Hl, Hb.
  destruct Hl as [<-|[<-|[<-|[]]]]; try discriminate;
    destruct Hb as [<-|[<-|[<-|[<-|[]]]]]; try reflexivity; cbn in Hid; lia.
Qed.

Lemma lent_books_stay_loaned_witness :
  Forall (fun l =>
            is_open l = true ->
            Forall (fun b => book_id b = loan_book_id l -> status b = BookStatus.loaned)
              (books (run [CreateLoan 110 112 4 3 1 None None;
                           ReturnBook 110 113 1 None;
                           UpdateOverdueLoans 110 114;
                           DeleteStudent 115 2;
                           MoveBookToShelf 116 1 2]
                          circulation_example)))
         (loans (run [CreateLoan 110 112 4 3 1 None None;
                      ReturnBook 110 113 1 None;
                      UpdateOverdueLoans 110 114;
                      DeleteStudent 115 2;
                      MoveBookToShelf 116 1 2]
                     circulation_example)).
Proof.
  apply Forall_forall. intros l Hl Ho. apply Forall_forall. intros b Hb Hid.
  apply (lent_books_stay_loaned
           [CreateLoan 110 112 4 3 1 None None;
            ReturnBook 110 113 1 None;
            UpdateOverdueLoans 110 114;
            DeleteStudent 115 2;
            MoveBookToShelf 116 1 2]
           circulation_example) with (l := l); try assumption.
  - repeat constructor.
  - exact circulation_example_lent.
Defined.

(** *** ISBN validation *)

Lemma match_isbn10_length (s : str) : match_isbn10 s = true -> List.length s = 10%nat.
Proof.
  unfold match_isbn10. intros H.
  apply andb_true_iff in H. destruct H as [H _].
  apply andb_true_iff in H. destruct H as [H _]. now apply Nat.eqb_eq.
Qed.

Lemma match_isbn13_length (s : str) : match_isbn13 s = true -> List.length s = 13%nat.
Proof.
  unfold match_isbn13. destruct s as [|c1 [|c2 [|c3 rest]]]; try discriminate.
  intros H. apply andb_true_iff in H. destruct H as [_ H].
  apply match_isbn10_length in H. cbn. now rewrite H.
Qed.

Lemma clean_isbn_clean (isbn : str) :
  forallb (fun c => negb ((c =? code "-")%N || is_space c)) isbn = true ->
  clean_isbn isbn = isbn.
Proof.
  unfold clean_isbn. induction isbn as [|c rest IH]; [reflexivity|].
  cbn [forallb filter]. intros H. apply andb_true_iff in H. destruct H as [Hc Hr].
  rewrite Hc. f_equal. now apply IH.
Qed.

Lemma validate_clean_isbn (s : str) :
  (if (List.length s =? 10)%nat then match_isbn10 s
   else if (List.length s =? 13)%nat then match_isbn13 s else false)
  = match_isbn10 s || match_isbn13 s.
Proof.
  destruct (match_isbn10 s) eqn:E10.
  - rewrite (match_isbn10_length _ E10). reflexivity.
  - destruct (match_isbn13 s) eqn:E13.
    + rewrite (match_isbn13_length _ E13). reflexivity.
    + destruct (List.length s =? 10)%nat; [reflexivity|].
      destruct (List.length s =? 13)%nat; reflexivity.
Qed.

(** X21.  BooksTableManager._validate_isbn accepts an ISBN exactly when
    the ISBN, with its hyphens and white space removed, satisfies the
    pattern of the CHECK constraint chk_isbn_format; for an ISBN without
    hyphens and white space the method and the constraint agree.  Cleaning
    first does not change the verdict.  An accepted ISBN has 10 or 13
    characters after cleaning, all of them digits or X: the check digit is
    not verified. *)
Theorem validate_isbn_agrees_with_check (isbn : str) :
  _validate_isbn isbn = chk_isbn_format (Some (clean_isbn isbn))
  /\ (forallb (fun c => negb ((c =? code "-")%N || is_space c)) isbn = true ->
      _validate_isbn isbn = chk_isbn_format (Some isbn))
  /\ _validate_isbn (clean_isbn isbn) = _validate_isbn isbn
  /\ (_validate_isbn isbn = true ->
      (List.length (clean_isbn isbn) = 10%nat \/ List.length (clean_isbn isbn) = 13%nat)
      /\ forallb is_digit_or_X (clean_isbn isbn) = true).
Proof.
  assert (_validate_isbn isbn = chk_isbn_format (Some (clean_isbn isbn))) as H1.
  { unfold _validate_isbn. cbn zeta. apply validate_clean_isbn. }
  assert (clean_isbn (clean_isbn isbn) = clean_isbn isbn) as Hidem.
  { apply clean_isbn_clean. apply forallb_forall. intros c Hc.
    unfold clean_isbn in Hc. apply filter_In in Hc. tauto. }
  split; [exact H1|]. split; [|split].
  - intros Hclean. rewrite H1. now rewrite clean_isbn_clean.
  - unfold _validate_isbn. cbn zeta. now rewrite Hidem.
  - intros Hv. rewrite H1 in Hv. cbn in Hv. apply orb_true_iff in Hv.
    assert (forall s, match_isbn10 s = true -> forallb is_digit_or_X s = true) as H10.
    { intros s Hs. pose proof Hs as Hlen. apply match_isbn10_length in Hlen.
      unfold match_isbn10 in Hs.
      apply andb_true_iff in Hs. destruct Hs as [Hs Hlast].
      apply andb_true_iff in Hs. destruct Hs as [_ Hfirst].
      rewrite <- (firstn_skipn 9 s), forallb_app, Hlast, andb_true_r.
      apply forallb_forall. intros c Hc.
      rewrite forallb_forall in Hfirst. unfold is_digit_or_X.
      now rewrite (Hfirst c Hc). }
    destruct Hv as [Hv|Hv].
    + split; [left; now apply match_isbn10_length | now apply H10].
    + split; [right; now apply match_isbn13_length|].
      unfold match_isbn13 in Hv.
      destruct (clean_isbn isbn) as [|c1 [|c2 [|c3 rest]]]; try discriminate.
      apply andb_true_iff in Hv. destruct Hv as [Hv Hrest].
      apply andb_true_iff in Hv. destruct Hv as [Hv H3].
      apply andb_true_iff in Hv. destruct Hv as [Hc1 Hc2].
      apply N.eqb_eq in Hc1, Hc2. subst c1 c2.
      cbn [forallb]. rewrite (H10 _ Hrest), andb_true_r.
      apply orb_true_iff in H3. destruct H3 as [H3|H3]; apply N.eqb_eq in H3; subst c3;
        reflexivity.
Qed.
